(** * Chart configuration pipeline: a shallow embedding and its properties

    The development follows the utility modules of the repository:

    - [BrushConfig]     (src/utils/brushConfig.ts): the range/brush transitions;
    - [JS]              the fragment of ECMAScript values the utilities inspect;
    - [ReferenceConfig] (src/utils/referenceConfig.ts): reference values;
    - [ParseConfig]     (parseConfig / inferChartType): normalisation;
    - [SyncConfig]      (src/utils/syncConfig.ts): cross-chart synchronisation.

    Conventions.
    - Array indices and lengths are integer-valued numbers far below 2^53,
      where the arithmetic of the source ([+ 1], [- stepSize], [Math.max],
      [Math.min], [<]) is exact: they are modelled in [Z].
    - Numbers found inside datasets and reference expressions are kept
      abstract behind the interface [JSNumber]; every theorem that
      quantifies over datasets holds for any implementation of that
      interface.  [ExactNumbers] is an executable instance used to run the
      embedding on concrete inputs.
    - A record of a dataset is the collection of its own properties.  Where
      [parseConfig] and [inferChartType] read [item[key]], a missing
      property that names a member every object inherits yields a function
      or an object, which, like [undefined], is neither a number nor
      numeric; the field names handed to the reference and synchronisation
      utilities are assumed not to name such a member.
    - The objects [parseConfig] itself indexes by a name the caller chooses
      ([mockDatabase], [seriesConfig], [seriesYAxisMap]) are modelled with
      the members they inherit: see [inherited] and [assign].
    - A thrown [Error] is a returned error value. *)

From Stdlib Require Import ZArith QArith Lia Ascii.
From stdpp Require Import base option list strings gmap.

(* ===================================================================== *)
(** ** brushConfig.ts *)
(* ===================================================================== *)

Module BrushConfig.

Local Open Scope Z_scope.

(** [interface BrushChangeResult]. *)
Record BrushChangeResult := mkBrushChangeResult {
  startIndex : Z;
  endIndex : Z;
  range : Z
}.

(** [onBrushChange(startIndex, endIndex, dataLength)]. *)
Definition onBrushChange (startIndex endIndex dataLength : Z) : BrushChangeResult :=
  let validatedStartIndex := Z.max 0 (Z.min startIndex (dataLength - 1)) in
  let validatedEndIndex :=
    Z.max (validatedStartIndex + 1) (Z.min endIndex dataLength) in
  {| startIndex := validatedStartIndex;
     endIndex := validatedEndIndex;
     range := validatedEndIndex - validatedStartIndex |}.

(** [resetBrush(dataLength)]; the thrown [Error] is the [inl] message. *)
Definition resetBrush (dataLength : Z) : string + BrushChangeResult :=
  if dataLength <=? 0 then inl "Data length must be greater than 0"%string
  else inr {| startIndex := 0; endIndex := dataLength; range := dataLength |}.

(** [handleBrushKeyboard(key, currentStart, currentEnd, dataLength, stepSize = 1)].
    An omitted [stepSize] is [None]; the result [null] is [None]. *)
Definition handleBrushKeyboard (key : string)
    (currentStart currentEnd dataLength : Z) (stepSize : option Z)
    : option BrushChangeResult :=
  let stepSize := default 1 stepSize in
  if String.eqb key "ArrowLeft" then
    let newStart := Z.max 0 (currentStart - stepSize) in
    let newEnd := Z.max (newStart + 1) (currentEnd - stepSize) in
    Some (onBrushChange newStart newEnd dataLength)
  else if String.eqb key "ArrowRight" then
    let newEnd := Z.min dataLength (currentEnd + stepSize) in
    let newStart := Z.min (newEnd - 1) (currentStart + stepSize) in
    Some (onBrushChange newStart newEnd dataLength)
  else if String.eqb key "ArrowUp" then
    let newStart := Z.max 0 (currentStart - stepSize) in
    let newEnd := Z.min dataLength (currentEnd + stepSize) in
    Some (onBrushChange newStart newEnd dataLength)
  else if String.eqb key "ArrowDown" then
    let newStart := Z.min (currentEnd - 1) (currentStart + stepSize) in
    let newEnd := Z.max (newStart + 1) (currentEnd - stepSize) in
    Some (onBrushChange newStart newEnd dataLength)
  else None.

Definition window (r : BrushChangeResult) : Z * Z := (startIndex r, endIndex r).

Definition width (r : BrushChangeResult) : Z := endIndex r - startIndex r.

(** The words of the specification for the two horizontal keys: a window
    inside the data bounds always admits a translation that keeps its width
    (by less than [n], or by nothing when it is flush against the bound), so
    the key is to return a window of the same width. *)
Definition spec_keeps_width (key : string) (currentStart currentEnd dataLength n : Z)
    : Prop :=
  0 <= currentStart -> currentStart < currentEnd -> currentEnd <= dataLength ->
  0 <= n ->
  forall r,
    handleBrushKeyboard key currentStart currentEnd dataLength (Some n) = Some r ->
    width r = currentEnd - currentStart.

End BrushConfig.

(* ===================================================================== *)
(** ** The ECMAScript fragment used by the utilities *)
(* ===================================================================== *)

Module JS.

Local Open Scope string_scope.

(** The Number type and the built-in functions on it that the source calls.
    They are not code of the repository; the embedding only fixes their
    signatures.  [isNaN], [num_eqb], [num_ltb] and [num_leb] are [isNaN],
    [===], [<] and [<=] on numbers; [parseFloat] is the global of that name
    and [StringToNumber] is [Number] applied to a string. *)
Class JSNumber := {
  num : Type;
  num_of_Z : Z -> num;
  NaN : num;
  pos_infinity : num;
  neg_infinity : num;
  isNaN : num -> bool;
  num_eqb : num -> num -> bool;
  num_ltb : num -> num -> bool;
  num_leb : num -> num -> bool;
  num_add : num -> num -> num;
  num_sub : num -> num -> num;
  num_mul : num -> num -> num;
  num_div : num -> num -> num;
  parseFloat : string -> num;
  StringToNumber : string -> num
}.

Section Values.
Context `{JSNumber}.

(** Values found in datasets and configuration objects.  An object (plain
    object or array, as JSON produces them) is opaque: it has an identity
    and the string its [toString] yields. *)
Inductive value :=
  | VUndefined
  | VNull
  | VBoolean (b : bool)
  | VNumber (n : num)
  | VString (s : string)
  | VObject (ref : nat) (str : string).

(** [typeof v === "number"], [typeof v === "string"], [v === undefined]. *)
Definition is_number (v : value) : bool :=
  match v with VNumber _ => true | _ => false end.

Definition is_string (v : value) : bool :=
  match v with VString _ => true | _ => false end.

Definition is_undefined (v : value) : bool :=
  match v with VUndefined => true | _ => false end.

(** [Number(v)]. *)
Definition Number (v : value) : num :=
  match v with
  | VUndefined => NaN
  | VNull => num_of_Z 0
  | VBoolean b => num_of_Z (if b then 1 else 0)
  | VNumber n => n
  | VString s => StringToNumber s
  | VObject _ str => StringToNumber str
  end.

(** [typeof v === "number" ? v : parseFloat(String(v))]: the coercion of
    [extractNumericValues].  [String] is only ever applied to a value that
    is not a number. *)
Definition number_or_parseFloat_String (v : value) : num :=
  match v with
  | VNumber n => n
  | VUndefined => parseFloat "undefined"
  | VNull => parseFloat "null"
  | VBoolean b => parseFloat (if b then "true" else "false")
  | VString s => parseFloat s
  | VObject _ str => parseFloat str
  end.

(** Truthiness of a number: [0] and [NaN] are falsy. *)
Definition num_truthy (n : num) : bool :=
  negb (isNaN n) && negb (num_eqb n (num_of_Z 0)).

(** [a === b]. *)
Definition strict_eq (a b : value) : bool :=
  match a, b with
  | VUndefined, VUndefined => true
  | VNull, VNull => true
  | VBoolean x, VBoolean y => Bool.eqb x y
  | VNumber x, VNumber y => num_eqb x y
  | VString x, VString y => String.eqb x y
  | VObject r _, VObject r' _ => Nat.eqb r r'
  | _, _ => false
  end.

(** [Math.max(...xs)] and [Math.min(...xs)]. *)
Definition Math_max2 (a b : num) : num :=
  if isNaN a || isNaN b then NaN else if num_ltb a b then b else a.

Definition Math_min2 (a b : num) : num :=
  if isNaN a || isNaN b then NaN else if num_ltb b a then b else a.

Definition Math_max (xs : list num) : num := fold_left Math_max2 xs neg_infinity.

Definition Math_min (xs : list num) : num := fold_left Math_min2 xs pos_infinity.

(** A record ([Record<string, unknown>]) is the list of its own enumerable
    properties in enumeration order.  A property it does not own reads as
    [undefined]; for a name every object inherits ([toString], ...) the
    program reads a function or an object instead, which no test of
    [parseConfig] or [inferChartType] tells from [undefined]. *)
Definition record := list (string * value).

(** [item[key]]. *)
Fixpoint get (item : record) (key : string) : value :=
  match item with
  | [] => VUndefined
  | (k, v) :: rest => if String.eqb k key then v else get rest key
  end.

(** [key in item]. *)
Definition has (item : record) (key : string) : bool :=
  existsb (fun kv => String.eqb (fst kv) key) item.

(** [Object.keys(item)]. *)
Definition Object_keys (item : record) : list string := map fst item.

(** [xs.includes(x)] and [xs.indexOf(x)] on arrays of strings. *)
Definition includes (xs : list string) (x : string) : bool :=
  existsb (String.eqb x) xs.

Fixpoint indexOf (xs : list string) (x : string) : Z :=
  match xs with
  | [] => (-1)%Z
  | y :: rest =>
      if String.eqb y x then 0%Z
      else let i := indexOf rest x in if (i <? 0)%Z then (-1)%Z else (i + 1)%Z
  end.

End Values.

(** The members every plain object inherits from [Object.prototype].  On an
    object that has no own property of that name, [obj[name]] reads the
    member: a function, or the prototype itself for ["__proto__"].  All of
    them are truthy and none is an array. *)
Definition Object_prototype_members : list string :=
  [ "constructor"; "hasOwnProperty"; "isPrototypeOf"; "propertyIsEnumerable";
    "toLocaleString"; "toString"; "valueOf"; "__proto__";
    "__defineGetter__"; "__defineSetter__"; "__lookupGetter__";
    "__lookupSetter__" ]%string.

Definition inherited (name : string) : bool :=
  includes Object_prototype_members name.

(** [obj[name] = v] on a plain object, for a value [v] that is a string: it
    creates or overwrites the own property, except under the name
    ["__proto__"], where the inherited setter ignores a value that is not
    an object. *)
Definition assign {A} (obj : gmap string A) (name : string) (v : A)
    : gmap string A :=
  if String.eqb name "__proto__" then obj else <[name := v]> obj.

(** Strings: [s.endsWith(c)] for a one-character suffix, [s.slice(0, -1)]
    and [s.toLowerCase()].  Only the letters A-Z are folded: no string with
    a character outside ASCII lower-cases to a keyword of the source. *)
Fixpoint endsWith (s : string) (c : ascii) : bool :=
  match s with
  | EmptyString => false
  | String a EmptyString => Ascii.eqb a c
  | String _ rest => endsWith rest c
  end.

Fixpoint slice_0_minus1 (s : string) : string :=
  match s with
  | EmptyString => EmptyString
  | String _ EmptyString => EmptyString
  | String a rest => String a (slice_0_minus1 rest)
  end.

Definition lower_ascii (c : ascii) : ascii :=
  let n := nat_of_ascii c in
  if (65 <=? n)%nat && (n <=? 90)%nat then ascii_of_nat (n + 32) else c.

Fixpoint toLowerCase (s : string) : string :=
  match s with
  | EmptyString => EmptyString
  | String a rest => String (lower_ascii a) (toLowerCase rest)
  end.

End JS.

(* ===================================================================== *)
(** ** referenceConfig.ts *)
(* ===================================================================== *)

Module ReferenceConfig.
Import JS.

Local Open Scope string_scope.

Section WithNumbers.
Context `{JSNumber}.

(** [if (dataKey)]: an omitted or empty key is falsy. *)
Definition truthy_key (dataKey : option string) : option string :=
  match dataKey with
  | Some k => if String.eqb k "" then None else Some k
  | None => None
  end.

(** [extractNumericValues(data, dataKey?)]; every item is a record, so the
    [typeof item !== "object"] skip never applies. *)
Definition extractNumericValues (data : list record) (dataKey : option string)
    : list num :=
  flat_map (fun item =>
    match truthy_key dataKey with
    | Some key =>
        let value := get item key in
        let numValue := number_or_parseFloat_String value in
        if negb (isNaN numValue) then [numValue] else []
    | None =>
        flat_map (fun key =>
          let value := get item key in
          let numValue := number_or_parseFloat_String value in
          if negb (isNaN numValue) && negb (is_string value)
          then [numValue] else [])
        (Object_keys item)
    end) data.

(** [calculateAverage(values)]. *)
Definition calculateAverage (values : list num) : num :=
  if Nat.eqb (length values) 0 then num_of_Z 0
  else num_div (fold_left num_add values (num_of_Z 0))
               (num_of_Z (Z.of_nat (length values))).

(** [[...values].sort((a, b) => a - b)]: the stable sort that the
    comparator [a - b] determines. *)
Fixpoint sort_insert (x : num) (sorted : list num) : list num :=
  match sorted with
  | [] => [x]
  | y :: rest =>
      if num_ltb (num_of_Z 0) (num_sub y x) then x :: y :: rest
      else y :: sort_insert x rest
  end.

Definition sort_ascending (values : list num) : list num :=
  fold_left (fun acc x => sort_insert x acc) values [].

(** [calculateMedian(values)]. *)
Definition calculateMedian (values : list num) : num :=
  if Nat.eqb (length values) 0 then num_of_Z 0
  else
    let sorted := sort_ascending values in
    let mid := Nat.div (length sorted) 2 in
    if Nat.eqb (Nat.modulo (length sorted) 2) 0
    then num_div (num_add (nth (mid - 1) sorted NaN) (nth mid sorted NaN))
                 (num_of_Z 2)
    else nth mid sorted NaN.

(** [parseReferenceValue(value, data, dataKey?)]; [undefined] is [None]. *)
Definition parseReferenceValue (value : value) (data : list record)
    (dataKey : option string) : option num :=
  match value with
  | VUndefined => None
  | VNumber n => Some n
  | VString value =>
      if endsWith value "%" then
        let percentageStr := slice_0_minus1 value in
        let percentage := parseFloat percentageStr in
        if isNaN percentage then None
        else
          let numericValues := extractNumericValues data dataKey in
          if Nat.eqb (length numericValues) 0 then None
          else
            let maxValue := Math_max numericValues in
            Some (num_div (num_mul maxValue percentage) (num_of_Z 100))
      else
        let lowerValue := toLowerCase value in
        let numericValues := extractNumericValues data dataKey in
        if Nat.eqb (length numericValues) 0 then None
        else if String.eqb lowerValue "average" || String.eqb lowerValue "mean"
        then Some (calculateAverage numericValues)
        else if String.eqb lowerValue "max" || String.eqb lowerValue "maximum"
        then Some (Math_max numericValues)
        else if String.eqb lowerValue "min" || String.eqb lowerValue "minimum"
        then Some (Math_min numericValues)
        else if String.eqb lowerValue "median"
        then Some (calculateMedian numericValues)
        else
          let numValue := parseFloat value in
          if negb (isNaN numValue) then Some numValue else None
  | _ => None
  end.

(** A [ReferenceElement] is the finite map of its own properties. *)
Definition element_value (element : gmap string value) : value :=
  default VUndefined (element !! "value").

Definition resolved (parsedValue : option num) : value :=
  match parsedValue with Some n => VNumber n | None => VUndefined end.

(** [buildReferenceElements(elements, data, dataKey?)]. *)
Definition buildReferenceElements (elements : option (list (gmap string value)))
    (data : list record) (dataKey : option string) : list (gmap string value) :=
  match elements with
  | None => []
  | Some elements =>
      if Nat.eqb (length elements) 0 then []
      else
        map (fun element =>
          let parsedValue := parseReferenceValue (element_value element) data dataKey in
          <["value" := resolved parsedValue]> element) elements
  end.

(** The words of the specification for a string that is neither a
    percentage nor a statistic keyword: "attempt a bare numeric parse of
    the string", whatever the dataset holds. *)
Definition is_statistic_keyword (s : string) : bool :=
  let l := toLowerCase s in
  existsb (String.eqb l)
    ["average"; "mean"; "max"; "maximum"; "min"; "minimum"; "median"].

Definition spec_resolve_bare (expression : string) : option num :=
  let n := parseFloat expression in
  if isNaN n then None else Some n.

End WithNumbers.
End ReferenceConfig.

(* ===================================================================== *)
(** ** parseConfig and inferChartType *)
(* ===================================================================== *)

Module ParseConfig.
Import JS.

Local Open Scope string_scope.

(** [type ChartType], [type SeriesType] and the two themes (types.ts). *)
Inductive ChartType :=
  | Bar | Line | Area | Pie | Composed | Scatter | Radar | Funnel | Sankey | Treemap.

Inductive SeriesType := SeriesBar | SeriesLine | SeriesArea.

Inductive Theme := Light | Dark.

Inductive AxisSide := AxisLeft | AxisRight.

Definition ChartType_eqb (a b : ChartType) : bool :=
  match a, b with
  | Bar, Bar | Line, Line | Area, Area | Pie, Pie | Composed, Composed
  | Scatter, Scatter | Radar, Radar | Funnel, Funnel | Sankey, Sankey
  | Treemap, Treemap => true
  | _, _ => false
  end.

(** [yAxis] / [yAxis2]: one series name or an array of them. *)
Inductive AxisSpec :=
  | AxisOne (s : string)
  | AxisMany (l : list string).

(** Truthiness of an optional axis declaration: [undefined] and the empty
    string are falsy, an array is truthy. *)
Definition axis_truthy (a : option AxisSpec) : bool :=
  match a with
  | None => false
  | Some (AxisOne s) => negb (String.eqb s "")
  | Some (AxisMany _) => true
  end.

(** [Array.isArray(a) ? a : [a]]. *)
Definition axis_series (a : AxisSpec) : list string :=
  match a with AxisOne s => [s] | AxisMany l => l end.

(** The optional fields that [parseConfig] copies when they are not
    [undefined], in the order of the source. *)
Definition passThroughKeys : list string :=
  [ "subtitle"; "layout"; "barSize"; "barGap"; "barCategoryGap"; "maxBarSize";
    "barRadius"; "stackOffset"; "reverseStackOrder"; "baseValue"; "curveType";
    "strokeWidth"; "fillOpacity"; "dotSize"; "dotColor"; "animationDuration";
    "animationEasing"; "label"; "tooltip"; "legend"; "brush";
    "referenceElements"; "axisConfig"; "syncId"; "styling"; "palette"; "cx";
    "cy"; "innerRadius"; "outerRadius"; "startAngle"; "endAngle" ].

Section WithNumbers.
Context `{JSNumber}.

(** [config.data]: an array of records, a non-empty array whose first
    element is not an object, an object with a [datasetId], or anything
    else. *)
Inductive DataSource :=
  | DataArray (items : list record)
  | DataOther
  | DataById (datasetId : string)
  | DataInvalid.

(** [interface ChartConfig]: the fields [parseConfig] interprets are record
    fields; every other own property of the raw object is in [config_rest]. *)
Record ChartConfig := mkChartConfig {
  config_data : DataSource;
  config_chartType : option ChartType;
  config_title : option string;
  config_xAxis : option string;
  config_yAxis : option AxisSpec;
  config_yAxis2 : option AxisSpec;
  config_series : option (list string);
  config_seriesConfig : option (gmap string SeriesType);
  config_theme : option Theme;
  config_rest : gmap string value
}.

(** [interface ParsedChartConfig]; [parsed_optional] holds [subtitle] and the
    other pass-through fields that are present. *)
Record ParsedChartConfig := mkParsedChartConfig {
  parsed_chartType : ChartType;
  parsed_title : string;
  parsed_data : list record;
  parsed_xAxis : string;
  parsed_series : list string;
  parsed_seriesConfig : gmap string SeriesType;
  parsed_theme : Theme;
  parsed_optional : gmap string value;
  parsed_seriesYAxisMap : option (gmap string AxisSide);
  parsed_yAxis : option AxisSpec;
  parsed_yAxis2 : option AxisSpec
}.

(** [const mockDatabase]. *)
Definition sales_row (month : string) (sales revenue profit : Z) : record :=
  [ ("month", VString month); ("sales", VNumber (num_of_Z sales));
    ("revenue", VNumber (num_of_Z revenue)); ("profit", VNumber (num_of_Z profit)) ].

Definition mockDatabase : gmap string (list record) :=
  {[ "sales-2024" :=
       [ sales_row "Jan" 4000 2400 2400; sales_row "Feb" 3000 1398 2210;
         sales_row "Mar" 2000 9800 2290; sales_row "Apr" 2780 3908 2000;
         sales_row "May" 1890 4800 2181; sales_row "Jun" 2390 3800 2500 ] ]}.

(** [typeof v === "number" || !isNaN(Number(v))]. *)
Definition numeric_like (v : value) : bool :=
  is_number v || negb (isNaN (Number v)).

(** The structural checks of [inferChartType], in the order of the source. *)
Definition sankey_pattern (data : list record) : bool :=
  forallb (fun item => has item "source" && has item "target" && has item "value") data.

Definition treemap_children_pattern (data : list record) : bool :=
  match data with
  | firstItem :: _ => has firstItem "children" && has firstItem "name"
  | [] => false
  end.

Definition treemap_name_value_pattern (data : list record) : bool :=
  forallb (fun item =>
    has item "name" && has item "value" && is_number (get item "value")) data.

Definition scatter_pattern (data : list record) (series : list string) : bool :=
  match series with
  | [firstSeries; secondSeries] =>
      (3 <=? length data)%nat &&
      (forallb (fun item =>
         let val1 := get item firstSeries in
         let val2 := get item secondSeries in
         numeric_like val1 && numeric_like val2) data
       && (3 <=? length data)%nat)
  | _ => false
  end.

Definition radar_pattern (data : list record) (series : list string) : bool :=
  (3 <=? length series)%nat &&
  (forallb (fun item => forallb (fun s => numeric_like (get item s)) series) data
   && (3 <=? length data)%nat).

(** [data.map((item) => Number(item[s]) || 0).filter((v) => v > 0)]. *)
Definition funnel_values (data : list record) (s : string) : list num :=
  filter (fun v => Is_true (num_ltb (num_of_Z 0) v))
    (map (fun item =>
            let n := Number (get item s) in
            if num_truthy n then n else num_of_Z 0) data).

(** The loop counting the positions [i >= 1] with [values[i] <= values[i-1]]. *)
Fixpoint decreasingCount (values : list num) : nat :=
  match values with
  | prev :: (cur :: _) as rest =>
      ((if num_leb cur prev then 1 else 0) + decreasingCount rest)%nat
  | _ => 0%nat
  end.

(** [decreasingCount >= values.length * 0.6].  Both operands are integers
    no larger than 15; the double nearest to 0.6 times 5, 10 or 15 rounds to
    exactly 3, 6 or 9, and for every other length the product is at least
    0.2 away from an integer, so the comparison of the source is the
    comparison [3 * length <= 5 * count] of integers. *)
Definition funnel_threshold (values : list num) : bool :=
  (3 * length values <=? 5 * decreasingCount values)%nat.

Definition funnel_pattern (data : list record) (series : list string) : bool :=
  match series with
  | [s] =>
      (2 <=? length data)%nat && (length data <=? 15)%nat &&
      funnel_threshold (funnel_values data s)
  | _ => false
  end.

(** [inferChartType(data, series)]. *)
Definition inferChartType (data : list record) (series : list string) : ChartType :=
  let dataLength := length data in
  if sankey_pattern data then Sankey
  else if treemap_children_pattern data then Treemap
  else if treemap_name_value_pattern data then Treemap
  else if scatter_pattern data series then Scatter
  else if radar_pattern data series then Radar
  else if funnel_pattern data series then Funnel
  else if Nat.eqb (length series) 1 && (3 <=? dataLength)%nat && (dataLength <=? 20)%nat
  then Pie
  else if (2 <=? length series)%nat then Composed
  else Bar.

(** The rules that follow the funnel rule. *)
Definition after_funnel (data : list record) (series : list string) : ChartType :=
  if Nat.eqb (length series) 1 && (3 <=? length data)%nat && (length data <=? 20)%nat
  then Pie
  else if (2 <=? length series)%nat then Composed
  else Bar.

(** The earlier structural checks: flow diagram, hierarchy, scatter, radar. *)
Definition earlier_checks (data : list record) (series : list string) : bool :=
  sankey_pattern data || treemap_children_pattern data ||
  treemap_name_value_pattern data || scatter_pattern data series ||
  radar_pattern data series.

(** The funnel rule in the words of the specification: exactly one series
    field, 2 to 15 records, positive values, and at least 60% of the
    consecutive pairs of values non-increasing. *)
Definition spec_pairs (values : list num) : nat := (length values - 1)%nat.

Definition spec_funnel_rule (data : list record) (series : list string) : bool :=
  match series with
  | [s] =>
      let values := map (fun item => Number (get item s)) data in
      (2 <=? length data)%nat && (length data <=? 15)%nat &&
      forallb (fun v => num_ltb (num_of_Z 0) v) values &&
      (3 * spec_pairs values <=? 5 * decreasingCount values)%nat
  | _ => false
  end.

(** The errors [parseConfig] throws, by message:
    - [DatasetNotFound id]: Dataset with ID [id] not found;
    - [InvalidData]: Invalid data: must be an array or have a datasetId property;
    - [EmptyData]: Data must be a non-empty array;
    - [ItemsNotObjects]: Data items must be objects;
    - [NoProperties]: Data items must have at least one property;
    - [XAxisNotFound x]: X-axis column [x] not found in data;
    - [NoNumericColumns]: No numeric columns found for visualization. *)
Inductive ParseError :=
  | DatasetNotFound (datasetId : string)
  | InvalidData
  | EmptyData
  | ItemsNotObjects
  | NoProperties
  | XAxisNotFound (xAxis : string)
  | NoNumericColumns.

(** Resolution of [config.data], with the tests that depend on what it
    resolves to.  [mockDatabase[datasetId]] is a lookup on a plain object:
    for a [datasetId] that names an inherited member it finds that member,
    which passes [!dataset] and fails [Array.isArray(data)].  An array whose
    first element is not an object passes both tests on the array and
    fails the test on [sampleItem]. *)
Definition resolve_data (source : DataSource) : ParseError + list record :=
  match source with
  | DataArray items => inr items
  | DataOther => inl ItemsNotObjects
  | DataById datasetId =>
      match mockDatabase !! datasetId with
      | None =>
          if inherited datasetId then inl EmptyData
          else inl (DatasetNotFound datasetId)
      | Some dataset => inr dataset
      end
  | DataInvalid => inl InvalidData
  end.

(** The columns used when no series is declared. *)
Definition numeric_columns (data : list record) (availableKeys : list string)
    (xAxis : string) : list string :=
  filter (fun key => Is_true (
    negb (String.eqb key xAxis) &&
    existsb (fun item => numeric_like (get item key)) data)) availableKeys.

(** [Object.assign(target, source)] on per-series type maps: every own
    property of [source] is assigned to [target], so that, as with [assign],
    one named ["__proto__"] is not stored. *)
Definition Object_assign {A} (target source : gmap string A) : gmap string A :=
  delete "__proto__" source ∪ target.

(** [series.indexOf(s) === 0 ? "bar" : "line"]. *)
Definition default_type (series : list string) (s : string) : SeriesType :=
  if (indexOf series s =? 0)%Z then SeriesBar else SeriesLine.

(** [seriesConfig[s]] is truthy: the object has an own entry, which is one
    of the three non-empty type names, or [s] names an inherited member. *)
Definition has_type (seriesConfig : gmap string SeriesType) (s : string) : bool :=
  match seriesConfig !! s with
  | Some _ => true
  | None => inherited s
  end.

(** The loop filling in the types of a composed chart: a series for which
    [!seriesConfig[s]] holds gets the default one. *)
Definition fill_series_defaults (series : list string)
    (seriesConfig : gmap string SeriesType) : gmap string SeriesType :=
  fold_left (fun seriesConfig s =>
    if has_type seriesConfig s then seriesConfig
    else assign seriesConfig s (default_type series s)) series seriesConfig.

(** [axisSeries.forEach((s) => { if (series.includes(s)) map[s] = side })]. *)
Definition map_axis (side : AxisSide) (series axisSeries : list string)
    (seriesYAxisMap : gmap string AxisSide) : gmap string AxisSide :=
  fold_left (fun m s => if includes series s then assign m s side else m)
    axisSeries seriesYAxisMap.

Definition build_seriesYAxisMap (yAxis yAxis2 : option AxisSpec)
    (series : list string) : option (gmap string AxisSide) :=
  if axis_truthy yAxis || axis_truthy yAxis2 then
    let m := ∅ in
    let m := match yAxis with
             | Some a => if axis_truthy yAxis
                         then map_axis AxisLeft series (axis_series a) m else m
             | None => m
             end in
    let m := match yAxis2 with
             | Some a => if axis_truthy yAxis2
                         then map_axis AxisRight series (axis_series a) m else m
             | None => m
             end in
    Some m
  else None.

(** The pass-through block: a recognised field is copied when its value is
    not [undefined]. *)
Definition passed_through (kv : string * value) : Prop :=
  Is_true (includes passThroughKeys (fst kv) && negb (is_undefined (snd kv))).

Definition pass_through (rest : gmap string value) : gmap string value :=
  filter passed_through rest.

(** [parseConfig(config)].  The test on [sampleItem] ("Data items must be
    objects") is part of [resolve_data]; a declared x-axis is a string, so
    [typeof xAxis !== "string"] cannot fire. *)
Definition parseConfig (config : ChartConfig) : ParseError + ParsedChartConfig :=
  match resolve_data (config_data config) with
  | inl e => inl e
  | inr data =>
  match data with
  | [] => inl EmptyData
  | sampleItem :: _ =>
  let availableKeys := Object_keys sampleItem in
  match availableKeys with
  | [] => inl NoProperties
  | firstKey :: _ =>
  let xAxis := default firstKey (config_xAxis config) in
  if negb (includes availableKeys xAxis) then inl (XAxisNotFound xAxis)
  else
  let series := default [] (config_series config) in
  let series :=
    if Nat.eqb (length series) 0 then numeric_columns data availableKeys xAxis
    else series in
  if Nat.eqb (length series) 0 then inl NoNumericColumns
  else
  let chartType := default (inferChartType data series) (config_chartType config) in
  let seriesConfig := ∅ in
  let seriesConfig :=
    match config_seriesConfig config with
    | Some user => Object_assign seriesConfig user
    | None => seriesConfig
    end in
  let seriesConfig :=
    if ChartType_eqb chartType Composed
    then fill_series_defaults series seriesConfig else seriesConfig in
  let theme := default Light (config_theme config) in
  inr {| parsed_chartType := chartType;
         parsed_title := default "Data Visualization" (config_title config);
         parsed_data := data;
         parsed_xAxis := xAxis;
         parsed_series := series;
         parsed_seriesConfig := seriesConfig;
         parsed_theme := theme;
         parsed_optional := pass_through (config_rest config);
         parsed_seriesYAxisMap :=
           build_seriesYAxisMap (config_yAxis config) (config_yAxis2 config) series;
         parsed_yAxis := config_yAxis config;
         parsed_yAxis2 := config_yAxis2 config |}
  end end end.

(** A canonical configuration handed back as raw input: the same object,
    read through [interface ChartConfig].  Its [seriesYAxisMap] property is
    not a field [parseConfig] reads. *)
Definition as_raw (p : ParsedChartConfig) : ChartConfig :=
  {| config_data := DataArray (parsed_data p);
     config_chartType := Some (parsed_chartType p);
     config_title := Some (parsed_title p);
     config_xAxis := Some (parsed_xAxis p);
     config_yAxis := parsed_yAxis p;
     config_yAxis2 := parsed_yAxis2 p;
     config_series := Some (parsed_series p);
     config_seriesConfig := Some (parsed_seriesConfig p);
     config_theme := Some (parsed_theme p);
     config_rest := parsed_optional p |}.

(** The words of the specification on single-kind charts: their canonical
    configuration "carries no per-series type mapping". *)
Definition spec_no_type_map (c : ChartConfig) : Prop :=
  forall p, parseConfig c = inr p ->
    parsed_chartType p <> Composed -> parsed_seriesConfig p = ∅.

End WithNumbers.
End ParseConfig.

(* ===================================================================== *)
(** ** syncConfig.ts *)
(* ===================================================================== *)

Module SyncConfig.
Import JS.

Local Open Scope Z_scope.

(** [type SyncMethod = 'index' | 'value']. *)
Inductive SyncMethod := ByIndex | ByValue.

(** Registered callbacks are opaque; each has an identity. *)
Definition Listener := nat.

(** [interface SyncedBrushState] and its [Partial<...>]. *)
Record SyncedBrushState := mkSyncedBrushState {
  brush_syncId : string;
  dataStartIndex : Z;
  dataEndIndex : Z
}.

Record PartialBrushState := mkPartialBrushState {
  partial_syncId : option string;
  partial_dataStartIndex : option Z;
  partial_dataEndIndex : option Z
}.

(** The errors [handleSyncedBrush] throws:
    dataStartIndex is required for brush sync,
    dataEndIndex is required for brush sync. *)
Inductive SyncError := StartIndexRequired | EndIndexRequired.

(** A range [{ start, end }]. *)
Record BrushRange := mkBrushRange {
  range_start : Z;
  range_end : Z
}.

Section WithNumbers.
Context `{JSNumber}.

(** [interface SyncedTooltipState]. *)
Record SyncedTooltipState := mkSyncedTooltipState {
  tooltip_syncId : string;
  tooltip_active : bool;
  tooltip_index : option Z;
  tooltip_value : option value;
  tooltip_data : option record
}.

(** [interface GlobalSyncState]: three maps keyed by the sync group id.  A
    set of callbacks is the list of its members in insertion order. *)
Record GlobalSyncState := mkGlobalSyncState {
  tooltips : gmap string SyncedTooltipState;
  brushes : gmap string SyncedBrushState;
  listeners : gmap string (list Listener)
}.

(** The mutable world a call runs in: the shared sync state and the
    callbacks invoked so far, oldest first. *)
Record World := mkWorld {
  sync : GlobalSyncState;
  invoked : list Listener
}.

(** How a call ends. *)
Inductive Completion :=
  | Returned
  | Threw (e : SyncError).

(** [createGlobalSyncState()]. *)
Definition createGlobalSyncState : GlobalSyncState :=
  {| tooltips := ∅; brushes := ∅; listeners := ∅ |}.

(** [registerSyncListener(state, syncId, listener)]. *)
Definition registerSyncListener (state : GlobalSyncState) (syncId : string)
    (listener : Listener) : GlobalSyncState :=
  let current := default [] (listeners state !! syncId) in
  let added := if existsb (Nat.eqb listener) current then current
               else current ++ [listener] in
  {| tooltips := tooltips state; brushes := brushes state;
     listeners := <[syncId := added]> (listeners state) |}.

(** [notifyListeners(state, syncId)]. *)
Definition notifyListeners (w : World) (syncId : string) : World :=
  {| sync := sync w;
     invoked := invoked w ++ default [] (listeners (sync w) !! syncId) |}.

(** Truthiness of an optional index, and [index === 0]. *)
Definition index_truthy (i : option Z) : bool :=
  match i with Some z => negb (z =? 0) | None => false end.

Definition index_is_zero (i : option Z) : bool :=
  match i with Some z => z =? 0 | None => false end.

(** [handleSyncedBrush(state, syncId, brushData)]: the completion and the
    world the call leaves behind. *)
Definition handleSyncedBrush (w : World) (syncId : string)
    (brushData : PartialBrushState) : Completion * World :=
  let existingBrush := brushes (sync w) !! syncId in
  if negb (index_truthy (partial_dataStartIndex brushData)) &&
     negb (index_is_zero (partial_dataStartIndex brushData))
  then (Threw StartIndexRequired, w)
  else
    match partial_dataEndIndex brushData with
    | None => (Threw EndIndexRequired, w)
    | Some dataEnd =>
        let updatedBrush :=
          {| brush_syncId := syncId;
             dataStartIndex := default 0 (partial_dataStartIndex brushData);
             dataEndIndex := dataEnd |} in
        let state := sync w in
        let state := {| tooltips := tooltips state;
                        brushes := <[syncId := updatedBrush]> (brushes state);
                        listeners := listeners state |} in
        (Returned, notifyListeners {| sync := state; invoked := invoked w |} syncId)
    end.

(** [getActiveSyncedBrush(state, syncId)]. *)
Definition getActiveSyncedBrush (state : GlobalSyncState) (syncId : string)
    : option SyncedBrushState :=
  brushes state !! syncId.

(** [clearSyncedBrush(state, syncId)]. *)
Definition clearSyncedBrush (w : World) (syncId : string) : World :=
  let state := sync w in
  let state := {| tooltips := tooltips state;
                  brushes := delete syncId (brushes state);
                  listeners := listeners state |} in
  notifyListeners {| sync := state; invoked := invoked w |} syncId.

(** [data.findIndex(pred)]: the first index satisfying [pred], else [-1]. *)
Fixpoint findIndex {A} (pred : A -> bool) (data : list A) : Z :=
  match data with
  | [] => -1
  | item :: rest =>
      if pred item then 0
      else let i := findIndex pred rest in if i <? 0 then -1 else i + 1
  end.

(** [findIndexByValue(data, dataKey, syncValue)], declared to return
    [number | undefined]; [undefined] is [None]. *)
Definition findIndexByValue (data : list record) (dataKey : string)
    (syncValue : value) : option Z :=
  Some (findIndex (fun item => strict_eq (get item dataKey) syncValue) data).

(** [findValueByIndex(data, dataKey, index)]. *)
Definition findValueByIndex (data : list record) (dataKey : string)
    (index : Z) : value :=
  if (0 <=? index) && (index <? Z.of_nat (length data)) then
    match data !! Z.to_nat index with
    | Some item => get item dataKey
    | None => VUndefined
    end
  else VUndefined.

(** [transformTooltipIndex(...)]. *)
Definition transformTooltipIndex (sourceData targetData : list record)
    (sourceIndex : Z) (sourceDataKey targetDataKey : string)
    (syncMethod : SyncMethod) : option Z :=
  match syncMethod with
  | ByIndex =>
      if sourceIndex <? Z.of_nat (length targetData) then Some sourceIndex else None
  | ByValue =>
      let sourceValue := findValueByIndex sourceData sourceDataKey sourceIndex in
      if negb (is_undefined sourceValue)
      then findIndexByValue targetData targetDataKey sourceValue
      else None
  end.

(** [transformBrushRange(...)]. *)
Definition transformBrushRange (sourceData targetData : list record)
    (sourceStart sourceEnd : Z) (sourceDataKey targetDataKey : string)
    (syncMethod : SyncMethod) : option BrushRange :=
  match syncMethod with
  | ByIndex =>
      if sourceEnd <? Z.of_nat (length targetData)
      then Some {| range_start := sourceStart; range_end := sourceEnd |}
      else Some {| range_start := sourceStart;
                   range_end := Z.min sourceEnd (Z.of_nat (length targetData) - 1) |}
  | ByValue =>
      let startValue := findValueByIndex sourceData sourceDataKey sourceStart in
      let endValue := findValueByIndex sourceData sourceDataKey sourceEnd in
      if negb (is_undefined startValue) && negb (is_undefined endValue) then
        let targetStart := findIndexByValue targetData targetDataKey startValue in
        let targetEnd := findIndexByValue targetData targetDataKey endValue in
        match targetStart, targetEnd with
        | Some targetStart, Some targetEnd =>
            Some {| range_start := targetStart; range_end := targetEnd |}
        | _, _ => None
        end
      else None
  end.

(** The contract in the words of the specification: a linear scan that
    gives the first matching index, and [undefined] when nothing matches. *)
Fixpoint spec_findIndexByValue (data : list record) (dataKey : string)
    (syncValue : value) : option Z :=
  match data with
  | [] => None
  | item :: rest =>
      if strict_eq (get item dataKey) syncValue then Some 0
      else option_map Z.succ (spec_findIndexByValue rest dataKey syncValue)
  end.

(** "Either undefined or a range with [0 <= start <= end <= target length]". *)
Definition spec_range_ok (targetLength : Z) (r : option BrushRange) : Prop :=
  match r with
  | None => True
  | Some r => 0 <= range_start r /\ range_start r <= range_end r
              /\ range_end r <= targetLength
  end.

End WithNumbers.
End SyncConfig.

(* ===================================================================== *)
(** ** An executable instance of the number interface *)
(* ===================================================================== *)

(** Finite numbers are exact rationals, kept in lowest terms; rounding to
    the nearest double and the sign of zero are left out.  The instance
    serves to run the embedding on concrete datasets. *)
Module ExactNumbers.

Inductive exact :=
  | ENaN
  | ENegInf
  | EFin (q : Q)
  | EPosInf.

Definition fin (q : Q) : exact := EFin (Qred q).

Definition e_of_Z (z : Z) : exact := EFin (inject_Z z).

Definition e_isNaN (a : exact) : bool :=
  match a with ENaN => true | _ => false end.

Definition e_eqb (a b : exact) : bool :=
  match a, b with
  | ENegInf, ENegInf | EPosInf, EPosInf => true
  | EFin x, EFin y => Qeq_bool x y
  | _, _ => false
  end.

Definition e_ltb (a b : exact) : bool :=
  match a, b with
  | ENaN, _ | _, ENaN => false
  | ENegInf, ENegInf => false
  | ENegInf, _ => true
  | _, ENegInf => false
  | EPosInf, _ => false
  | EFin _, EPosInf => true
  | EFin x, EFin y => negb (Qle_bool y x)
  end.

Definition e_leb (a b : exact) : bool := e_ltb a b || e_eqb a b.

Definition e_neg (a : exact) : exact :=
  match a with
  | ENaN => ENaN
  | ENegInf => EPosInf
  | EPosInf => ENegInf
  | EFin x => fin (- x)
  end.

Definition e_add (a b : exact) : exact :=
  match a, b with
  | ENaN, _ | _, ENaN => ENaN
  | ENegInf, EPosInf | EPosInf, ENegInf => ENaN
  | ENegInf, _ | _, ENegInf => ENegInf
  | EPosInf, _ | _, EPosInf => EPosInf
  | EFin x, EFin y => fin (x + y)
  end.

Definition e_sub (a b : exact) : exact := e_add a (e_neg b).

(** The sign of a number: [-1], [0] or [1]. *)
Definition e_sign (a : exact) : Z :=
  match a with
  | ENaN => 0
  | ENegInf => -1
  | EPosInf => 1
  | EFin x => Z.sgn (Qnum x)
  end.

Definition inf_of_sign (s : Z) : exact :=
  if (s <? 0)%Z then ENegInf else EPosInf.

Definition e_mul (a b : exact) : exact :=
  match a, b with
  | ENaN, _ | _, ENaN => ENaN
  | EFin x, EFin y => fin (x * y)
  | _, _ =>
      if (e_sign a * e_sign b =? 0)%Z then ENaN
      else inf_of_sign (e_sign a * e_sign b)
  end.

Definition e_div (a b : exact) : exact :=
  match a, b with
  | ENaN, _ | _, ENaN => ENaN
  | EFin x, EFin y =>
      if Qeq_bool y 0 then
        if Qeq_bool x 0 then ENaN else inf_of_sign (e_sign a)
      else fin (x / y)
  | EFin _, _ => e_of_Z 0
  | _, EFin y => inf_of_sign (e_sign a * (if (Qnum y <? 0)%Z then -1 else 1))
  | _, _ => ENaN
  end.

(** Decimal literals.  [read_digits base cs acc n] reads digits of the
    given base from the front of [cs]. *)
Definition digit_of (base : Z) (c : ascii) : option Z :=
  let n := Z.of_nat (nat_of_ascii c) in
  let d := (if (48 <=? n) && (n <=? 57) then n - 48
            else if (97 <=? n) && (n <=? 102) then n - 87
            else if (65 <=? n) && (n <=? 70) then n - 55
            else 99)%Z in
  if (d <? base)%Z then Some d else None.

Fixpoint read_digits (base : Z) (cs : list ascii) (acc : Z) (n : nat)
    : Z * nat * list ascii :=
  match cs with
  | c :: rest =>
      match digit_of base c with
      | Some d => read_digits base rest (base * acc + d)%Z (S n)
      | None => (acc, n, cs)
      end
  | [] => (acc, n, [])
  end.

Definition is_space (c : ascii) : bool :=
  let n := nat_of_ascii c in
  ((9 <=? n)%nat && (n <=? 13)%nat) || Nat.eqb n 32.

Fixpoint skip_spaces (cs : list ascii) : list ascii :=
  match cs with
  | c :: rest => if is_space c then skip_spaces rest else cs
  | [] => []
  end.

Definition trim (cs : list ascii) : list ascii :=
  rev (skip_spaces (rev (skip_spaces cs))).

Definition read_sign (cs : list ascii) : Z * list ascii :=
  match cs with
  | "+"%char :: rest => (1%Z, rest)
  | "-"%char :: rest => ((-1)%Z, rest)
  | _ => (1%Z, cs)
  end.

Fixpoint strip_prefix (p cs : list ascii) : option (list ascii) :=
  match p, cs with
  | [], _ => Some cs
  | a :: p', c :: cs' => if Ascii.eqb a c then strip_prefix p' cs' else None
  | _ :: _, [] => None
  end.

(** The optional exponent part; an incomplete one is not consumed. *)
Definition read_exponent (cs : list ascii) : Z * list ascii :=
  match cs with
  | c :: rest =>
      if Ascii.eqb c "e" || Ascii.eqb c "E" then
        let '(s, rest') := read_sign rest in
        let '(e, n, rest'') := read_digits 10 rest' 0%Z 0%nat in
        if Nat.eqb n 0 then (0%Z, cs) else ((s * e)%Z, rest'')
      else (0%Z, cs)
  | [] => (0%Z, [])
  end.

Definition scale (m e : Z) : exact :=
  if (0 <=? e)%Z then e_of_Z (m * 10 ^ e)
  else fin (Qmake m (Z.to_pos (10 ^ (- e)))).

(** The longest prefix of [cs] that is a signed decimal literal, with the
    rest of the input. *)
Definition read_decimal (cs : list ascii) : option (exact * list ascii) :=
  let '(s, cs1) := read_sign cs in
  match strip_prefix (String.list_ascii_of_string "Infinity") cs1 with
  | Some rest => Some (inf_of_sign s, rest)
  | None =>
      let '(ip, ni, cs2) := read_digits 10 cs1 0%Z 0%nat in
      let '(m, nf, cs3) :=
        match cs2 with
        | "."%char :: cs2' => read_digits 10 cs2' ip 0%nat
        | _ => (ip, 0%nat, cs2)
        end in
      if Nat.eqb (ni + nf) 0 then None
      else
        let '(e, cs4) := read_exponent cs3 in
        Some (scale (s * m) (e - Z.of_nat nf), cs4)
  end.

Definition e_parseFloat (s : string) : exact :=
  match read_decimal (skip_spaces (String.list_ascii_of_string s)) with
  | Some (x, _) => x
  | None => ENaN
  end.

Definition read_radix (base : Z) (cs : list ascii) : exact :=
  match read_digits base cs 0%Z 0%nat with
  | (v, S _, []) => e_of_Z v
  | _ => ENaN
  end.

Definition e_StringToNumber (s : string) : exact :=
  match trim (String.list_ascii_of_string s) with
  | [] => e_of_Z 0
  | "0"%char :: x :: rest =>
      if Ascii.eqb x "x" || Ascii.eqb x "X" then read_radix 16 rest
      else if Ascii.eqb x "o" || Ascii.eqb x "O" then read_radix 8 rest
      else if Ascii.eqb x "b" || Ascii.eqb x "B" then read_radix 2 rest
      else match read_decimal ("0"%char :: x :: rest) with
           | Some (v, []) => v
           | _ => ENaN
           end
  | cs =>
      match read_decimal cs with
      | Some (v, []) => v
      | _ => ENaN
      end
  end.

#[export] Instance exact_numbers : JS.JSNumber := {|
  JS.num := exact;
  JS.num_of_Z := e_of_Z;
  JS.NaN := ENaN;
  JS.pos_infinity := EPosInf;
  JS.neg_infinity := ENegInf;
  JS.isNaN := e_isNaN;
  JS.num_eqb := e_eqb;
  JS.num_ltb := e_ltb;
  JS.num_leb := e_leb;
  JS.num_add := e_add;
  JS.num_sub := e_sub;
  JS.num_mul := e_mul;
  JS.num_div := e_div;
  JS.parseFloat := e_parseFloat;
  JS.StringToNumber := e_StringToNumber
|}.

End ExactNumbers.

(* ===================================================================== *)
(** ** Concrete datasets and configurations *)
(* ===================================================================== *)

Module Examples.
Import JS ExactNumbers ParseConfig SyncConfig.

Local Open Scope string_scope.

Definition row (keyName : string) (name : string) (valueName : string) (v : Z)
    : record :=
  [ (keyName, VString name); (valueName, VNumber (num_of_Z v)) ].

(** The six months of sales used throughout the repository's tests. *)
Definition sales6 : list record :=
  [ row "month" "Jan" "sales" 4000; row "month" "Feb" "sales" 3000;
    row "month" "Mar" "sales" 2000; row "month" "Apr" "sales" 2780;
    row "month" "May" "sales" 1890; row "month" "Jun" "sales" 2390 ].

(** Two steps of a conversion flow. *)
Definition steps2 : list record :=
  [ row "stage" "visit" "users" 3; row "stage" "signup" "users" 2 ].

(** A decreasing flow with one step that has no users. *)
Definition steps5 : list record :=
  [ row "stage" "a" "users" 5; row "stage" "b" "users" 0;
    row "stage" "c" "users" 4; row "stage" "d" "users" 3;
    row "stage" "e" "users" 2 ].

(** A three-step decreasing flow. *)
Definition steps3 : list record :=
  [ row "stage" "a" "users" 9; row "stage" "b" "users" 5;
    row "stage" "c" "users" 1 ].

(** [testData] and [targetData] of the synchronisation tests. *)
Definition testData : list record :=
  [ row "month" "Jan" "sales" 100; row "month" "Feb" "sales" 150;
    row "month" "Mar" "sales" 200; row "month" "Apr" "sales" 250 ].

Definition targetData : list record :=
  [ row "period" "Jan" "revenue" 500; row "period" "Feb" "revenue" 600;
    row "period" "Mar" "revenue" 700 ].

(** A bar chart whose caller also supplied a per-series type. *)
Definition bar_with_types : ChartConfig :=
  {| config_data := DataArray [ row "month" "Jan" "sales" 100 ];
     config_chartType := Some Bar;
     config_title := None;
     config_xAxis := None;
     config_yAxis := None;
     config_yAxis2 := None;
     config_series := None;
     config_seriesConfig := Some {[ "sales" := SeriesLine ]};
     config_theme := None;
     config_rest := ∅ |}.

(** The stored dataset, two axes, a subtitle and a field [parseConfig]
    does not know. *)
Definition dual_axis_config : ChartConfig :=
  {| config_data := DataById "sales-2024";
     config_chartType := Some Composed;
     config_title := Some "Sales";
     config_xAxis := Some "month";
     config_yAxis := Some (AxisOne "sales");
     config_yAxis2 := Some (AxisMany ["profit"; "margin"]);
     config_series := Some ["sales"; "revenue"; "profit"];
     config_seriesConfig := Some {[ "revenue" := SeriesArea ]};
     config_theme := Some Dark;
     config_rest := {[ "subtitle" := VString "2024"; "width" := VNumber (num_of_Z 640);
                       "layout" := VUndefined ]} |}.

(** Two reference elements: a line at the average and a line whose value
    is not a reference expression. *)
Definition reference_elements : list (gmap string value) :=
  [ {[ "type" := VString "line"; "value" := VString "average";
       "label" := VString "Average" ]};
    {[ "type" := VString "line"; "value" := VString "n/a";
       "stroke" := VString "#999" ]} ].

(** A sync state with two charts listening on one group. *)
Definition two_listeners : World :=
  {| sync := registerSyncListener
               (registerSyncListener createGlobalSyncState "chart-sync-1" 1%nat)
               "chart-sync-1" 2%nat;
     invoked := [] |}.

End Examples.

(* ===================================================================== *)
(** ** brushConfig.ts: building, validating and applying a range *)
(* ===================================================================== *)

Module BrushConfigRest.
Import JS BrushConfig.

Local Open Scope string_scope.
Local Open Scope Z_scope.

(** [travelAxis: "x" | "y"]. *)
Inductive TravelAxis := TravelX | TravelY.

(** [interface BrushState]. *)
Record BrushState := mkBrushState {
  isEnabled : bool;
  state_dataStartIndex : Z;
  state_dataEndIndex : Z;
  isResetting : bool
}.

(** The errors thrown by [buildBrushConfig] and [createInitialBrushState]:
    Brush config is required; Data length must be greater than 0. *)
Inductive BrushError := ConfigRequired | LengthNotPositive.

(** [data.slice(from, to)] on integer arguments: a negative argument counts
    from the end, and both are cut to the length. *)
Definition Array_slice {T} (data : list T) (from to : Z) : list T :=
  let len := Z.of_nat (length data) in
  let relative i := if i <? 0 then Z.max (len + i) 0 else Z.min i len in
  let k := relative from in
  let final := relative to in
  take (Z.to_nat (Z.max (final - k) 0)) (drop (Z.to_nat k) data).

(** [filterDataByBrushRange(data, startIndex, endIndex)]. *)
Definition filterDataByBrushRange {T} (data : list T) (startIndex endIndex : Z)
    : list T :=
  if Nat.eqb (length data) 0 then []
  else
    let validatedStart := Z.max 0 startIndex in
    let validatedEnd := Z.min endIndex (Z.of_nat (length data)) in
    if validatedStart >=? validatedEnd then []
    else Array_slice data validatedStart validatedEnd.

(** [createInitialBrushState(dataLength, enabled = true)]. *)
Definition createInitialBrushState (dataLength : Z) (enabled : option bool)
    : BrushError + BrushState :=
  if dataLength <=? 0 then inl LengthNotPositive
  else inr {| isEnabled := default true enabled;
              state_dataStartIndex := 0;
              state_dataEndIndex := dataLength;
              isResetting := false |}.

(** What [validateBrushConfig] reports, by message: Data must be an array;
    Cannot enable brush on empty data; dataStartIndex cannot be negative;
    dataEndIndex (e) exceeds data length (n); dataStartIndex must be less
    than dataEndIndex; height must be greater than 0; fillOpacity must be
    between 0 and 1. *)
Inductive BrushValidationError :=
  | DataMustBeArray
  | EmptyBrushData
  | NegativeStartIndex
  | EndIndexExceedsLength (dataEndIndex dataLength : Z)
  | StartNotBelowEnd
  | HeightNotPositive
  | FillOpacityOutOfRange.

Section WithNumbers.
Context `{JSNumber}.

(** [interface BrushConfig] (types.ts). *)
Record BrushConfig := mkBrushConfig {
  cfg_enabled : option bool;
  cfg_dataStartIndex : option Z;
  cfg_dataEndIndex : option Z;
  cfg_y : option num;
  cfg_height : option num;
  cfg_travelAxis : option TravelAxis;
  cfg_fill : option string;
  cfg_stroke : option string;
  cfg_fillOpacity : option num;
  cfg_showPreview : option bool
}.

(** [interface BuiltBrushConfig]. *)
Record BuiltBrushConfig := mkBuiltBrushConfig {
  built_dataStartIndex : Z;
  built_dataEndIndex : option Z;
  built_y : option num;
  built_height : num;
  built_travelAxis : TravelAxis;
  built_fill : option string;
  built_stroke : option string;
  built_fillOpacity : option num;
  built_showPreview : option bool
}.

(** The literal [0.1]: the quotient [1 / 10] is rounded to the same double. *)
Definition one_tenth : num := num_div (num_of_Z 1) (num_of_Z 10).

(** The properties both returns of [buildBrushConfig] share. *)
Definition built_with (config : BrushConfig) (dataStartIndex dataEndIndex : Z)
    : BuiltBrushConfig :=
  {| built_dataStartIndex := dataStartIndex;
     built_dataEndIndex := Some dataEndIndex;
     built_y := cfg_y config;
     built_height := default (num_of_Z 40) (cfg_height config);
     built_travelAxis := default TravelX (cfg_travelAxis config);
     built_fill := Some (default "#8884d8" (cfg_fill config));
     built_stroke := Some (default "#666" (cfg_stroke config));
     built_fillOpacity := Some (default one_tenth (cfg_fillOpacity config));
     built_showPreview := Some (default true (cfg_showPreview config)) |}.

(** [buildBrushConfig(config, dataLength)]. *)
Definition buildBrushConfig (config : option BrushConfig) (dataLength : Z)
    : BrushError + BuiltBrushConfig :=
  match config with
  | None => inl ConfigRequired
  | Some config =>
      if dataLength <=? 0 then inl LengthNotPositive
      else
        let dataStartIndex := Z.max 0 (default 0 (cfg_dataStartIndex config)) in
        let dataEndIndex := default dataLength (cfg_dataEndIndex config) in
        let dataEndIndex := Z.min dataEndIndex dataLength in
        if dataStartIndex >=? dataEndIndex
        then inr (built_with config 0 dataLength)
        else inr (built_with config dataStartIndex dataEndIndex)
  end.

(** [validateBrushConfig(config, data)]; [data] is [None] when it is not an
    array, and the result [null] is [None].  The checks of the source run
    from the last definition upwards: start, end, ordering, height, fill
    opacity. *)
Definition validateBrushConfig {T} (config : option BrushConfig)
    (data : option (list T)) : option BrushValidationError :=
  match data with
  | None => Some DataMustBeArray
  | Some data =>
  if Nat.eqb (length data) 0 then Some EmptyBrushData
  else
  match config with
  | None => None
  | Some config =>
  let dataLength := Z.of_nat (length data) in
  let styling :=
    if match cfg_height config with
       | Some h => num_leb h (num_of_Z 0)
       | None => false
       end
    then Some HeightNotPositive
    else if match cfg_fillOpacity config with
            | Some f => num_ltb f (num_of_Z 0) || num_ltb (num_of_Z 1) f
            | None => false
            end
    then Some FillOpacityOutOfRange
    else None in
  let ordering :=
    match cfg_dataStartIndex config, cfg_dataEndIndex config with
    | Some s, Some e => if s >=? e then Some StartNotBelowEnd else styling
    | _, _ => styling
    end in
  let upper :=
    match cfg_dataEndIndex config with
    | Some e => if dataLength <? e then Some (EndIndexExceedsLength e dataLength)
                else ordering
    | None => ordering
    end in
  match cfg_dataStartIndex config with
  | Some s => if s <? 0 then Some NegativeStartIndex else upper
  | None => upper
  end
  end end.

End WithNumbers.
End BrushConfigRest.

(* ===================================================================== *)
(** ** referenceConfig.ts: validation and helpers *)
(* ===================================================================== *)

Module ReferenceConfigRest.
Import JS ReferenceConfig.

Local Open Scope string_scope.

(** [interface ReferenceLineStyle]; the stroke width is not read by any
    function of the module. *)
Record ReferenceLineStyle := mkReferenceLineStyle {
  style_stroke : option string;
  style_strokeDasharray : option string
}.

(** The statistics [createStatisticLines] accepts. *)
Inductive Stat := StatAverage | StatMax | StatMin | StatMedian.

(** The name of a statistic, as [includeStats] spells it. *)
Definition Stat_name (stat : Stat) : string :=
  match stat with
  | StatAverage => "average"
  | StatMax => "max"
  | StatMin => "min"
  | StatMedian => "median"
  end.

(** The reasons [validateReferenceValue] gives: Reference value is
    undefined; Invalid reference value type: t; Unable to parse reference
    value: v. *)
Inductive ValueError :=
  | ValueIsUndefined
  | InvalidValueType (type : string)
  | UnableToParse (value : string).

Section WithNumbers.
Context `{JSNumber}.

(** [typeof v]. *)
Definition typeof (v : value) : string :=
  match v with
  | VUndefined => "undefined"
  | VNull => "object"
  | VBoolean _ => "boolean"
  | VNumber _ => "number"
  | VString _ => "string"
  | VObject _ _ => "object"
  end.

(** Truthiness of a value. *)
Definition truthy (v : value) : bool :=
  match v with
  | VUndefined | VNull => false
  | VBoolean b => b
  | VNumber n => num_truthy n
  | VString s => negb (String.eqb s "")
  | VObject _ _ => true
  end.

(** [interface ValidationResult]. *)
Record ValidationResult := mkValidationResult {
  valid : bool;
  error : option ValueError;
  normalizedValue : option num
}.

(** [validateReferenceValue(value, data, dataKey?)]. *)
Definition validateReferenceValue (value : value) (data : list record)
    (dataKey : option string) : ValidationResult :=
  match value with
  | VUndefined =>
      {| valid := false; error := Some ValueIsUndefined; normalizedValue := None |}
  | VNumber n => {| valid := true; error := None; normalizedValue := Some n |}
  | VString s =>
      match parseReferenceValue value data dataKey with
      | None => {| valid := false; error := Some (UnableToParse s);
                   normalizedValue := None |}
      | Some parsed => {| valid := true; error := None; normalizedValue := Some parsed |}
      end
  | _ => {| valid := false; error := Some (InvalidValueType (typeof value));
            normalizedValue := None |}
  end.

(** An optional string as the value of a property. *)
Definition optional_string (s : option string) : value :=
  match s with Some s => VString s | None => VUndefined end.

(** [style?.stroke || "#999"]. *)
Definition stroke_or_default (style : option ReferenceLineStyle) : string :=
  match style with
  | Some st =>
      match style_stroke st with
      | Some s => if String.eqb s "" then "#999" else s
      | None => "#999"
      end
  | None => "#999"
  end.

(** [createReferenceLine(value, label?, style?)]. *)
Definition createReferenceLine (value : value) (label : option string)
    (style : option ReferenceLineStyle) : gmap string JS.value :=
  {[ "type" := VString "line";
     "value" := value;
     "label" := optional_string label;
     "stroke" := VString (stroke_or_default style);
     "strokeDasharray" :=
       optional_string (match style with
                        | Some st => style_strokeDasharray st
                        | None => None
                        end);
     "labelPosition" := VString "top" ]}.

(** What [validateReferenceElements] reports for the element at index [i]:
    invalid type; missing value; the reason of [validateReferenceValue];
    fillOpacity must be between 0 and 1; invalid position; invalid
    labelPosition. *)
Inductive ElementError :=
  | InvalidElementType (i : nat) (type : value)
  | MissingValue (i : nat)
  | InvalidValue (i : nat) (reason : option ValueError)
  | ElementFillOpacity (i : nat)
  | InvalidPosition (i : nat) (position : value)
  | InvalidLabelPosition (i : nat) (labelPosition : value).

(** [element.name]. *)
Definition field (element : gmap string value) (name : string) : value :=
  default VUndefined (element !! name).

(** [names.includes(v)] for an array of strings. *)
Definition string_in (names : list string) (v : value) : bool :=
  match v with
  | VString s => includes names s
  | _ => false
  end.

Definition validPositions : list string :=
  ["top"; "bottom"; "left"; "right"; "inside"; "outside"; "center"].

Definition validLabelPositions : list string :=
  ["top"; "bottom"; "left"; "right"; "inside"; "outside"; "center";
   "insideTopRight"; "insideTopLeft"; "insideBottomRight"; "insideBottomLeft"].

(** One turn of the loop of [validateReferenceElements]. *)
Definition element_errors (data : list record) (dataKey : option string)
    (i : nat) (element : gmap string value) : list ElementError :=
  (if negb (string_in ["line"; "area"] (field element "type"))
   then [InvalidElementType i (field element "type")] else []) ++
  (if is_undefined (field element "value") then [MissingValue i]
   else
     let validation := validateReferenceValue (field element "value") data dataKey in
     if negb (valid validation) then [InvalidValue i (error validation)] else []) ++
  (if negb (is_undefined (field element "fillOpacity")) then
     if match field element "fillOpacity" with
        | VNumber f => num_ltb f (num_of_Z 0) || num_ltb (num_of_Z 1) f
        | _ => true
        end
     then [ElementFillOpacity i] else []
   else []) ++
  (if truthy (field element "position") then
     if negb (string_in validPositions (field element "position"))
     then [InvalidPosition i (field element "position")] else []
   else []) ++
  (if truthy (field element "labelPosition") then
     if negb (string_in validLabelPositions (field element "labelPosition"))
     then [InvalidLabelPosition i (field element "labelPosition")] else []
   else []).

(** [validateReferenceElements(elements, data, dataKey?)]: the pair
    [{ valid, errors }]. *)
Definition validateReferenceElements (elements : option (list (gmap string value)))
    (data : list record) (dataKey : option string) : bool * list ElementError :=
  match elements with
  | None => (true, [])
  | Some elements =>
      if Nat.eqb (length elements) 0 then (true, [])
      else
        let errors := concat (imap (element_errors data dataKey) elements) in
        (Nat.eqb (length errors) 0, errors)
  end.

(** [value.toFixed(2)] is a built-in of the number type. *)
Variable toFixed2 : num -> string.

(** The value and the label of one statistic line. *)
Definition statistic (numericValues : list num) (stat : Stat) : num * string :=
  match stat with
  | StatAverage =>
      let value := calculateAverage numericValues in
      (value, "Average: " +:+ toFixed2 value)
  | StatMax =>
      let value := Math_max numericValues in (value, "Max: " +:+ toFixed2 value)
  | StatMin =>
      let value := Math_min numericValues in (value, "Min: " +:+ toFixed2 value)
  | StatMedian =>
      let value := calculateMedian numericValues in
      (value, "Median: " +:+ toFixed2 value)
  end.

(** [createStatisticLines(data, dataKey, includeStats = ["average"], style?)]. *)
Definition createStatisticLines (data : list record) (dataKey : string)
    (includeStats : option (list Stat)) (style : option ReferenceLineStyle)
    : list (gmap string value) :=
  let numericValues := extractNumericValues data (Some dataKey) in
  if Nat.eqb (length numericValues) 0 then []
  else
    map (fun stat =>
           let '(value, label) := statistic numericValues stat in
           createReferenceLine (VNumber value) (Some label) style)
        (default [StatAverage] includeStats).

End WithNumbers.
End ReferenceConfigRest.

(* ===================================================================== *)
(** ** syncConfig.ts: tooltips, listeners and sync identifiers *)
(* ===================================================================== *)

Module SyncConfigRest.
Import JS SyncConfig.

Local Open Scope string_scope.
Local Open Scope Z_scope.

(** [interface SyncConfig].  The method is kept as the string the caller
    passed: [buildSyncConfig] itself tests that it is one of the two
    methods. *)
Record SyncConfig := mkSyncConfig {
  config_syncId : string;
  config_syncMethod : string;
  enableTooltipSync : bool;
  enableBrushSync : bool
}.

(** The errors [buildSyncConfig] throws: syncId must be a non-empty string;
    syncMethod must be either "index" or "value". *)
Inductive SyncConfigError := SyncIdRequired | SyncMethodInvalid.

Section SyncIds.

(** [s.trim()] is a built-in of the string type. *)
Variable trim : string -> string.

(** [buildSyncConfig(syncId, syncMethod = 'index', enableTooltipSync = true,
    enableBrushSync = true)]; an argument that is not passed is [None]. *)
Definition buildSyncConfig (syncId : string) (syncMethod : option string)
    (enableTooltipSync enableBrushSync : option bool)
    : SyncConfigError + SyncConfig :=
  let syncMethod := default "index" syncMethod in
  if String.eqb syncId "" || Nat.eqb (String.length (trim syncId)) 0
  then inl SyncIdRequired
  else if negb (includes ["index"; "value"] syncMethod)
  then inl SyncMethodInvalid
  else inr {| config_syncId := syncId;
              config_syncMethod := syncMethod;
              enableTooltipSync := default true enableTooltipSync;
              enableBrushSync := default true enableBrushSync |}.

(** [isValidSyncId(syncId)]. *)
Definition isValidSyncId (syncId : option string) : bool :=
  match syncId with
  | Some s => (0 <? String.length (trim s))%nat
  | None => false
  end.

(** [chartConfig.syncMethod || 'index']: the empty string is falsy. *)
Definition method_or_index (syncMethod : option string) : string :=
  match syncMethod with
  | Some m => if String.eqb m "" then "index" else m
  | None => "index"
  end.

(** [extractSyncConfig({ syncId, syncMethod })]; [undefined] is [None], and
    [Some (inl e)] is the error that [buildSyncConfig] throws. *)
Definition extractSyncConfig (syncId : option string) (syncMethod : option string)
    : option (SyncConfigError + SyncConfig) :=
  if negb (isValidSyncId syncId) then None
  else Some (buildSyncConfig (default "" syncId)
               (Some (method_or_index syncMethod)) (Some true) (Some true)).

End SyncIds.

Section WithNumbers.
Context `{JSNumber}.

(** [Partial<SyncedTooltipState>]: a property that is not supplied is
    [None]. *)
Record PartialTooltipState := mkPartialTooltipState {
  partial_tooltip_syncId : option string;
  partial_active : option bool;
  partial_index : option Z;
  partial_value : option value;
  partial_data : option record
}.

(** [unregisterSyncListener(state, syncId, listener)]. *)
Definition unregisterSyncListener (state : GlobalSyncState) (syncId : string)
    (listener : Listener) : GlobalSyncState :=
  match listeners state !! syncId with
  | Some current =>
      {| tooltips := tooltips state; brushes := brushes state;
         listeners :=
           <[syncId := filter (fun l => l <> listener) current]> (listeners state) |}
  | None => state
  end.

(** [{ ...existingTooltip, ...tooltipData, syncId }]. *)
Definition merge_tooltip (existingTooltip : SyncedTooltipState)
    (tooltipData : PartialTooltipState) (syncId : string) : SyncedTooltipState :=
  {| tooltip_syncId := syncId;
     tooltip_active := default (tooltip_active existingTooltip) (partial_active tooltipData);
     tooltip_index :=
       match partial_index tooltipData with
       | Some i => Some i
       | None => tooltip_index existingTooltip
       end;
     tooltip_value :=
       match partial_value tooltipData with
       | Some v => Some v
       | None => tooltip_value existingTooltip
       end;
     tooltip_data :=
       match partial_data tooltipData with
       | Some d => Some d
       | None => tooltip_data existingTooltip
       end |}.

(** [handleSyncedTooltip(state, syncId, tooltipData)]. *)
Definition handleSyncedTooltip (w : World) (syncId : string)
    (tooltipData : PartialTooltipState) : World :=
  let state := sync w in
  let existingTooltip :=
    default {| tooltip_syncId := syncId; tooltip_active := false;
               tooltip_index := None; tooltip_value := None; tooltip_data := None |}
            (tooltips state !! syncId) in
  let updatedTooltip := merge_tooltip existingTooltip tooltipData syncId in
  let state := {| tooltips := <[syncId := updatedTooltip]> (tooltips state);
                  brushes := brushes state;
                  listeners := listeners state |} in
  notifyListeners {| sync := state; invoked := invoked w |} syncId.

(** [getActiveSyncedTooltip(state, syncId)]. *)
Definition getActiveSyncedTooltip (state : GlobalSyncState) (syncId : string)
    : option SyncedTooltipState :=
  match tooltips state !! syncId with
  | Some tooltip => if tooltip_active tooltip then Some tooltip else None
  | None => None
  end.

(** [clearSyncedTooltip(state, syncId)]. *)
Definition clearSyncedTooltip (w : World) (syncId : string) : World :=
  let state := sync w in
  match tooltips state !! syncId with
  | Some tooltip =>
      let tooltip := {| tooltip_syncId := tooltip_syncId tooltip;
                        tooltip_active := false;
                        tooltip_index := tooltip_index tooltip;
                        tooltip_value := tooltip_value tooltip;
                        tooltip_data := tooltip_data tooltip |} in
      let state := {| tooltips := <[syncId := tooltip]> (tooltips state);
                      brushes := brushes state;
                      listeners := listeners state |} in
      notifyListeners {| sync := state; invoked := invoked w |} syncId
  | None => w
  end.

End WithNumbers.
End SyncConfigRest.


(* ===================================================================== *)
(** ** parseConfig: the series an axis declaration names *)
(* ===================================================================== *)

Module ParseConfigRest.
Import JS ParseConfig.

(** The names a [yAxis] / [yAxis2] declaration contributes: none when it is
    absent or the empty string, the one name of a string, the elements of
    an array. *)
Definition axis_names (a : option AxisSpec) : list string :=
  match a with
  | Some spec => if axis_truthy a then axis_series spec else []
  | None => []
  end.

End ParseConfigRest.

(* ===================================================================== *)
(** ** Further concrete inputs *)
(* ===================================================================== *)

Module MoreExamples.
Import JS ExactNumbers ParseConfig BrushConfigRest Examples.

Local Open Scope string_scope.
Local Open Scope Z_scope.

(** A brush over the records 2, 3 and 4, half transparent. *)
Definition brush_2_5 : BrushConfig :=
  {| cfg_enabled := Some true;
     cfg_dataStartIndex := Some 2;
     cfg_dataEndIndex := Some 5;
     cfg_y := None;
     cfg_height := Some (num_of_Z 40);
     cfg_travelAxis := None;
     cfg_fill := None;
     cfg_stroke := None;
     cfg_fillOpacity := Some (num_div (num_of_Z 1) (num_of_Z 2));
     cfg_showPreview := None |}.

(** A reference line at the average. *)
Definition average_line : gmap string value :=
  {[ "type" := VString "line"; "value" := VString "average" ]}.

(** The six months of sales with an x-axis they do not have. *)
Definition missing_axis_config : ChartConfig :=
  {| config_data := DataArray sales6;
     config_chartType := None;
     config_title := None;
     config_xAxis := Some "year";
     config_yAxis := None;
     config_yAxis2 := None;
     config_series := None;
     config_seriesConfig := None;
     config_theme := None;
     config_rest := ∅ |}.


(** A composed chart two of whose series are named like members every
    object inherits, one of them also put on the left axis. *)
Definition inherited_names_config : ChartConfig :=
  {| config_data := DataArray sales6;
     config_chartType := Some Composed;
     config_title := None;
     config_xAxis := None;
     config_yAxis := Some (AxisMany ["sales"; "__proto__"]);
     config_yAxis2 := None;
     config_series := Some ["constructor"; "sales"; "__proto__"];
     config_seriesConfig := None;
     config_theme := None;
     config_rest := ∅ |}.

(** A dataset identifier that names an inherited member. *)
Definition inherited_dataset_config : ChartConfig :=
  {| config_data := DataById "constructor";
     config_chartType := None;
     config_title := None;
     config_xAxis := None;
     config_yAxis := None;
     config_yAxis2 := None;
     config_series := None;
     config_seriesConfig := None;
     config_theme := None;
     config_rest := ∅ |}.

(** [s.trim()] on strings of ASCII characters. *)
Definition ascii_trim (s : string) : string :=
  String.string_of_list_ascii (trim (String.list_ascii_of_string s)).

End MoreExamples.
(* ===================================================================== *)
(** ** Properties of brushConfig.ts *)
(* ===================================================================== *)

Module BrushConfigFacts.
Import BrushConfig.
Local Open Scope Z_scope.

Lemma onBrushChange_range_field s e len :
  range (onBrushChange s e len) = width (onBrushChange s e len).
Proof. reflexivity. Qed.

(** C4. For every [dataLength >= 1] and all integers [startIndex], [endIndex]
    (inverted, negative or beyond [dataLength] alike), [onBrushChange] yields
    a range with [0 <= startIndex' <= dataLength - 1] and
    [startIndex' < endIndex' <= dataLength]. *)
Theorem onBrushChange_nonempty_in_bounds (s e len : Z) :
  1 <= len ->
  0 <= startIndex (onBrushChange s e len) <= len - 1 /\
  startIndex (onBrushChange s e len) < endIndex (onBrushChange s e len) <= len.
Proof.
  intros Hlen. unfold onBrushChange. cbn [startIndex endIndex]. lia.
Qed.

Lemma onBrushChange_nonempty_in_bounds_witness :
  1 <= 5 /\
  (0 <= startIndex (onBrushChange 9 (-2) 5) <= 5 - 1 /\
   startIndex (onBrushChange 9 (-2) 5) < endIndex (onBrushChange 9 (-2) 5) <= 5).
Proof.
  split; [lia | apply (onBrushChange_nonempty_in_bounds 9 (-2) 5); lia].
Defined.

(** A range that is already valid is returned as it is. *)
Lemma onBrushChange_valid_id s e len :
  0 <= s -> s < e -> e <= len ->
  onBrushChange s e len = mkBrushChangeResult s e (e - s).
Proof.
  intros H0 H1 H2. unfold onBrushChange.
  replace (Z.max 0 (Z.min s (len - 1))) with s by lia.
  replace (Z.max (s + 1) (Z.min e len)) with e by lia.
  reflexivity.
Qed.

(** What the two horizontal keys compute on a valid window. *)
Lemma handleBrushKeyboard_left cs ce len n :
  0 <= cs -> cs < ce -> ce <= len -> 0 <= n ->
  handleBrushKeyboard "ArrowLeft" cs ce len (Some n) =
  Some (let s' := Z.max 0 (cs - n) in
        let e' := Z.max (s' + 1) (ce - n) in
        mkBrushChangeResult s' e' (e' - s')).
Proof.
  intros. unfold handleBrushKeyboard. cbn [String.eqb Ascii.eqb Bool.eqb default].
  cbv zeta. f_equal. apply onBrushChange_valid_id; lia.
Qed.

Lemma handleBrushKeyboard_right cs ce len n :
  0 <= cs -> cs < ce -> ce <= len -> 0 <= n ->
  handleBrushKeyboard "ArrowRight" cs ce len (Some n) =
  Some (let e' := Z.min len (ce + n) in
        let s' := Z.min (e' - 1) (cs + n) in
        mkBrushChangeResult s' e' (e' - s')).
Proof.
  intros. unfold handleBrushKeyboard. cbn [String.eqb Ascii.eqb Bool.eqb default].
  cbv zeta. f_equal. apply onBrushChange_valid_id; lia.
Qed.

(** C7, counterexample.  A window flush against the left bound, moved left
    by one step, loses one index of width: [0, 5) becomes [0, 4); moved
    right from the right bound, [5, 10) becomes [6, 10). *)
Lemma keyboard_translation_shrinks_at_bound :
  ~ spec_keeps_width "ArrowLeft" 0 5 10 1 /\
  ~ spec_keeps_width "ArrowRight" 5 10 10 1 /\
  option_map window (handleBrushKeyboard "ArrowLeft" 0 5 10 (Some 1)) = Some (0, 4) /\
  option_map window (handleBrushKeyboard "ArrowRight" 5 10 10 (Some 1)) = Some (6, 10).
Proof.
  repeat split; try reflexivity.
  - intros Hc.
    specialize (Hc ltac:(lia) ltac:(lia) ltac:(lia) ltac:(lia) _ eq_refl).
    vm_compute in Hc. discriminate Hc.
  - intros Hc.
    specialize (Hc ltac:(lia) ltac:(lia) ltac:(lia) ltac:(lia) _ eq_refl).
    vm_compute in Hc. discriminate Hc.
Qed.

(** C7, amended.  On a window inside the data bounds and a step [n >= 0],
    ArrowLeft moves the start to [max 0 (start - n)] and the end to
    [max (start' + 1) (end - n)]; ArrowRight moves the end to
    [min dataLength (end + n)] and the start to [min (end' - 1) (start + n)].
    The window is translated by exactly [n] when the whole step fits inside
    the bounds; its width is kept exactly when the step fits or the width is
    1, and otherwise it shrinks, never below 1. *)
Theorem handleBrushKeyboard_horizontal (cs ce len n : Z) :
  0 <= cs -> cs < ce -> ce <= len -> 0 <= n ->
  (exists l,
     handleBrushKeyboard "ArrowLeft" cs ce len (Some n) = Some l /\
     startIndex l = Z.max 0 (cs - n) /\
     endIndex l = Z.max (startIndex l + 1) (ce - n) /\
     (n <= cs -> window l = (cs - n, ce - n)) /\
     (width l = ce - cs <-> n <= cs \/ ce - cs = 1) /\
     1 <= width l <= ce - cs) /\
  (exists r,
     handleBrushKeyboard "ArrowRight" cs ce len (Some n) = Some r /\
     endIndex r = Z.min len (ce + n) /\
     startIndex r = Z.min (endIndex r - 1) (cs + n) /\
     (ce + n <= len -> window r = (cs + n, ce + n)) /\
     (width r = ce - cs <-> ce + n <= len \/ ce - cs = 1) /\
     1 <= width r <= ce - cs).
Proof.
  intros H0 H1 H2 Hn. split.
  - eexists. split; [apply handleBrushKeyboard_left; lia |].
    unfold window, width. cbn [startIndex endIndex].
    repeat split; intros; try (f_equal; lia); lia.
  - eexists. split; [apply handleBrushKeyboard_right; lia |].
    unfold window, width. cbn [startIndex endIndex].
    repeat split; intros; try (f_equal; lia); lia.
Qed.

Lemma handleBrushKeyboard_horizontal_witness :
  (exists l,
     handleBrushKeyboard "ArrowLeft" 2 6 10 (Some 3) = Some l /\
     startIndex l = Z.max 0 (2 - 3) /\
     endIndex l = Z.max (startIndex l + 1) (6 - 3) /\
     (3 <= 2 -> window l = (2 - 3, 6 - 3)) /\
     (width l = 6 - 2 <-> 3 <= 2 \/ 6 - 2 = 1) /\
     1 <= width l <= 6 - 2) /\
  (exists r,
     handleBrushKeyboard "ArrowRight" 2 6 10 (Some 3) = Some r /\
     endIndex r = Z.min 10 (6 + 3) /\
     startIndex r = Z.min (endIndex r - 1) (2 + 3) /\
     (6 + 3 <= 10 -> window r = (2 + 3, 6 + 3)) /\
     (width r = 6 - 2 <-> 6 + 3 <= 10 \/ 6 - 2 = 1) /\
     1 <= width r <= 6 - 2).
Proof.
  apply (handleBrushKeyboard_horizontal 2 6 10 3); lia.
Defined.

End BrushConfigFacts.

(* ===================================================================== *)
(** ** The executable instance on literals of the tests *)
(* ===================================================================== *)

Module ExactNumbersFacts.
Import JS ExactNumbers.

Local Open Scope string_scope.

Example parseFloat_literals :
  parseFloat "100" = num_of_Z 100 /\
  parseFloat "  -12.5e1px" = num_of_Z (-125) /\
  parseFloat ".5" = fin (1 # 2) /\
  parseFloat "50" = num_of_Z 50 /\
  parseFloat "Infinity" = pos_infinity /\
  isNaN (parseFloat "average") = true /\
  isNaN (parseFloat "") = true /\
  isNaN (parseFloat ".") = true.
Proof. repeat split; vm_compute; reflexivity. Qed.

Example Number_literals :
  StringToNumber "" = num_of_Z 0 /\
  StringToNumber " 12 " = num_of_Z 12 /\
  StringToNumber "0x1F" = num_of_Z 31 /\
  StringToNumber "1e3" = num_of_Z 1000 /\
  isNaN (StringToNumber "12px") = true /\
  isNaN (StringToNumber "Jan") = true /\
  isNaN (Number VUndefined) = true /\
  Number VNull = num_of_Z 0 /\
  Number (VBoolean true) = num_of_Z 1.
Proof. repeat split; vm_compute; reflexivity. Qed.

End ExactNumbersFacts.

(* ===================================================================== *)
(** ** Properties of referenceConfig.ts *)
(* ===================================================================== *)

Module ReferenceConfigFacts.
Import JS ReferenceConfig.

Local Open Scope string_scope.

Section WithNumbers.
Context `{JSNumber}.

(** The guard on the dataset comes before the keyword dispatch: without a
    numeric value in the dataset, no string other than a percentage is
    ever parsed. *)
Lemma parseReferenceValue_no_numeric_values (s : string) (data : list record)
    (dataKey : option string) :
  endsWith s "%" = false ->
  extractNumericValues data dataKey = [] ->
  parseReferenceValue (VString s) data dataKey = None.
Proof.
  intros Hpct Hnone. unfold parseReferenceValue. rewrite Hpct, Hnone. reflexivity.
Qed.

(** With a numeric value in the dataset, a string that is neither a
    percentage nor a keyword resolves to its numeric parse. *)
Lemma parseReferenceValue_bare_number (s : string) (data : list record)
    (dataKey : option string) :
  endsWith s "%" = false ->
  is_statistic_keyword s = false ->
  extractNumericValues data dataKey <> [] ->
  parseReferenceValue (VString s) data dataKey = spec_resolve_bare s.
Proof.
  intros Hpct Hkw Hsome. unfold parseReferenceValue, spec_resolve_bare.
  rewrite Hpct.
  destruct (extractNumericValues data dataKey) as [|v vs] eqn:Hv; [congruence|].
  cbn [length Nat.eqb].
  unfold is_statistic_keyword in Hkw. cbn [existsb] in Hkw.
  repeat (apply orb_false_elim in Hkw; destruct Hkw as [?Hk Hkw]).
  rewrite Hk, Hk0, Hk1, Hk2, Hk3, Hk4, Hk5. cbn [orb].
  destruct (isNaN (parseFloat s)); reflexivity.
Qed.

(** Numbers and [undefined] do not look at the dataset. *)
Lemma parseReferenceValue_number (n : num) data dataKey :
  parseReferenceValue (VNumber n) data dataKey = Some n.
Proof. reflexivity. Qed.




End WithNumbers.

Import ExactNumbers Examples.


(** On the six months of sales the first element resolves to the average,
    the second one does not resolve, and both keep their other fields. *)
Example buildReferenceElements_sales :
  map (fun e => e !! "value")
      (buildReferenceElements (Some reference_elements) sales6 (Some "sales")) =
    [ Some (VNumber (ExactNumbers.fin (8030 # 3))); Some VUndefined ] /\
  map (fun e => e !! "label")
      (buildReferenceElements (Some reference_elements) sales6 (Some "sales")) =
    [ Some (VString "Average"); None ] /\
  map (fun e => e !! "stroke")
      (buildReferenceElements (Some reference_elements) sales6 (Some "sales")) =
    [ None; Some (VString "#999") ].
Proof. repeat split; vm_compute; reflexivity. Qed.

(** The statistics of the six months of sales: the average is 16060/6,
    the median the mean of 2390 and 2780, "50%" half of the maximum. *)
Example parseReferenceValue_sales :
  extractNumericValues sales6 (Some "sales") =
    map num_of_Z [4000; 3000; 2000; 2780; 1890; 2390]%Z /\
  parseReferenceValue (VString "average") sales6 (Some "sales") = Some (fin (8030 # 3)) /\
  parseReferenceValue (VString "Median") sales6 (Some "sales") = Some (num_of_Z 2585) /\
  parseReferenceValue (VString "max") sales6 (Some "sales") = Some (num_of_Z 4000) /\
  parseReferenceValue (VString "MIN") sales6 (Some "sales") = Some (num_of_Z 1890) /\
  parseReferenceValue (VString "50%") sales6 (Some "sales") = Some (num_of_Z 2000) /\
  parseReferenceValue (VString "x%") sales6 (Some "sales") = None /\
  parseReferenceValue (VString "target") sales6 (Some "sales") = None /\
  parseReferenceValue VUndefined sales6 (Some "sales") = None /\
  parseReferenceValue (VObject 0 "3000,5000") sales6 (Some "sales") = None.
Proof. repeat split; vm_compute; reflexivity. Qed.

(** C2, at the failing input.  The expression ["100"] is not a percentage
    and not a keyword, and it parses as the number 100; against a dataset
    without numeric values (here the empty one, and one with a single text
    column) [parseReferenceValue] nevertheless gives [undefined]. *)
Theorem parseReferenceValue_bare_number_dropped :
  endsWith "100" "%" = false /\
  is_statistic_keyword "100" = false /\
  spec_resolve_bare "100" = Some (num_of_Z 100) /\
  parseReferenceValue (VString "100") [] (Some "sales") = None /\
  parseReferenceValue (VString "100") [[("month", VString "Jan")]] (Some "sales") = None /\
  parseReferenceValue (VString "100")
    [[("month", VString "Jan"); ("sales", VNumber (num_of_Z 4000))]]
    (Some "sales") = Some (num_of_Z 100).
Proof. repeat split; vm_compute; reflexivity. Qed.

End ReferenceConfigFacts.

(* ===================================================================== *)
(** ** Properties of inferChartType *)
(* ===================================================================== *)

Module InferChartTypeFacts.
Import JS ParseConfig.

Local Open Scope string_scope.

Section WithNumbers.
Context `{JSNumber}.

(** Once the structural checks have failed, the answer is the funnel rule
    followed by the pie/composed/bar rules. *)
Lemma inferChartType_after_checks (data : list record) (series : list string) :
  earlier_checks data series = false ->
  inferChartType data series =
  if funnel_pattern data series then Funnel else after_funnel data series.
Proof.
  unfold earlier_checks, inferChartType, after_funnel. intros Hc.
  repeat (apply orb_false_elim in Hc; destruct Hc as [Hc ?Hr]).
  rewrite Hc, Hr2, Hr1, Hr0, Hr. reflexivity.
Qed.

Lemma after_funnel_not_funnel (data : list record) (series : list string) :
  after_funnel data series <> Funnel.
Proof.
  unfold after_funnel.
  destruct (_ && _ && _); [discriminate|].
  destruct (2 <=? length series)%nat; discriminate.
Qed.

(** The condition under which the funnel rule fires, as the source has it. *)
Lemma funnel_pattern_true (data : list record) (series : list string) :
  funnel_pattern data series = true <->
  exists s, series = [s] /\ (2 <= length data <= 15)%nat /\
    (3 * length (funnel_values data s) <= 5 * decreasingCount (funnel_values data s))%nat.
Proof.
  unfold funnel_pattern, funnel_threshold. split.
  - destruct series as [|s [|s' rest]]; try discriminate.
    intros Hf. apply andb_prop in Hf as [Hf H3]. apply andb_prop in Hf as [H1 H2].
    apply Nat.leb_le in H1, H2, H3. exists s. repeat split; assumption.
  - intros (s & -> & [H1 H2] & H3).
    apply Nat.leb_le in H1, H2, H3. rewrite H1, H2, H3. reflexivity.
Qed.

(** There are never more non-increasing pairs than pairs. *)
Lemma decreasingCount_le_pairs (values : list num) :
  (decreasingCount values <= spec_pairs values)%nat.
Proof.
  unfold spec_pairs. induction values as [|prev [|cur rest] IH]; cbn [decreasingCount length]; try lia.
  cbn [decreasingCount length] in IH.
  destruct (num_leb cur prev); lia.
Qed.

(** C1, amended.  When the flow-diagram, hierarchy, scatter and radar
    checks do not match: the funnel kind is returned only if there is
    exactly one series field, 2 to 15 records and, among the positive values
    of that field (a record whose value is not a positive number is skipped,
    it does not disqualify the dataset), at least 60% of the consecutive
    pairs are non-increasing; it is returned whenever, besides, there is a
    positive value and the non-increasing pairs number at least 60% of the
    positive values; and whenever it is not returned the result is that of
    the pie/composed/bar rules. *)
Theorem inferChartType_funnel_rule (data : list record) (series : list string) :
  earlier_checks data series = false ->
  (inferChartType data series = Funnel ->
   exists s, series = [s] /\ (2 <= length data <= 15)%nat /\
     (3 * spec_pairs (funnel_values data s)
      <= 5 * decreasingCount (funnel_values data s))%nat) /\
  (forall s, series = [s] -> (2 <= length data <= 15)%nat ->
     funnel_values data s <> [] ->
     (3 * length (funnel_values data s)
      <= 5 * decreasingCount (funnel_values data s))%nat ->
     inferChartType data series = Funnel) /\
  (inferChartType data series <> Funnel ->
   inferChartType data series = after_funnel data series).
Proof.
  intros Hc. rewrite (inferChartType_after_checks _ _ Hc).
  destruct (funnel_pattern data series) eqn:Hf.
  - apply funnel_pattern_true in Hf as (s & Hs & Hlen & Hthr).
    split; [|split].
    + intros _. exists s. repeat split; try tauto.
      unfold spec_pairs. lia.
    + reflexivity.
    + congruence.
  - split; [|split].
    + intros Habs. exfalso. exact (after_funnel_not_funnel _ _ Habs).
    + intros s Hs Hlen _ Hthr. exfalso.
      assert (funnel_pattern data series = true) as Ht
        by (apply funnel_pattern_true; exists s; auto).
      congruence.
    + reflexivity.
Qed.

End WithNumbers.

Import ExactNumbers Examples.

Lemma inferChartType_funnel_rule_witness :
  (inferChartType steps3 ["users"] = Funnel ->
   exists s, ["users"] = [s] /\ (2 <= length steps3 <= 15)%nat /\
     (3 * spec_pairs (funnel_values steps3 s)
      <= 5 * decreasingCount (funnel_values steps3 s))%nat) /\
  (forall s, ["users"] = [s] -> (2 <= length steps3 <= 15)%nat ->
     funnel_values steps3 s <> [] ->
     (3 * length (funnel_values steps3 s)
      <= 5 * decreasingCount (funnel_values steps3 s))%nat ->
     inferChartType steps3 ["users"] = Funnel) /\
  (inferChartType steps3 ["users"] <> Funnel ->
   inferChartType steps3 ["users"] = after_funnel steps3 ["users"]).
Proof.
  apply (inferChartType_funnel_rule steps3 ["users"]). vm_compute. reflexivity.
Defined.

(** C1, counterexample.  On the six months of sales three of the five
    consecutive pairs (60%) are non-increasing and every value is positive,
    yet the result is the pie kind; two strictly decreasing records give the
    bar kind; and a five-step flow with a zero in it, whose values are not
    all positive, gives the funnel kind. *)
Lemma funnel_rule_counterexample :
  (earlier_checks sales6 ["sales"] = false /\
   spec_funnel_rule sales6 ["sales"] = true /\
   inferChartType sales6 ["sales"] = Pie) /\
  (earlier_checks steps2 ["users"] = false /\
   spec_funnel_rule steps2 ["users"] = true /\
   inferChartType steps2 ["users"] = Bar) /\
  (earlier_checks steps5 ["users"] = false /\
   spec_funnel_rule steps5 ["users"] = false /\
   inferChartType steps5 ["users"] = Funnel).
Proof. repeat split; vm_compute; reflexivity. Qed.

End InferChartTypeFacts.

(* ===================================================================== *)
(** ** Properties of parseConfig *)
(* ===================================================================== *)

Module ParseConfigFacts.
Import JS ParseConfig.

Local Open Scope string_scope.

Lemma includes_elem_of (xs : list string) (x : string) :
  includes xs x = true <-> x ∈ xs.
Proof.
  unfold includes. rewrite existsb_exists. split.
  - intros (y & Hin & Heq). apply String.eqb_eq in Heq. subst y.
    apply list_elem_of_In. exact Hin.
  - intros Hin. exists x. split; [apply list_elem_of_In; exact Hin|].
    apply String.eqb_refl.
Qed.

Lemma indexOf_nonneg_or_absent (xs : list string) (x : string) :
  (indexOf xs x = -1 \/ 0 <= indexOf xs x)%Z.
Proof.
  induction xs as [|y rest IH]; cbn [indexOf]; [left; reflexivity|].
  destruct (String.eqb y x); [right; lia|].
  destruct (indexOf rest x <? 0)%Z eqn:Hneg; [left; reflexivity|].
  apply Z.ltb_ge in Hneg. right. lia.
Qed.

(** [series.indexOf(s) === 0] says that [s] is the first series. *)
Lemma indexOf_zero (xs : list string) (x : string) :
  (indexOf xs x =? 0)%Z = bool_decide (head xs = Some x).
Proof.
  destruct xs as [|y rest]; cbn [indexOf head].
  - rewrite bool_decide_eq_false_2 by discriminate. reflexivity.
  - destruct (String.eqb y x) eqn:Heq.
    + apply String.eqb_eq in Heq. subst y.
      rewrite bool_decide_eq_true_2 by reflexivity. reflexivity.
    + apply String.eqb_neq in Heq.
      rewrite bool_decide_eq_false_2 by congruence.
      destruct (indexOf_nonneg_or_absent rest x) as [Hm|Hp].
      * rewrite Hm. reflexivity.
      * destruct (indexOf rest x <? 0)%Z eqn:Hneg; [reflexivity|].
        apply Z.eqb_neq. lia.
Qed.

Lemma inherited_proto : inherited "__proto__" = true.
Proof. reflexivity. Qed.

Lemma assign_lookup {A} (obj : gmap string A) (name : string) (v : A) (s : string) :
  assign obj name v !! s =
  if bool_decide (name = s /\ s <> "__proto__") then Some v else obj !! s.
Proof.
  unfold assign. destruct (String.eqb_spec name "__proto__") as [->|Hname].
  - rewrite bool_decide_eq_false_2; [reflexivity|]. intros [<- Hs]. congruence.
  - destruct (decide (name = s)) as [<-|Hne].
    + rewrite lookup_insert_eq, bool_decide_eq_true_2; [reflexivity|]. split; congruence.
    + rewrite lookup_insert_ne by exact Hne.
      rewrite bool_decide_eq_false_2; [reflexivity|]. intros [Heq _]. congruence.
Qed.

(** One turn of the filling loop. *)
Lemma fill_step_lookup (series : list string) (sc : gmap string SeriesType)
    (x s : string) :
  (if has_type sc x then sc else assign sc x (default_type series x)) !! s =
  match sc !! s with
  | Some t => Some t
  | None => if bool_decide (x = s) && negb (inherited s)
            then Some (default_type series s) else None
  end.
Proof.
  unfold has_type. destruct (decide (x = s)) as [->|Hne].
  - rewrite (bool_decide_eq_true_2 (s = s)) by reflexivity. cbn [andb].
    destruct (sc !! s) as [t|] eqn:Hs; [rewrite Hs; reflexivity|].
    destruct (inherited s) eqn:Hin; cbn [negb]; [exact Hs|].
    rewrite assign_lookup, bool_decide_eq_true_2; [reflexivity|].
    split; [reflexivity|]. intros ->. rewrite inherited_proto in Hin. discriminate Hin.
  - rewrite (bool_decide_eq_false_2 (x = s)) by exact Hne. cbn [andb].
    assert ((if match sc !! x with Some _ => true | None => inherited x end
             then sc else assign sc x (default_type series x)) !! s = sc !! s) as ->.
    { destruct (match sc !! x with Some _ => true | None => inherited x end);
        [reflexivity|].
      rewrite assign_lookup, bool_decide_eq_false_2; [reflexivity|].
      intros [Heq _]. congruence. }
    destruct (sc !! s); reflexivity.
Qed.

(** One pass of the filling loop over any list [l] of names. *)
Lemma fill_loop_lookup (series l : list string) (sc : gmap string SeriesType)
    (s : string) :
  fold_left (fun seriesConfig s =>
      if has_type seriesConfig s then seriesConfig
      else assign seriesConfig s (default_type series s)) l sc !! s =
  match sc !! s with
  | Some t => Some t
  | None => if bool_decide (s ∈ l) && negb (inherited s)
            then Some (default_type series s) else None
  end.
Proof.
  revert sc. induction l as [|x l IH]; intros sc; cbn [fold_left].
  - rewrite bool_decide_eq_false_2 by apply not_elem_of_nil.
    destruct (sc !! s); reflexivity.
  - rewrite IH, fill_step_lookup.
    destruct (sc !! s) as [t|]; [reflexivity|].
    destruct (inherited s); cbn [negb]; rewrite ?andb_false_r; [reflexivity|].
    rewrite !andb_true_r.
    destruct (decide (x = s)) as [->|Hne].
    + rewrite !bool_decide_eq_true_2; [reflexivity | apply list_elem_of_here | reflexivity].
    + rewrite (bool_decide_eq_false_2 (x = s)) by exact Hne.
      destruct (decide (s ∈ l)) as [Hin|Hnin].
      * rewrite !bool_decide_eq_true_2; auto using list_elem_of_further.
      * rewrite !bool_decide_eq_false_2; auto.
        intros Hin. apply elem_of_cons in Hin as [->|Hin]; congruence.
Qed.

Lemma fill_series_defaults_lookup (series : list string)
    (sc : gmap string SeriesType) (s : string) :
  fill_series_defaults series sc !! s =
  match sc !! s with
  | Some t => Some t
  | None => if bool_decide (s ∈ series) && negb (inherited s)
            then Some (default_type series s) else None
  end.
Proof. apply fill_loop_lookup. Qed.

(** Filling twice is filling once. *)
Lemma fill_series_defaults_idempotent (series : list string)
    (sc : gmap string SeriesType) :
  fill_series_defaults series (fill_series_defaults series sc) =
  fill_series_defaults series sc.
Proof.
  apply map_eq. intros s. rewrite (fill_series_defaults_lookup series (fill_series_defaults _ _)).
  rewrite fill_series_defaults_lookup.
  destruct (sc !! s); [reflexivity|].
  destruct (bool_decide (s ∈ series) && negb (inherited s)); reflexivity.
Qed.

(** The object never holds an entry named ["__proto__"]. *)
Lemma Object_assign_empty {A} (source : gmap string A) :
  Object_assign ∅ source = delete "__proto__" source.
Proof. unfold Object_assign. apply (right_id ∅ (∪)). Qed.

Lemma fill_series_defaults_proto (series : list string)
    (sc : gmap string SeriesType) :
  sc !! "__proto__" = None -> fill_series_defaults series sc !! "__proto__" = None.
Proof.
  intros Hsc. rewrite fill_series_defaults_lookup, Hsc, inherited_proto.
  cbn [negb]. rewrite andb_false_r. reflexivity.
Qed.

Section WithNumbers.
Context `{JSNumber}.

Lemma pass_through_idempotent (rest : gmap string value) :
  pass_through (pass_through rest) = pass_through rest.
Proof.
  unfold pass_through. apply map_filter_filter_l. intros i x _ Hp. exact Hp.
Qed.

(** A property that is not one of the pass-through fields does not reach
    the result, whatever its value: the canonical object may carry its
    [seriesYAxisMap] along when it is read back as raw input. *)
Lemma pass_through_unread (rest : gmap string value) (key : string) (v : value) :
  includes passThroughKeys key = false ->
  pass_through (<[key := v]> rest) = pass_through rest.
Proof.
  intros Hkey. unfold pass_through. apply map_eq. intros k.
  rewrite !map_lookup_filter.
  destruct (decide (k = key)) as [->|Hne].
  - rewrite lookup_insert_eq. cbn.
    rewrite option_guard_False
      by (unfold passed_through; cbn [fst]; rewrite Hkey; exact id).
    destruct (rest !! key) as [x|]; cbn; [|reflexivity].
    rewrite option_guard_False
      by (unfold passed_through; cbn [fst]; rewrite Hkey; exact id).
    reflexivity.
  - rewrite lookup_insert_ne by congruence. reflexivity.
Qed.

Lemma parseConfig_unread (c : ChartConfig) (key : string) (v : value) :
  includes passThroughKeys key = false ->
  parseConfig
    {| config_data := config_data c; config_chartType := config_chartType c;
       config_title := config_title c; config_xAxis := config_xAxis c;
       config_yAxis := config_yAxis c; config_yAxis2 := config_yAxis2 c;
       config_series := config_series c;
       config_seriesConfig := config_seriesConfig c;
       config_theme := config_theme c;
       config_rest := <[key := v]> (config_rest c) |} = parseConfig c.
Proof.
  intros Hkey. unfold parseConfig.
  cbn [config_data config_chartType config_title config_xAxis config_yAxis
       config_yAxis2 config_series config_seriesConfig config_theme config_rest].
  rewrite (pass_through_unread _ _ _ Hkey). reflexivity.
Qed.

(** What a successful [parseConfig] has established. *)
Lemma parseConfig_inr (c : ChartConfig) (p : ParsedChartConfig) :
  parseConfig c = inr p ->
  exists sampleItem rest firstKey keys,
    resolve_data (config_data c) = inr (sampleItem :: rest) /\
    Object_keys sampleItem = firstKey :: keys /\
    let data := sampleItem :: rest in
    let xAxis := default firstKey (config_xAxis c) in
    let declared := default [] (config_series c) in
    let series := if Nat.eqb (length declared) 0
                  then numeric_columns data (firstKey :: keys) xAxis
                  else declared in
    let chartType := default (inferChartType data series) (config_chartType c) in
    let user := match config_seriesConfig c with
                | Some user => Object_assign ∅ user
                | None => ∅
                end in
    includes (firstKey :: keys) xAxis = true /\
    Nat.eqb (length series) 0 = false /\
    p = {| parsed_chartType := chartType;
           parsed_title := default "Data Visualization" (config_title c);
           parsed_data := data;
           parsed_xAxis := xAxis;
           parsed_series := series;
           parsed_seriesConfig :=
             if ChartType_eqb chartType Composed
             then fill_series_defaults series user else user;
           parsed_theme := default Light (config_theme c);
           parsed_optional := pass_through (config_rest c);
           parsed_seriesYAxisMap :=
             build_seriesYAxisMap (config_yAxis c) (config_yAxis2 c) series;
           parsed_yAxis := config_yAxis c;
           parsed_yAxis2 := config_yAxis2 c |}.
Proof.
  unfold parseConfig.
  destruct (resolve_data (config_data c)) as [e|data] eqn:Hd; [discriminate|].
  destruct data as [|sampleItem rest]; [discriminate|].
  destruct (Object_keys sampleItem) as [|firstKey keys] eqn:Hk; [discriminate|].
  destruct (includes (firstKey :: keys) (default firstKey (config_xAxis c))) eqn:Hx;
    cbn [negb]; [|discriminate].
  match goal with |- context [Nat.eqb (length ?s) 0] =>
    match s with
    | default _ _ => fail 1
    | _ => destruct (Nat.eqb (length s) 0) eqn:Hs; [discriminate|]
    end end.
  intros [= <-].
  exists sampleItem, rest, firstKey, keys. cbv zeta.
  repeat split; try assumption; try reflexivity.
Qed.

(** C5. [parseConfig] is idempotent: a configuration it has produced,
    handed back as raw input, is normalised to itself (same chart kind,
    title, data, x-axis, series, per-series type map, theme, pass-through
    fields, dual-axis map and axis declarations). *)
Theorem parseConfig_idempotent (c : ChartConfig) (p : ParsedChartConfig) :
  parseConfig c = inr p -> parseConfig (as_raw p) = inr p.
Proof.
  intros Hp. apply parseConfig_inr in Hp
    as (sampleItem & rest & firstKey & keys & Hd & Hk & Hx & Hs & ->).
  cbv zeta in *.
  set (xAxis := default firstKey (config_xAxis c)) in *.
  set (series := if Nat.eqb (length (default [] (config_series c))) 0
                 then numeric_columns (sampleItem :: rest) (firstKey :: keys) xAxis
                 else default [] (config_series c)) in *.
  set (chartType := default (inferChartType (sampleItem :: rest) series)
                      (config_chartType c)).
  set (user := match config_seriesConfig c with
               | Some user => Object_assign ∅ user
               | None => ∅
               end).
  unfold parseConfig, as_raw.
  cbn [config_data config_chartType config_title config_xAxis config_yAxis
       config_yAxis2 config_series config_seriesConfig config_theme config_rest
       parsed_chartType parsed_title parsed_data parsed_xAxis parsed_series
       parsed_seriesConfig parsed_theme parsed_optional parsed_seriesYAxisMap
       parsed_yAxis parsed_yAxis2 resolve_data default].
  rewrite Hk. cbn [default from_option id]. rewrite Hx. cbn [negb].
  rewrite Hs. cbv iota. rewrite Hs.
  rewrite pass_through_idempotent.
  assert (user !! "__proto__" = None) as Huser.
  { subst user. destruct (config_seriesConfig c); [|apply lookup_empty].
    rewrite Object_assign_empty. apply lookup_delete_eq. }
  rewrite Object_assign_empty.
  destruct (ChartType_eqb chartType Composed).
  - rewrite (delete_id _ _ (fill_series_defaults_proto series user Huser)).
    rewrite fill_series_defaults_idempotent. reflexivity.
  - rewrite (delete_id _ _ Huser). reflexivity.
Qed.

Lemma ChartType_eqb_Composed (t : ChartType) :
  ChartType_eqb t Composed = true <-> t = Composed.
Proof. destruct t; cbn; split; congruence. Qed.

(** C6, amended.  [parseConfig] adds default entries to the per-series
    type map when and only when the resolved kind is the composed kind:
    then every selected series the caller gave no type, and whose name is
    not that of a member every object inherits, gets "bar" if it is the
    first selected series and "line" otherwise, and nothing else is added.
    The entries the caller supplied are always copied unchanged (one named
    "__proto__" apart, which the object does not store), so a single-kind
    chart carries exactly the caller's map, which is empty when the caller
    supplied none. *)
Theorem parseConfig_seriesConfig (c : ChartConfig) (p : ParsedChartConfig) :
  parseConfig c = inr p ->
  (parsed_chartType p <> Composed ->
   parsed_seriesConfig p = delete "__proto__" (default ∅ (config_seriesConfig c))) /\
  (parsed_chartType p = Composed ->
   forall s,
     parsed_seriesConfig p !! s =
     match delete "__proto__" (default ∅ (config_seriesConfig c)) !! s with
     | Some t => Some t
     | None =>
         if bool_decide (s ∈ parsed_series p) && negb (inherited s)
         then Some (if bool_decide (head (parsed_series p) = Some s)
                    then SeriesBar else SeriesLine)
         else None
     end).
Proof.
  intros Hp. apply parseConfig_inr in Hp
    as (sampleItem & rest & firstKey & keys & Hd & Hk & Hx & Hs & ->).
  cbv zeta in *.
  cbn [parsed_chartType parsed_seriesConfig parsed_series].
  assert (match config_seriesConfig c with
          | Some user => Object_assign ∅ user
          | None => ∅
          end = delete "__proto__" (default ∅ (config_seriesConfig c))) as ->.
  { destruct (config_seriesConfig c); cbn [default from_option id].
    - apply Object_assign_empty.
    - symmetry. apply delete_empty. }
  split.
  - intros Hne.
    destruct (ChartType_eqb _ Composed) eqn:He; [|reflexivity].
    apply ChartType_eqb_Composed in He. contradiction.
  - intros He s. apply ChartType_eqb_Composed in He. rewrite He.
    rewrite fill_series_defaults_lookup.
    destruct (delete "__proto__" (default ∅ (config_seriesConfig c)) !! s);
      [reflexivity|].
    destruct (bool_decide (s ∈ _) && negb (inherited s)); [|reflexivity].
    unfold default_type. rewrite indexOf_zero. reflexivity.
Qed.

(** A selected series whose name is that of an inherited member, and to
    which the caller gave no type, is left without one: [seriesConfig[s]]
    reads the inherited member, which is truthy. *)
Lemma parseConfig_inherited_name_untyped (c : ChartConfig) (p : ParsedChartConfig)
    (s : string) :
  parseConfig c = inr p -> inherited s = true ->
  default ∅ (config_seriesConfig c) !! s = None ->
  parsed_seriesConfig p !! s = None.
Proof.
  intros Hp Hin Hs. apply parseConfig_inr in Hp
    as (sampleItem & rest & firstKey & keys & Hd & Hk & Hx & Hlen & ->).
  cbv zeta in *. cbn [parsed_seriesConfig].
  assert (match config_seriesConfig c with
          | Some user => Object_assign ∅ user
          | None => ∅
          end !! s = None) as Huser.
  { destruct (config_seriesConfig c) as [user|]; cbn [default from_option id] in Hs;
      [|apply lookup_empty].
    rewrite Object_assign_empty.
    destruct (decide ("__proto__" = s)) as [<-|Hne];
      [apply lookup_delete_eq | rewrite lookup_delete_ne by exact Hne; exact Hs]. }
  destruct (ChartType_eqb _ Composed); [|exact Huser].
  rewrite fill_series_defaults_lookup, Huser, Hin. cbn [negb].
  rewrite andb_false_r. reflexivity.
Qed.

End WithNumbers.

Import ExactNumbers Examples.

Lemma parseConfig_idempotent_witness :
  exists p, parseConfig dual_axis_config = inr p /\ parseConfig (as_raw p) = inr p.
Proof.
  eexists. split; [reflexivity|].
  apply (parseConfig_idempotent dual_axis_config). reflexivity.
Defined.

Lemma parseConfig_seriesConfig_witness :
  exists p, parseConfig dual_axis_config = inr p /\
  (parsed_chartType p <> Composed ->
   parsed_seriesConfig p =
     delete "__proto__" (default ∅ (config_seriesConfig dual_axis_config))) /\
  (parsed_chartType p = Composed ->
   forall s,
     parsed_seriesConfig p !! s =
     match delete "__proto__" (default ∅ (config_seriesConfig dual_axis_config)) !! s with
     | Some t => Some t
     | None =>
         if bool_decide (s ∈ parsed_series p) && negb (inherited s)
         then Some (if bool_decide (head (parsed_series p) = Some s)
                    then SeriesBar else SeriesLine)
         else None
     end).
Proof.
  eexists. split; [reflexivity|].
  apply (parseConfig_seriesConfig dual_axis_config). reflexivity.
Defined.

(** The composed example: the caller's "area" for revenue is kept, the
    first series becomes a bar and the remaining one a line; "margin" is not
    a selected series and gets no axis; the unknown field [width] and the
    undefined [layout] are dropped. *)
Example dual_axis_types :
  exists p, parseConfig dual_axis_config = inr p /\
    parsed_seriesConfig p !! "sales" = Some SeriesBar /\
    parsed_seriesConfig p !! "revenue" = Some SeriesArea /\
    parsed_seriesConfig p !! "profit" = Some SeriesLine /\
    (fun m => (m !! "sales", m !! "profit", m !! "margin", m !! "revenue"))
      <$> parsed_seriesYAxisMap p = Some (Some AxisLeft, Some AxisRight, None, None) /\
    parsed_optional p !! "subtitle" = Some (VString "2024") /\
    parsed_optional p !! "width" = None /\
    parsed_optional p !! "layout" = None.
Proof. eexists. split; [reflexivity|]. repeat split; vm_compute; reflexivity. Qed.

(** C6, counterexample.  A bar chart declared with a type for its one
    series: normalisation succeeds, the kind stays "bar", and the canonical
    configuration carries the map [sales -> line]. *)
Lemma single_kind_keeps_caller_types :
  ~ spec_no_type_map bar_with_types /\
  exists p, parseConfig bar_with_types = inr p /\
    parsed_chartType p = Bar /\
    parsed_seriesConfig p !! "sales" = Some SeriesLine.
Proof.
  split.
  - intros Hc. unfold spec_no_type_map in Hc.
    specialize (Hc _ eq_refl ltac:(vm_compute; discriminate)).
    apply (f_equal (fun m => m !! "sales")) in Hc.
    vm_compute in Hc. discriminate Hc.
  - eexists. split; [reflexivity|]. split; vm_compute; reflexivity.
Qed.

End ParseConfigFacts.

(* ===================================================================== *)
(** ** Properties of syncConfig.ts *)
(* ===================================================================== *)

Module SyncConfigFacts.
Import JS SyncConfig.

Local Open Scope string_scope.
Local Open Scope Z_scope.

Section WithNumbers.
Context `{JSNumber}.

Lemma findIndex_range {A} (pred : A -> bool) (data : list A) :
  findIndex pred data = -1 \/
  0 <= findIndex pred data < Z.of_nat (length data).
Proof.
  induction data as [|item rest IH]; cbn [findIndex length]; [left; reflexivity|].
  destruct (pred item); [right; lia|].
  destruct (findIndex pred rest <? 0) eqn:Hneg; [left; reflexivity|].
  apply Z.ltb_ge in Hneg. right. lia.
Qed.

Lemma spec_findIndexByValue_nonneg (data : list record) (dataKey : string)
    (syncValue : value) (i : Z) :
  spec_findIndexByValue data dataKey syncValue = Some i -> 0 <= i.
Proof.
  revert i. induction data as [|item rest IH]; intros i Hs;
    cbn [spec_findIndexByValue] in Hs; [discriminate|].
  destruct (strict_eq (get item dataKey) syncValue); [injection Hs as <-; lia|].
  destruct (spec_findIndexByValue rest dataKey syncValue) as [j|];
    cbn [option_map] in Hs; [|discriminate].
  injection Hs as <-. specialize (IH j eq_refl). lia.
Qed.

(** [findIndexByValue] agrees with the specified scan on a match, and
    answers [-1], a number, where the specification says [undefined]. *)
Lemma findIndexByValue_spec (data : list record) (dataKey : string) (syncValue : value) :
  findIndexByValue data dataKey syncValue =
  Some (default (-1) (spec_findIndexByValue data dataKey syncValue)).
Proof.
  unfold findIndexByValue. f_equal.
  induction data as [|item rest IH]; cbn [findIndex spec_findIndexByValue]; [reflexivity|].
  destruct (strict_eq (get item dataKey) syncValue); [reflexivity|].
  rewrite IH.
  destruct (spec_findIndexByValue rest dataKey syncValue) as [i|] eqn:Hs;
    cbn [option_map default from_option id]; [|reflexivity].
  apply spec_findIndexByValue_nonneg in Hs.
  destruct (i <? 0) eqn:Hneg; [apply Z.ltb_lt in Hneg; lia|]. lia.
Qed.

Lemma findIndexByValue_never_undefined (data : list record) (dataKey : string)
    (syncValue : value) :
  findIndexByValue data dataKey syncValue <> None.
Proof. discriminate. Qed.

(** Under the index policy a range is always returned: the source start
    untouched, the source end cut at the last index of the target. *)
Lemma transformBrushRange_index (sourceData targetData : list record)
    (sourceStart sourceEnd : Z) (k1 k2 : string) :
  transformBrushRange sourceData targetData sourceStart sourceEnd k1 k2 ByIndex =
  Some {| range_start := sourceStart;
          range_end := Z.min sourceEnd (Z.of_nat (length targetData) - 1) |}.
Proof.
  unfold transformBrushRange.
  destruct (sourceEnd <? Z.of_nat (length targetData)) eqn:Hlt; [|reflexivity].
  apply Z.ltb_lt in Hlt. do 2 f_equal. lia.
Qed.

(** The guards of [handleSyncedBrush], read on optional integer indices. *)
Lemma handleSyncedBrush_cases (w : World) (syncId : string)
    (brushData : PartialBrushState) :
  handleSyncedBrush w syncId brushData =
  match partial_dataStartIndex brushData, partial_dataEndIndex brushData with
  | None, _ => (Threw StartIndexRequired, w)
  | Some _, None => (Threw EndIndexRequired, w)
  | Some s, Some e =>
      (Returned,
       notifyListeners
         {| sync := {| tooltips := tooltips (sync w);
                       brushes := <[syncId := mkSyncedBrushState syncId s e]>
                                    (brushes (sync w));
                       listeners := listeners (sync w) |};
            invoked := invoked w |} syncId)
  end.
Proof.
  unfold handleSyncedBrush.
  destruct (partial_dataStartIndex brushData) as [s|];
    cbn [index_truthy index_is_zero negb andb]; [|reflexivity].
  destruct (s =? 0); cbn [negb andb];
    destruct (partial_dataEndIndex brushData); reflexivity.
Qed.

(** C10. [handleSyncedBrush] throws exactly when [dataStartIndex] or
    [dataEndIndex] is missing from the partial state, an index of 0 being
    present; when it throws, the world is the one it was called in: no
    brush is stored or overwritten and no callback is invoked; when it
    returns, the brush of the group is the supplied pair and the callbacks
    registered for the group have been invoked, in order. *)
Theorem handleSyncedBrush_throws_iff_missing (w : World) (syncId : string)
    (brushData : PartialBrushState) :
  (fst (handleSyncedBrush w syncId brushData) <> Returned <->
   partial_dataStartIndex brushData = None \/
   partial_dataEndIndex brushData = None) /\
  (fst (handleSyncedBrush w syncId brushData) <> Returned ->
   snd (handleSyncedBrush w syncId brushData) = w) /\
  (forall s e,
     partial_dataStartIndex brushData = Some s ->
     partial_dataEndIndex brushData = Some e ->
     fst (handleSyncedBrush w syncId brushData) = Returned /\
     brushes (sync (snd (handleSyncedBrush w syncId brushData))) !! syncId =
       Some (mkSyncedBrushState syncId s e) /\
     invoked (snd (handleSyncedBrush w syncId brushData)) =
       (invoked w ++ default [] (listeners (sync w) !! syncId))%list).
Proof.
  rewrite handleSyncedBrush_cases.
  destruct (partial_dataStartIndex brushData) as [s|];
    [destruct (partial_dataEndIndex brushData) as [e|]|]; cbn [fst snd].
  - split; [|split].
    + split; [intros Hn; exfalso; apply Hn; reflexivity|].
      intros [Hd|Hd]; discriminate Hd.
    + intros Hn. exfalso. apply Hn. reflexivity.
    + intros s' e' [= <-] [= <-].
      cbn [notifyListeners sync brushes invoked listeners].
      split; [reflexivity|]. split; [apply lookup_insert_eq | reflexivity].
  - split; [|split].
    + split; [intros _; right; reflexivity | discriminate].
    + reflexivity.
    + intros s' e' _ He. discriminate He.
  - split; [|split].
    + split; [intros _; left; reflexivity | discriminate].
    + reflexivity.
    + intros s' e' Hs. discriminate Hs.
Qed.

End WithNumbers.

Import ExactNumbers Examples.

Lemma handleSyncedBrush_throws_iff_missing_witness :
  fst (handleSyncedBrush two_listeners "chart-sync-1"
         (mkPartialBrushState None (Some 0) (Some 5))) = Returned /\
  brushes (sync (snd (handleSyncedBrush two_listeners "chart-sync-1"
         (mkPartialBrushState None (Some 0) (Some 5))))) !! "chart-sync-1" =
    Some (mkSyncedBrushState "chart-sync-1" 0 5) /\
  invoked (snd (handleSyncedBrush two_listeners "chart-sync-1"
         (mkPartialBrushState None (Some 0) (Some 5)))) =
    (invoked two_listeners ++
     default [] (listeners (sync two_listeners) !! "chart-sync-1"))%list.
Proof.
  apply (proj2 (proj2 (handleSyncedBrush_throws_iff_missing two_listeners
    "chart-sync-1" (mkPartialBrushState None (Some 0) (Some 5)))));
  reflexivity.
Defined.

(** The two throwing calls of the tests leave both listeners uninvoked. *)
Example handleSyncedBrush_missing_bound :
  handleSyncedBrush two_listeners "chart-sync-1"
    (mkPartialBrushState None None (Some 5)) = (Threw StartIndexRequired, two_listeners) /\
  handleSyncedBrush two_listeners "chart-sync-1"
    (mkPartialBrushState None (Some 2) None) = (Threw EndIndexRequired, two_listeners) /\
  invoked (snd (handleSyncedBrush two_listeners "chart-sync-1"
    (mkPartialBrushState None (Some 2) (Some 5)))) = [1%nat; 2%nat].
Proof. repeat split; vm_compute; reflexivity. Qed.

(** C3, at the failing input.  No record of the test data has the month
    "May": the specified scan gives [undefined], [findIndexByValue] gives
    the number [-1]; and the value-policy tooltip transform for "Apr",
    which the target dataset lacks, gives [-1] as well and not [undefined].
    Where a record matches, the first match is returned. *)
Theorem findIndexByValue_absent_is_minus_one :
  spec_findIndexByValue testData "month" (VString "May") = None /\
  findIndexByValue testData "month" (VString "May") = Some (-1) /\
  findValueByIndex testData "month" 3 = VString "Apr" /\
  spec_findIndexByValue targetData "period" (VString "Apr") = None /\
  transformTooltipIndex testData targetData 3 "month" "period" ByValue = Some (-1) /\
  findIndexByValue testData "month" (VString "Mar") = Some 2.
Proof. repeat split; vm_compute; reflexivity. Qed.

(** C8, at the failing inputs.  Against the three-record target of the
    tests, under the index policy: the source range (1, 3), which lies
    within the target's bounds, comes back as (1, 2); and the source range
    (3, 4) comes back as (3, 2), inverted and starting beyond the target's
    last index. *)
Theorem transformBrushRange_index_not_clamped :
  spec_range_ok 3 (Some (mkBrushRange 1 3)) /\
  transformBrushRange testData targetData 1 3 "month" "period" ByIndex =
    Some (mkBrushRange 1 2) /\
  transformBrushRange testData targetData 3 4 "month" "period" ByIndex =
    Some (mkBrushRange 3 2) /\
  ~ spec_range_ok 3
      (transformBrushRange testData targetData 3 4 "month" "period" ByIndex).
Proof.
  split; [cbn; lia|]. split; [reflexivity|]. split; [reflexivity|].
  rewrite transformBrushRange_index. cbn [spec_range_ok range_start range_end].
  change (Z.of_nat (length targetData)) with 3. lia.
Qed.

End SyncConfigFacts.

(* ===================================================================== *)
(** ** Building, validating and applying a brush range *)
(* ===================================================================== *)

Module BrushConfigRestFacts.
Import JS BrushConfig BrushConfigRest.

Local Open Scope string_scope.
Local Open Scope Z_scope.

Lemma filterDataByBrushRange_take_drop {T} (data : list T) (startIndex endIndex : Z) :
  filterDataByBrushRange data startIndex endIndex =
    take (Z.to_nat (Z.min endIndex (Z.of_nat (length data)) - Z.max 0 startIndex))
         (drop (Z.to_nat (Z.max 0 startIndex)) data).
Proof.
  unfold filterDataByBrushRange.
  destruct data as [|x data']; [cbn; rewrite drop_nil, take_nil; reflexivity|].
  cbn [Nat.eqb length]. set (data := x :: data').
  change (S (length data')) with (length data).
  destruct (Z.max 0 startIndex >=? Z.min endIndex (Z.of_nat (length data))) eqn:Hge.
  - apply Z.geb_le in Hge.
    replace (Z.to_nat _) with 0%nat by lia. reflexivity.
  - rewrite Z.geb_leb in Hge. apply Z.leb_gt in Hge.
    unfold Array_slice. cbv zeta.
    replace (Z.max 0 startIndex <? 0) with false by (symmetry; apply Z.ltb_ge; lia).
    replace (Z.min endIndex (Z.of_nat (length data)) <? 0) with false
      by (symmetry; apply Z.ltb_ge; lia).
    f_equal; [|f_equal]; lia.
Qed.

Lemma filterDataByBrushRange_length {T} (data : list T) (startIndex endIndex : Z) :
  Z.of_nat (length (filterDataByBrushRange data startIndex endIndex)) =
    Z.max 0 (Z.min endIndex (Z.of_nat (length data)) - Z.max 0 startIndex).
Proof.
  rewrite filterDataByBrushRange_take_drop, length_take, length_drop. lia.
Qed.

(** X3. [filterDataByBrushRange] returns the records from position
    [max 0 start] up to, not including, position [min end length]: nothing
    when that range is empty or inverted, and never more than the data. *)
Theorem filterDataByBrushRange_slice {T} (data : list T) (startIndex endIndex : Z) :
  filterDataByBrushRange data startIndex endIndex =
    take (Z.to_nat (Z.min endIndex (Z.of_nat (length data)) - Z.max 0 startIndex))
         (drop (Z.to_nat (Z.max 0 startIndex)) data) /\
  Z.of_nat (length (filterDataByBrushRange data startIndex endIndex)) =
    Z.max 0 (Z.min endIndex (Z.of_nat (length data)) - Z.max 0 startIndex).
Proof.
  split; [apply filterDataByBrushRange_take_drop | apply filterDataByBrushRange_length].
Qed.

(** X4. Whatever integers a brush event carries, the range that
    [onBrushChange] makes of them selects, through [filterDataByBrushRange],
    exactly [range] records of a non-empty dataset, and at least one. *)
Theorem onBrushChange_selects_range {T} (data : list T) (startIndex endIndex : Z) :
  data <> [] ->
  let r := onBrushChange startIndex endIndex (Z.of_nat (length data)) in
  Z.of_nat (length (filterDataByBrushRange data (BrushConfig.startIndex r)
                      (BrushConfig.endIndex r))) = range r /\
  1 <= range r.
Proof.
  intros Hne r.
  assert (1 <= Z.of_nat (length data)) as Hlen
    by (destruct data; [congruence | cbn [length]; lia]).
  rewrite filterDataByBrushRange_length.
  subst r. unfold onBrushChange. cbn [BrushConfig.startIndex BrushConfig.endIndex range].
  lia.
Qed.

(** X5. The full range of [resetBrush], and the one a fresh
    [createInitialBrushState] holds, select the whole dataset. *)
Theorem full_range_selects_everything {T} (data : list T) (enabled : option bool) :
  data <> [] ->
  (exists r, resetBrush (Z.of_nat (length data)) = inr r /\
     filterDataByBrushRange data (BrushConfig.startIndex r) (BrushConfig.endIndex r)
       = data) /\
  (exists st, createInitialBrushState (Z.of_nat (length data)) enabled = inr st /\
     filterDataByBrushRange data (state_dataStartIndex st) (state_dataEndIndex st)
       = data).
Proof.
  intros Hne.
  assert (1 <= Z.of_nat (length data)) as Hlen
    by (destruct data; [congruence | cbn [length]; lia]).
  assert (filterDataByBrushRange data 0 (Z.of_nat (length data)) = data) as Hall.
  { rewrite filterDataByBrushRange_take_drop.
    replace (Z.to_nat (Z.max 0 0)) with 0%nat by lia. rewrite drop_0.
    apply take_ge. lia. }
  unfold resetBrush, createInitialBrushState.
  replace (Z.of_nat (length data) <=? 0) with false by (symmetry; apply Z.leb_gt; lia).
  split; eexists; (split; [reflexivity | exact Hall]).
Qed.

(** X6. [handleBrushKeyboard] answers [null] exactly for a key other than
    the four arrow keys; for an arrow key and [dataLength >= 1] its result is
    a non-empty range inside the data, whatever the current range and the
    step are. *)
Theorem handleBrushKeyboard_total (key : string) (cs ce len : Z) (step : option Z) :
  (handleBrushKeyboard key cs ce len step = None <->
   key <> "ArrowLeft" /\ key <> "ArrowRight" /\ key <> "ArrowUp" /\ key <> "ArrowDown") /\
  (1 <= len -> forall r, handleBrushKeyboard key cs ce len step = Some r ->
     0 <= BrushConfig.startIndex r /\
     BrushConfig.startIndex r < BrushConfig.endIndex r /\
     BrushConfig.endIndex r <= len).
Proof.
  unfold handleBrushKeyboard.
  destruct (String.eqb_spec key "ArrowLeft") as [->|H1];
    [|destruct (String.eqb_spec key "ArrowRight") as [->|H2];
      [|destruct (String.eqb_spec key "ArrowUp") as [->|H3];
        [|destruct (String.eqb_spec key "ArrowDown") as [->|H4]]]].
  all: split;
    [ split; [ try discriminate; intros _; repeat split; assumption
             | try reflexivity; intros (? & ? & ? & ?); congruence ]
    | intros Hlen r Hr; try discriminate Hr; injection Hr as <-;
      unfold onBrushChange; cbn [BrushConfig.startIndex BrushConfig.endIndex]; lia ].
Qed.

(** X7. On a window inside the data bounds and a step [n >= 0]: ArrowUp
    returns [max 0 (start - n), min dataLength (end + n)), which contains
    the window; ArrowDown returns a window contained in the current one,
    of width [max 1 (width - 2n)]: both edges move inward by [n] and stop
    one index apart. *)
Theorem handleBrushKeyboard_vertical (cs ce len n : Z) :
  0 <= cs -> cs < ce -> ce <= len -> 0 <= n ->
  (exists u,
     handleBrushKeyboard "ArrowUp" cs ce len (Some n) = Some u /\
     window u = (Z.max 0 (cs - n), Z.min len (ce + n)) /\
     BrushConfig.startIndex u <= cs /\ ce <= BrushConfig.endIndex u) /\
  (exists d,
     handleBrushKeyboard "ArrowDown" cs ce len (Some n) = Some d /\
     BrushConfig.startIndex d = Z.min (ce - 1) (cs + n) /\
     cs <= BrushConfig.startIndex d /\ BrushConfig.endIndex d <= ce /\
     width d = Z.max 1 (ce - cs - 2 * n)).
Proof.
  intros H0 H1 H2 Hn. unfold handleBrushKeyboard.
  cbn [String.eqb Ascii.eqb Bool.eqb default from_option id]. cbv zeta.
  split; eexists; (split; [reflexivity|]);
    unfold window, width, onBrushChange;
    cbn [BrushConfig.startIndex BrushConfig.endIndex].
  - repeat split; try (f_equal; lia); lia.
  - repeat split; lia.
Qed.

Lemma handleBrushKeyboard_vertical_witness :
  (exists u,
     handleBrushKeyboard "ArrowUp" 2 6 10 (Some 3) = Some u /\
     window u = (Z.max 0 (2 - 3), Z.min 10 (6 + 3)) /\
     BrushConfig.startIndex u <= 2 /\ 6 <= BrushConfig.endIndex u) /\
  (exists d,
     handleBrushKeyboard "ArrowDown" 2 6 10 (Some 3) = Some d /\
     BrushConfig.startIndex d = Z.min (6 - 1) (2 + 3) /\
     2 <= BrushConfig.startIndex d /\ BrushConfig.endIndex d <= 6 /\
     width d = Z.max 1 (6 - 2 - 2 * 3)).
Proof.
  apply (handleBrushKeyboard_vertical 2 6 10 3); lia.
Defined.

Section WithNumbers.
Context `{JSNumber}.

(** X1. [buildBrushConfig] throws exactly when the configuration is
    missing or [dataLength <= 0]; otherwise the built range satisfies
    [0 <= dataStartIndex < dataEndIndex <= dataLength], whatever indices
    were declared. *)
Theorem buildBrushConfig_range (config : option BrushConfig) (dataLength : Z) :
  match buildBrushConfig config dataLength with
  | inl e =>
      (config = None /\ e = ConfigRequired) \/
      (config <> None /\ dataLength <= 0 /\ e = LengthNotPositive)
  | inr built =>
      config <> None /\ 0 < dataLength /\
      exists dataEnd, built_dataEndIndex built = Some dataEnd /\
        0 <= built_dataStartIndex built /\
        built_dataStartIndex built < dataEnd /\ dataEnd <= dataLength
  end.
Proof.
  unfold buildBrushConfig. destruct config as [config|]; [|left; auto].
  destruct (dataLength <=? 0) eqn:Hlen.
  - apply Z.leb_le in Hlen. right. repeat split; [discriminate | lia].
  - apply Z.leb_gt in Hlen. cbv zeta.
    match goal with |- context [?a >=? ?b] => destruct (a >=? b) eqn:Hge end;
      (split; [discriminate|]; split; [lia|]);
      cbn [built_with built_dataStartIndex built_dataEndIndex];
      eexists; (split; [reflexivity|]).
    + lia.
    + rewrite Z.geb_leb in Hge. apply Z.leb_gt in Hge. lia.
Qed.

(** X2. A configuration that [validateBrushConfig] accepts for a dataset
    is built by [buildBrushConfig] without an error for the length of that
    dataset; when it declares both indices, the built range is exactly the
    declared one. *)
Theorem validated_config_builds {T} (config : BrushConfig) (data : list T) :
  validateBrushConfig (Some config) (Some data) = None ->
  (exists built,
     buildBrushConfig (Some config) (Z.of_nat (length data)) = inr built) /\
  (forall s e,
     cfg_dataStartIndex config = Some s -> cfg_dataEndIndex config = Some e ->
     0 <= s /\ s < e /\ e <= Z.of_nat (length data) /\
     buildBrushConfig (Some config) (Z.of_nat (length data)) =
       inr (built_with config s e)).
Proof.
  unfold validateBrushConfig.
  destruct data as [|x data']; [discriminate|].
  cbn [Nat.eqb length]. set (len := Z.of_nat (S (length data'))).
  assert (0 < len) as Hlen by (subst len; lia).
  cbv zeta. intros Hv. split.
  - unfold buildBrushConfig.
    replace (len <=? 0) with false by (symmetry; apply Z.leb_gt; lia).
    cbv zeta. destruct (_ >=? _); eexists; reflexivity.
  - intros s e Hs He. rewrite Hs, He in Hv.
    destruct (s <? 0) eqn:H1; [discriminate|]. apply Z.ltb_ge in H1.
    destruct (len <? e) eqn:H2; [discriminate|]. apply Z.ltb_ge in H2.
    destruct (s >=? e) eqn:H3; [discriminate|].
    rewrite Z.geb_leb in H3. apply Z.leb_gt in H3.
    repeat split; try lia.
    unfold buildBrushConfig.
    replace (len <=? 0) with false by (symmetry; apply Z.leb_gt; lia).
    rewrite Hs, He. cbn [default from_option id]. cbv zeta.
    replace (Z.max 0 s) with s by lia. replace (Z.min e len) with e by lia.
    replace (s >=? e) with false by (symmetry; rewrite Z.geb_leb; apply Z.leb_gt; lia).
    reflexivity.
Qed.

End WithNumbers.

Import ExactNumbers Examples MoreExamples.

Lemma validated_config_builds_witness :
  (exists built,
     buildBrushConfig (Some brush_2_5) (Z.of_nat (length sales6)) = inr built) /\
  (forall s e,
     cfg_dataStartIndex brush_2_5 = Some s -> cfg_dataEndIndex brush_2_5 = Some e ->
     0 <= s /\ s < e /\ e <= Z.of_nat (length sales6) /\
     buildBrushConfig (Some brush_2_5) (Z.of_nat (length sales6)) =
       inr (built_with brush_2_5 s e)).
Proof.
  apply (validated_config_builds brush_2_5 sales6). vm_compute. reflexivity.
Defined.

Lemma onBrushChange_selects_range_witness :
  Z.of_nat (length (filterDataByBrushRange sales6
                      (BrushConfig.startIndex (onBrushChange 9 (-2) (Z.of_nat (length sales6))))
                      (BrushConfig.endIndex (onBrushChange 9 (-2) (Z.of_nat (length sales6))))))
    = range (onBrushChange 9 (-2) (Z.of_nat (length sales6))) /\
  1 <= range (onBrushChange 9 (-2) (Z.of_nat (length sales6))).
Proof.
  apply (onBrushChange_selects_range sales6 9 (-2)). discriminate.
Defined.

Lemma full_range_selects_everything_witness :
  (exists r, resetBrush (Z.of_nat (length sales6)) = inr r /\
     filterDataByBrushRange sales6 (BrushConfig.startIndex r) (BrushConfig.endIndex r)
       = sales6) /\
  (exists st, createInitialBrushState (Z.of_nat (length sales6)) (Some false) = inr st /\
     filterDataByBrushRange sales6 (state_dataStartIndex st) (state_dataEndIndex st)
       = sales6).
Proof.
  apply (full_range_selects_everything sales6 (Some false)). discriminate.
Defined.

End BrushConfigRestFacts.

(* ===================================================================== *)
(** ** Extraction, validation and statistic lines of referenceConfig.ts *)
(* ===================================================================== *)

Module ReferenceConfigRestFacts.
Import JS ReferenceConfig ReferenceConfigRest.

Local Open Scope string_scope.

Section WithNumbers.
Context `{JSNumber}.

Lemma Forall_flat_map {A B} (P : B -> Prop) (f : A -> list B) (l : list A) :
  (forall x, Forall P (f x)) -> Forall P (flat_map f l).
Proof.
  intros Hf. induction l as [|x l IH]; cbn [flat_map]; [constructor|].
  apply Forall_app. split; [apply Hf | exact IH].
Qed.

Lemma flat_map_nil_all {A B} (f : A -> list B) (l : list A) :
  (forall x, x ∈ l -> f x = []) -> flat_map f l = [].
Proof.
  induction l as [|x l IH]; intros Hf; cbn [flat_map]; [reflexivity|].
  rewrite (Hf x) by apply list_elem_of_here.
  apply IH. intros y Hy. apply Hf. apply list_elem_of_further. exact Hy.
Qed.

Lemma length_flat_map_le {A B} (f : A -> list B) (l : list A) :
  (forall x, (length (f x) <= 1)%nat) -> (length (flat_map f l) <= length l)%nat.
Proof.
  intros Hf. induction l as [|x l IH]; cbn [flat_map length]; [lia|].
  rewrite length_app. specialize (Hf x). lia.
Qed.

(** X8. [extractNumericValues] never yields [NaN]; with a field name it
    yields at most one value per record; without one, a dataset whose
    properties are all strings yields nothing, numeric-looking or not. *)
Theorem extractNumericValues_numeric (data : list record) (dataKey : option string) :
  Forall (fun v => isNaN v = false) (extractNumericValues data dataKey) /\
  (truthy_key dataKey <> None ->
   (length (extractNumericValues data dataKey) <= length data)%nat) /\
  (truthy_key dataKey = None ->
   (forall item key, item ∈ data -> key ∈ Object_keys item ->
      is_string (get item key) = true) ->
   extractNumericValues data dataKey = []).
Proof.
  unfold extractNumericValues. split; [|split].
  - apply Forall_flat_map. intros item.
    destruct (truthy_key dataKey) as [key|].
    + cbv zeta.
      destruct (isNaN (number_or_parseFloat_String (get item key))) eqn:Hn;
        cbn [negb]; repeat constructor. exact Hn.
    + apply Forall_flat_map. intros key. cbv zeta.
      destruct (isNaN (number_or_parseFloat_String (get item key))) eqn:Hn;
        cbn [negb andb]; [constructor|].
      destruct (is_string (get item key)); cbn [negb]; repeat constructor. exact Hn.
  - intros Hkey. apply length_flat_map_le. intros item.
    destruct (truthy_key dataKey) as [key|]; [|congruence]. cbv zeta.
    destruct (negb _); cbn [length]; lia.
  - intros Hkey Hstr. rewrite Hkey.
    apply flat_map_nil_all. intros item Hitem.
    apply flat_map_nil_all. intros key Hk. cbv zeta.
    rewrite (Hstr item key Hitem Hk). cbn [negb]. rewrite andb_false_r. reflexivity.
Qed.

(** X9. [validateReferenceValue] accepts exactly the expressions that
    [parseReferenceValue] resolves, its normalized value is the resolved
    number, and it gives a reason exactly when it rejects. *)
Theorem validateReferenceValue_agrees (v : value) (data : list record)
    (dataKey : option string) :
  normalizedValue (validateReferenceValue v data dataKey)
    = parseReferenceValue v data dataKey /\
  (valid (validateReferenceValue v data dataKey) = true <->
   parseReferenceValue v data dataKey <> None) /\
  (valid (validateReferenceValue v data dataKey) = false <->
   error (validateReferenceValue v data dataKey) <> None).
Proof.
  unfold validateReferenceValue.
  destruct v as [| |b|n|s|r str];
    try (cbn [parseReferenceValue valid error normalizedValue];
         repeat split; try discriminate; try congruence; fail).
  destruct (parseReferenceValue (VString s) data dataKey) as [p|];
    cbn [valid error normalizedValue]; repeat split; try discriminate; congruence.
Qed.

Lemma valid_resolves (v : value) (data : list record) (dataKey : option string) :
  valid (validateReferenceValue v data dataKey) = true ->
  exists n, parseReferenceValue v data dataKey = Some n.
Proof.
  unfold validateReferenceValue.
  destruct v as [| |b|n|s|r str]; cbn [valid]; try discriminate.
  - intros _. exists n. reflexivity.
  - destruct (parseReferenceValue (VString s) data dataKey) as [p|];
      cbn [valid]; [|discriminate].
    intros _. exists p. reflexivity.
Qed.

Lemma resolved_round_trip (p : option num) data dataKey :
  parseReferenceValue (resolved p) data dataKey = p.
Proof. destruct p; reflexivity. Qed.

Lemma buildReferenceElements_map (elements : list (gmap string value)) data dataKey :
  buildReferenceElements (Some elements) data dataKey =
  map (fun element =>
         <["value" := resolved (parseReferenceValue (element_value element) data dataKey)]>
           element) elements.
Proof.
  unfold buildReferenceElements. destruct elements; reflexivity.
Qed.

(** X11. [buildReferenceElements] is idempotent: elements that have been
    built once are returned unchanged when they are built again, against
    any dataset. *)
Theorem buildReferenceElements_idempotent (elements : option (list (gmap string value)))
    (data data' : list record) (dataKey dataKey' : option string) :
  buildReferenceElements
    (Some (buildReferenceElements elements data dataKey)) data' dataKey' =
  buildReferenceElements elements data dataKey.
Proof.
  rewrite buildReferenceElements_map.
  destruct elements as [elements|]; [|reflexivity].
  rewrite buildReferenceElements_map, map_map. apply map_ext. intros element.
  unfold element_value at 1. rewrite lookup_insert_eq. cbn [default from_option id].
  rewrite resolved_round_trip. apply insert_insert_eq.
Qed.

Lemma concat_imap_nil {A B} (f : nat -> A -> list B) (l : list A) :
  concat (imap f l) = [] -> forall i x, l !! i = Some x -> f i x = [].
Proof.
  revert f. induction l as [|y l IH]; intros f Hnil i x Hi; [discriminate|].
  cbn [imap concat] in Hnil. apply app_eq_nil in Hnil as [Hy Hl].
  destruct i as [|i]; cbn in Hi.
  - injection Hi as <-. exact Hy.
  - exact (IH (f ∘ S) Hl i x Hi).
Qed.

(** X12. When [validateReferenceElements] finds no error, every element
    declares the type "line" or "area", and [buildReferenceElements], run on
    the same dataset and field, gives every element a number as its value:
    none is left undefined. *)
Theorem validated_elements_resolve (elements : list (gmap string value))
    (data : list record) (dataKey : option string) :
  fst (validateReferenceElements (Some elements) data dataKey) = true ->
  forall (i : nat) (element : gmap string value),
    elements !! i = Some element ->
    (field element "type" = VString "line" \/ field element "type" = VString "area") /\
    exists built n,
      buildReferenceElements (Some elements) data dataKey !! i = Some built /\
      built !! "value" = Some (VNumber n).
Proof.
  intros Hv i element Hi.
  assert (element_errors data dataKey i element = []) as Herr.
  { unfold validateReferenceElements in Hv.
    destruct elements as [|e es]; [discriminate|]. cbn [Nat.eqb length] in Hv.
    cbv zeta in Hv. cbn [fst] in Hv. apply Nat.eqb_eq in Hv.
    apply length_zero_iff_nil in Hv.
    exact (concat_imap_nil _ _ Hv i element Hi). }
  unfold element_errors in Herr.
  apply app_eq_nil in Herr as [Htype Herr]. apply app_eq_nil in Herr as [Hval _].
  split.
  - destruct (field element "type") as [| |b|n|s|r str];
      cbn [string_in negb] in Htype; try discriminate Htype.
    cbn [includes existsb] in Htype.
    destruct (String.eqb_spec s "line") as [Hs|_]; [left; congruence|].
    destruct (String.eqb_spec s "area") as [Hs|_]; [right; congruence|].
    discriminate Htype.
  - destruct (is_undefined (field element "value")) eqn:Hu; [discriminate|].
    cbv zeta in Hval.
    destruct (valid (validateReferenceValue (field element "value") data dataKey))
      eqn:Hok; [|discriminate].
    apply valid_resolves in Hok as [n Hp].
    unfold buildReferenceElements.
    destruct elements as [|e es]; [discriminate|]. cbn [Nat.eqb length].
    rewrite list_lookup_fmap, Hi. cbn [fmap option_fmap option_map].
    eexists _, n. split; [reflexivity|].
    rewrite lookup_insert_eq. unfold field in Hp. unfold element_value. rewrite Hp.
    reflexivity.
Qed.

Section Lines.
Variable toFixed2 : num -> string.

Lemma createReferenceLine_fields (v : value) (label : option string)
    (style : option ReferenceLineStyle) :
  field (createReferenceLine v label style) "type" = VString "line" /\
  field (createReferenceLine v label style) "value" = v /\
  field (createReferenceLine v label style) "label" = optional_string label /\
  field (createReferenceLine v label style) "fillOpacity" = VUndefined /\
  field (createReferenceLine v label style) "position" = VUndefined /\
  field (createReferenceLine v label style) "labelPosition" = VString "top".
Proof.
  unfold field, createReferenceLine. repeat split; simplify_map_eq; reflexivity.
Qed.

Lemma element_errors_createReferenceLine (v : value) (label : option string)
    (style : option ReferenceLineStyle) (data : list record)
    (dataKey : option string) (i : nat) :
  element_errors data dataKey i (createReferenceLine v label style) = [] <->
  valid (validateReferenceValue v data dataKey) = true.
Proof.
  destruct (createReferenceLine_fields v label style)
    as (Ht & Hv & _ & Hf & Hp & Hl).
  unfold element_errors. rewrite Ht, Hv, Hf, Hp, Hl.
  cbn [string_in includes existsb String.eqb Ascii.eqb Bool.eqb orb negb
       is_undefined truthy validLabelPositions app].
  destruct v as [| |b|n|s|r str]; cbn [is_undefined];
    try (cbn [validateReferenceValue valid negb app]; split; discriminate);
    try (cbn [validateReferenceValue valid negb app]; split; reflexivity).
  destruct (valid (validateReferenceValue (VString s) data dataKey));
    cbn [negb app]; split; intros Hx; first [reflexivity | discriminate Hx].
Qed.

(** X13. A line made by [createReferenceLine] can have one defect only,
    its value: [validateReferenceElements] accepts the line exactly when
    [validateReferenceValue] accepts the value. *)
Theorem createReferenceLine_errors (v : value) (label : option string)
    (style : option ReferenceLineStyle) (data : list record)
    (dataKey : option string) :
  fst (validateReferenceElements (Some [createReferenceLine v label style]) data dataKey)
    = true <->
  valid (validateReferenceValue v data dataKey) = true.
Proof.
  unfold validateReferenceElements. cbn [length Nat.eqb imap concat fst].
  rewrite app_nil_r, Nat.eqb_eq, length_zero_iff_nil.
  apply element_errors_createReferenceLine.
Qed.

(** X10. A statistic line and the keyword of the same name agree: against
    the same dataset and field, the keyword resolves to the value that
    [createStatisticLines] gives the line of that statistic, and to nothing
    when the field has no numeric value, in which case no line is made
    either. *)
Theorem keyword_matches_statistic_line (data : list record) (dataKey : string)
    (stat : Stat) (style : option ReferenceLineStyle) :
  let numericValues := extractNumericValues data (Some dataKey) in
  parseReferenceValue (VString (Stat_name stat)) data (Some dataKey) =
    (if Nat.eqb (length numericValues) 0 then None
     else Some (fst (statistic toFixed2 numericValues stat))) /\
  map (fun line => field line "value")
      (createStatisticLines toFixed2 data dataKey (Some [stat]) style) =
    match parseReferenceValue (VString (Stat_name stat)) data (Some dataKey) with
    | Some n => [VNumber n]
    | None => []
    end.
Proof.
  cbv zeta.
  assert (parseReferenceValue (VString (Stat_name stat)) data (Some dataKey) =
          if Nat.eqb (length (extractNumericValues data (Some dataKey))) 0 then None
          else Some (fst (statistic toFixed2 (extractNumericValues data (Some dataKey)) stat)))
    as Hkw.
  { destruct stat; unfold parseReferenceValue; cbn [Stat_name];
      destruct (Nat.eqb (length (extractNumericValues data (Some dataKey))) 0);
      reflexivity. }
  split; [exact Hkw|]. rewrite Hkw. unfold createStatisticLines.
  destruct (Nat.eqb (length (extractNumericValues data (Some dataKey))) 0);
    [reflexivity|].
  cbn [default from_option id map].
  destruct (statistic toFixed2 _ stat) as [value label]. cbn [fst].
  rewrite (proj1 (proj2 (createReferenceLine_fields (VNumber value) (Some label) style))).
  reflexivity.
Qed.

(** X14. [createStatisticLines] returns no line when the field has no
    numeric value; otherwise it returns one line per requested statistic, in
    the order requested (the average alone when none is requested), each
    carrying the statistic as its value, and [validateReferenceElements]
    accepts the result against any dataset. *)
Theorem createStatisticLines_lines (data : list record) (dataKey : string)
    (includeStats : option (list Stat)) (style : option ReferenceLineStyle)
    (data' : list record) (dataKey' : option string) :
  let lines := createStatisticLines toFixed2 data dataKey includeStats style in
  let numericValues := extractNumericValues data (Some dataKey) in
  (numericValues = [] -> lines = []) /\
  (numericValues <> [] ->
   map (fun line => field line "value") lines =
   map (fun stat => VNumber (fst (statistic toFixed2 numericValues stat)))
       (default [StatAverage] includeStats)) /\
  validateReferenceElements (Some lines) data' dataKey' = (true, []).
Proof.
  cbv zeta. unfold createStatisticLines.
  destruct (extractNumericValues data (Some dataKey)) as [|x xs] eqn:Hx;
    cbn [length Nat.eqb].
  - split; [reflexivity|]. split; [|reflexivity].
    intros Hc. exfalso. apply Hc. reflexivity.
  - set (nv := x :: xs). split; [discriminate|]. split.
    + intros _. rewrite map_map. apply map_ext. intros stat.
      destruct (statistic toFixed2 nv stat) as [value label]. cbn [fst].
      apply createReferenceLine_fields.
    + unfold validateReferenceElements.
      destruct (Nat.eqb _ 0); [reflexivity|]. cbv zeta.
      assert (forall (l : list Stat) (k : nat),
                concat (imap (fun j => element_errors data' dataKey' (k + j))
                  (map (fun stat => let '(value, label) := statistic toFixed2 nv stat in
                          createReferenceLine (VNumber value) (Some label) style) l)) = [])
        as Hall.
      { induction l as [|stat l IH]; intros k; [reflexivity|].
        cbn [map imap concat].
        destruct (statistic toFixed2 nv stat) as [value label].
        rewrite (proj2 (element_errors_createReferenceLine (VNumber value) (Some label)
                          style data' dataKey' (k + 0))) by reflexivity.
        cbn [app]. rewrite <- (IH (S k)). f_equal. apply imap_ext.
        intros j e _. cbn. f_equal. lia. }
      specialize (Hall (default [StatAverage] includeStats) 0%nat).
      cbn [Nat.add] in Hall.
      replace (concat _) with (@nil ElementError) by (symmetry; exact Hall).
      reflexivity.
Qed.

End Lines.
End WithNumbers.

Import ExactNumbers Examples MoreExamples.

Lemma validated_elements_resolve_witness :
  (field average_line "type" = VString "line" \/
   field average_line "type" = VString "area") /\
  exists built n,
    buildReferenceElements (Some [average_line]) sales6 (Some "sales") !! 0%nat
      = Some built /\
    built !! "value" = Some (VNumber n).
Proof.
  apply (validated_elements_resolve [average_line] sales6 (Some "sales"));
    [vm_compute; reflexivity | reflexivity].
Defined.

End ReferenceConfigRestFacts.

(* ===================================================================== *)
(** ** The statistics behind the reference keywords *)
(* ===================================================================== *)

Module ReferenceStatisticsFacts.
Import JS ReferenceConfig.

Section WithNumbers.
Context `{JSNumber}.

Lemma sort_insert_Permutation (x : num) (sorted : list num) :
  sort_insert x sorted ≡ₚ x :: sorted.
Proof.
  induction sorted as [|y rest IH]; cbn [sort_insert]; [reflexivity|].
  destruct (num_ltb (num_of_Z 0) (num_sub y x)); [reflexivity|].
  rewrite IH. apply Permutation_swap.
Qed.

Lemma sort_ascending_Permutation (values : list num) :
  sort_ascending values ≡ₚ values.
Proof.
  unfold sort_ascending.
  assert (forall acc, fold_left (fun acc x => sort_insert x acc) values acc
                        ≡ₚ values ++ acc) as Hgen.
  { induction values as [|x values IH]; intros acc; cbn [fold_left]; [reflexivity|].
    rewrite IH, sort_insert_Permutation.
    cbn [app]. symmetry. apply Permutation_middle. }
  rewrite Hgen. rewrite app_nil_r. reflexivity.
Qed.

(** X29. [calculateMedian] answers with the values it is given, whatever
    order the comparator puts them in: nothing gives 0, an odd number of
    values gives one of the values, and an even number gives the half-sum of
    two of them taken at different positions.  The position read is always
    inside the sorted copy. *)
Theorem calculateMedian_of_values (values : list num) :
  (values = [] -> calculateMedian values = num_of_Z 0) /\
  (Nat.odd (length values) = true -> calculateMedian values ∈ values) /\
  (values <> [] -> Nat.even (length values) = true ->
   exists a b, [a; b] ⊆+ values /\
     calculateMedian values = num_div (num_add a b) (num_of_Z 2)).
Proof.
  pose proof (sort_ascending_Permutation values) as Hperm.
  pose proof (Permutation_length Hperm) as Hlen.
  split; [intros ->; reflexivity|]. split.
  - intros Hodd. unfold calculateMedian.
    destruct values as [|v values']; [discriminate Hodd|].
    cbn [Nat.eqb length]. set (values := v :: values') in *.
    cbv zeta. rewrite Hlen.
    assert (Nat.modulo (length values) 2 = 1%nat) as Hmod.
    { rewrite <- Nat.negb_even in Hodd. apply negb_true_iff in Hodd.
      pose proof (Nat.mod_upper_bound (length values) 2 ltac:(lia)).
      destruct (Nat.modulo (length values) 2) as [|[|k]] eqn:Hm; [|reflexivity|lia].
      apply Nat.Div0.mod_divides in Hm as [k Hk]. rewrite Hk in Hodd.
      rewrite Nat.even_mul in Hodd. discriminate Hodd. }
    rewrite Hmod. cbn [Nat.eqb].
    assert (Nat.div (length values) 2 < length (sort_ascending values))%nat as Hmid.
    { rewrite Hlen. apply Nat.Div0.div_lt_upper_bound.
      subst values. cbn [length]. lia. }
    apply lookup_lt_is_Some in Hmid as [x Hx].
    rewrite (nth_lookup_Some _ _ _ _ Hx).
    rewrite <- Hperm. apply (list_elem_of_lookup_2 _ _ _ Hx).
  - intros Hne Heven. unfold calculateMedian.
    destruct values as [|v values']; [contradiction|].
    cbn [Nat.eqb length]. set (values := v :: values') in *.
    cbv zeta. rewrite Hlen.
    apply Nat.even_spec in Heven as [k Hk].
    assert (1 <= k)%nat as Hk1 by (subst values; cbn [length] in Hk; lia).
    assert (Nat.modulo (length values) 2 = 0%nat) as Hmod.
    { rewrite Hk. rewrite Nat.mul_comm. apply Nat.Div0.mod_mul. }
    assert (Nat.div (length values) 2 = k) as Hdiv.
    { rewrite Hk. rewrite Nat.mul_comm. apply Nat.div_mul. lia. }
    rewrite Hmod, Hdiv. cbn [Nat.eqb].
    assert (k - 1 < length (sort_ascending values))%nat as Hlo by lia.
    assert (k < length (sort_ascending values))%nat as Hhi by lia.
    apply lookup_lt_is_Some in Hlo as [a Ha].
    apply lookup_lt_is_Some in Hhi as [b Hb].
    rewrite (nth_lookup_Some _ _ _ _ Ha), (nth_lookup_Some _ _ _ _ Hb).
    exists a, b. split; [|reflexivity].
    rewrite <- Hperm. apply sublist_submseteq.
    rewrite <- (take_drop_middle _ _ _ Ha).
    replace (S (k - 1)) with k by lia.
    rewrite (drop_S _ _ _ Hb).
    apply sublist_inserts_l. apply sublist_skip. apply sublist_skip.
    apply sublist_nil_l.
Qed.

End WithNumbers.
End ReferenceStatisticsFacts.

(* ===================================================================== *)
(** ** Tooltips, listeners and lookups of syncConfig.ts *)
(* ===================================================================== *)

Module SyncConfigRestFacts.
Import JS SyncConfig SyncConfigRest.

Local Open Scope string_scope.
Local Open Scope Z_scope.

Section WithNumbers.
Context `{JSNumber}.

(** X15. The brush channel of one sync group does not touch the others:
    [handleSyncedBrush] and [clearSyncedBrush] on a group leave every
    tooltip, every listener registration and the brush of every other group
    as they were; the callbacks they invoke are those of that group; and
    after [clearSyncedBrush], which notifies even when no brush was stored,
    the group has no brush. *)
Theorem brush_channel_frame (w : World) (syncId : string)
    (brushData : PartialBrushState) :
  (let w' := snd (handleSyncedBrush w syncId brushData) in
   tooltips (sync w') = tooltips (sync w) /\
   listeners (sync w') = listeners (sync w) /\
   (forall other, other <> syncId ->
      brushes (sync w') !! other = brushes (sync w) !! other) /\
   (invoked w' = invoked w \/
    invoked w' = (invoked w ++ default [] (listeners (sync w) !! syncId))%list)) /\
  (let w' := clearSyncedBrush w syncId in
   tooltips (sync w') = tooltips (sync w) /\
   listeners (sync w') = listeners (sync w) /\
   (forall other, other <> syncId ->
      brushes (sync w') !! other = brushes (sync w) !! other) /\
   getActiveSyncedBrush (sync w') syncId = None /\
   invoked w' = (invoked w ++ default [] (listeners (sync w) !! syncId))%list).
Proof.
  cbv zeta. split.
  - rewrite SyncConfigFacts.handleSyncedBrush_cases.
    destruct (partial_dataStartIndex brushData) as [s|];
      [destruct (partial_dataEndIndex brushData) as [e|]|];
      cbn [snd notifyListeners sync tooltips listeners brushes invoked];
      repeat split; auto.
    intros other Hne. apply lookup_insert_ne. congruence.
  - unfold clearSyncedBrush, getActiveSyncedBrush.
    cbn [notifyListeners sync tooltips listeners brushes invoked].
    repeat split.
    + intros other Hne. apply lookup_delete_ne. congruence.
    + apply lookup_delete_eq.
Qed.

(** X16. [handleSyncedTooltip] stores, under the group's key, the previous
    tooltip of the group (an inactive one when there was none) overridden by
    the properties supplied, with the key as its [syncId] whatever the
    partial state says; it leaves every other tooltip, every brush and every
    registration as they were and invokes the callbacks of the group. *)
Theorem handleSyncedTooltip_merges (w : World) (syncId : string)
    (tooltipData : PartialTooltipState) :
  let w' := handleSyncedTooltip w syncId tooltipData in
  let previous := tooltips (sync w) !! syncId in
  (exists stored,
     tooltips (sync w') !! syncId = Some stored /\
     tooltip_syncId stored = syncId /\
     tooltip_active stored =
       default (default false (tooltip_active <$> previous)) (partial_active tooltipData) /\
     (partial_index tooltipData = None ->
      tooltip_index stored = previous ≫= tooltip_index) /\
     (partial_value tooltipData = None ->
      tooltip_value stored = previous ≫= tooltip_value) /\
     (partial_data tooltipData = None ->
      tooltip_data stored = previous ≫= tooltip_data) /\
     (forall i, partial_index tooltipData = Some i -> tooltip_index stored = Some i) /\
     (forall v, partial_value tooltipData = Some v -> tooltip_value stored = Some v) /\
     (forall d, partial_data tooltipData = Some d -> tooltip_data stored = Some d)) /\
  (forall other, other <> syncId ->
     tooltips (sync w') !! other = tooltips (sync w) !! other) /\
  brushes (sync w') = brushes (sync w) /\
  listeners (sync w') = listeners (sync w) /\
  invoked w' = (invoked w ++ default [] (listeners (sync w) !! syncId))%list.
Proof.
  cbv zeta. unfold handleSyncedTooltip.
  cbn [notifyListeners sync tooltips listeners brushes invoked].
  split; [|repeat split; intros; apply lookup_insert_ne; congruence].
  eexists. split; [apply lookup_insert_eq|].
  unfold merge_tooltip.
  cbn [tooltip_syncId tooltip_active tooltip_index tooltip_value tooltip_data].
  destruct (tooltips (sync w) !! syncId) as [t|];
    cbn [default from_option id fmap option_fmap option_map mbind option_bind
         tooltip_active tooltip_index tooltip_value tooltip_data];
    repeat split; intros; repeat match goal with
      | Hx : _ = _ |- _ => rewrite Hx
      end; reflexivity.
Qed.

(** X17. Two calls compose: after a tooltip has been activated at an index
    and a later call supplies only a value, [getActiveSyncedTooltip] gives
    the tooltip of the group with that index, that value and the active
    flag still set. *)
Theorem tooltip_updates_accumulate (w : World) (syncId : string) (i : Z) (v : value) :
  let w1 := handleSyncedTooltip w syncId
              (mkPartialTooltipState None (Some true) (Some i) None None) in
  let w2 := handleSyncedTooltip w1 syncId
              (mkPartialTooltipState None None None (Some v) None) in
  exists tooltip,
    getActiveSyncedTooltip (sync w2) syncId = Some tooltip /\
    tooltip_syncId tooltip = syncId /\
    tooltip_active tooltip = true /\
    tooltip_index tooltip = Some i /\
    tooltip_value tooltip = Some v /\
    tooltip_data tooltip = (tooltips (sync w) !! syncId) ≫= tooltip_data.
Proof.
  cbv zeta. unfold getActiveSyncedTooltip, handleSyncedTooltip.
  cbn [notifyListeners sync tooltips listeners brushes invoked].
  rewrite !lookup_insert_eq. cbn [default from_option id].
  unfold merge_tooltip.
  cbn [tooltip_syncId tooltip_active tooltip_index tooltip_value tooltip_data
       partial_active partial_index partial_value partial_data
       default from_option id].
  eexists. split; [reflexivity|].
  cbn [tooltip_syncId tooltip_active tooltip_index tooltip_value tooltip_data].
  repeat split.
  destruct (tooltips (sync w) !! syncId); reflexivity.
Qed.

(** X18. After [clearSyncedTooltip] the group has no active tooltip.  A
    stored tooltip keeps its index, value and data and the callbacks of the
    group are invoked; when the group had no tooltip, nothing is stored and
    nobody is notified. *)
Theorem clearSyncedTooltip_deactivates (w : World) (syncId : string) :
  let w' := clearSyncedTooltip w syncId in
  getActiveSyncedTooltip (sync w') syncId = None /\
  (forall t, tooltips (sync w) !! syncId = Some t ->
     tooltips (sync w') !! syncId =
       Some (mkSyncedTooltipState (tooltip_syncId t) false (tooltip_index t)
               (tooltip_value t) (tooltip_data t)) /\
     invoked w' = (invoked w ++ default [] (listeners (sync w) !! syncId))%list) /\
  (tooltips (sync w) !! syncId = None -> w' = w) /\
  (forall other, other <> syncId ->
     tooltips (sync w') !! other = tooltips (sync w) !! other) /\
  brushes (sync w') = brushes (sync w) /\
  listeners (sync w') = listeners (sync w).
Proof.
  cbv zeta. unfold clearSyncedTooltip, getActiveSyncedTooltip.
  destruct (tooltips (sync w) !! syncId) as [t|] eqn:Ht;
    cbn [notifyListeners sync tooltips listeners brushes invoked].
  - rewrite lookup_insert_eq. cbn [tooltip_active].
    split; [reflexivity|]. split.
    { intros t' Ht'. injection Ht' as <-. split; reflexivity. }
    split; [discriminate|]. split; [|split; reflexivity].
    intros other Hne. apply lookup_insert_ne. congruence.
  - rewrite Ht. split; [reflexivity|]. split; [discriminate|].
    split; [reflexivity|]. split; [reflexivity|]. split; reflexivity.
Qed.

Lemma existsb_Nat_eqb (l : Listener) (current : list Listener) :
  existsb (Nat.eqb l) current = true <-> l ∈ current.
Proof.
  rewrite existsb_exists. split.
  - intros (x & Hin & Heq). apply Nat.eqb_eq in Heq. subst x.
    apply list_elem_of_In. exact Hin.
  - intros Hin. exists l. split; [apply list_elem_of_In; exact Hin|].
    apply Nat.eqb_refl.
Qed.

(** X19. Listener registrations behave as a set per group: registering a
    callback makes it a member once, registering it again changes nothing,
    and after [unregisterSyncListener] it is no longer a member, so that a
    later notification does not invoke it; registrations of other groups,
    tooltips and brushes are not affected. *)
Theorem listener_registration (state : GlobalSyncState) (syncId : string)
    (listener : Listener) :
  let registered := registerSyncListener state syncId listener in
  let members st := default [] (listeners st !! syncId) in
  listener ∈ members registered /\
  (NoDup (members state) -> NoDup (members registered)) /\
  registerSyncListener registered syncId listener = registered /\
  (listener ∉ members (unregisterSyncListener registered syncId listener)) /\
  (forall l, l <> listener ->
     (l ∈ members (unregisterSyncListener registered syncId listener) <->
      l ∈ members state)) /\
  (forall other, other <> syncId ->
     listeners registered !! other = listeners state !! other /\
     listeners (unregisterSyncListener registered syncId listener) !! other
       = listeners state !! other) /\
  tooltips (unregisterSyncListener registered syncId listener) = tooltips state /\
  brushes (unregisterSyncListener registered syncId listener) = brushes state.
Proof.
  cbv zeta. unfold unregisterSyncListener, registerSyncListener.
  cbn [listeners tooltips brushes]. rewrite !lookup_insert_eq.
  cbn [listeners tooltips brushes default from_option id].
  rewrite !lookup_insert_eq. cbn [default from_option id].
  set (current := default [] (listeners state !! syncId)).
  destruct (existsb (Nat.eqb listener) current) eqn:Hex.
  - pose proof (proj1 (existsb_Nat_eqb _ _) Hex) as Hin.
    rewrite Hex. repeat split; auto.
    + rewrite insert_insert_eq. reflexivity.
    + intros Hc. apply list_elem_of_filter in Hc as [Hc _]. contradiction.
    + intros Hc. apply list_elem_of_filter in Hc as [_ Hc]. exact Hc.
    + intros Hl. apply list_elem_of_filter. split; assumption.
    + apply lookup_insert_ne. congruence.
    + rewrite !lookup_insert_ne by congruence. reflexivity.
  - assert (listener ∉ current) as Hnin.
    { intros Hin. apply existsb_Nat_eqb in Hin. congruence. }
    assert (existsb (Nat.eqb listener) (current ++ [listener]) = true) as ->.
    { apply existsb_Nat_eqb. apply elem_of_app. right. apply list_elem_of_here. }
    repeat split; auto.
    + apply elem_of_app. right. apply list_elem_of_here.
    + intros Hnd. apply NoDup_app. repeat split; [exact Hnd | | apply NoDup_singleton].
      intros x Hx Hx'. apply list_elem_of_singleton in Hx'. subst x. contradiction.
    + rewrite insert_insert_eq. reflexivity.
    + intros Hc. apply list_elem_of_filter in Hc as [Hc _]. contradiction.
    + intros Hc. apply list_elem_of_filter in Hc as [_ Hc].
      apply elem_of_app in Hc as [Hc|Hc]; [exact Hc|].
      apply list_elem_of_singleton in Hc. contradiction.
    + intros Hl. apply list_elem_of_filter. split; [assumption|].
      apply elem_of_app. left. exact Hl.
    + apply lookup_insert_ne. congruence.
    + rewrite !lookup_insert_ne by congruence. reflexivity.
Qed.

Lemma findIndex_first {A} (pred : A -> bool) (data : list A) :
  (0 <= findIndex pred data ->
   exists item, data !! Z.to_nat (findIndex pred data) = Some item /\
     pred item = true /\
     forall (k : nat) x, (k < Z.to_nat (findIndex pred data))%nat ->
       data !! k = Some x -> pred x = false) /\
  (findIndex pred data < 0 -> forall x, x ∈ data -> pred x = false).
Proof.
  induction data as [|y data IH]; cbn [findIndex].
  - split; [lia|]. intros _ x Hx. apply elem_of_nil in Hx. contradiction.
  - destruct (pred y) eqn:Hy.
    + split; [|lia]. intros _. exists y. repeat split; [exact Hy|].
      intros k x Hk. change (Z.to_nat 0) with 0%nat in Hk. lia.
    + destruct (SyncConfigFacts.findIndex_range pred data) as [Hm|Hr].
      * rewrite Hm in *. cbn. split; [lia|]. intros _ x Hx.
        apply elem_of_cons in Hx as [->|Hx]; [exact Hy|].
        apply (proj2 IH); [lia | exact Hx].
      * destruct (findIndex pred data <? 0) eqn:Hneg;
          [apply Z.ltb_lt in Hneg; lia|].
        split; [|lia]. intros _.
        destruct (proj1 IH ltac:(lia)) as (item & Hitem & Hp & Hbefore).
        replace (Z.to_nat (findIndex pred data + 1))
          with (S (Z.to_nat (findIndex pred data))) by lia.
        exists item. repeat split; [exact Hitem | exact Hp |].
        intros k x Hk Hx. destruct k as [|k]; cbn in Hx.
        -- injection Hx as <-. exact Hy.
        -- apply (Hbefore k x); [lia | exact Hx].
Qed.

(** X20. When [findIndexByValue] answers a non-negative index, that index
    is the position of the first record whose field is strictly equal to the
    value; it answers a non-negative index exactly when some record has such
    a field. *)
Theorem findIndexByValue_first_match (data : list record) (dataKey : string)
    (syncValue : value) :
  exists j, findIndexByValue data dataKey syncValue = Some j /\
    (0 <= j ->
     exists item, data !! Z.to_nat j = Some item /\
       strict_eq (get item dataKey) syncValue = true /\
       forall (k : nat) earlier, (k < Z.to_nat j)%nat -> data !! k = Some earlier ->
         strict_eq (get earlier dataKey) syncValue = false) /\
    (0 <= j <->
     exists item, item ∈ data /\ strict_eq (get item dataKey) syncValue = true).
Proof.
  unfold findIndexByValue. eexists. split; [reflexivity|].
  set (pred := fun item : record => strict_eq (get item dataKey) syncValue).
  destruct (findIndex_first pred data) as [Hpos Hneg].
  split; [exact Hpos|]. split.
  - intros Hj. destruct (Hpos Hj) as (item & Hitem & Hp & _).
    exists item. split; [|exact Hp].
    apply list_elem_of_lookup. eexists. exact Hitem.
  - intros (item & Hin & Hp).
    destruct (Z_lt_le_dec (findIndex pred data) 0) as [Hlt|Hge]; [|exact Hge].
    specialize (Hneg Hlt item Hin). unfold pred in Hneg. congruence.
Qed.

Lemma findIndexByValue_of_findValueByIndex (data : list record) (dataKey : string)
    (index : Z) (s : string) :
  findValueByIndex data dataKey index = VString s ->
  exists j,
    findIndexByValue data dataKey (VString s) = Some j /\
    0 <= j <= index /\
    findValueByIndex data dataKey j = VString s /\
    (forall k, 0 <= k < j -> findValueByIndex data dataKey k <> VString s).
Proof.
  intros Hv. unfold findIndexByValue.
  set (pred := fun item : record => strict_eq (get item dataKey) (VString s)).
  destruct (findIndex_first pred data) as [Hfirst Hnone].
  set (j := findIndex pred data) in *.
  exists j. split; [reflexivity|].
  assert (0 <= index < Z.of_nat (length data) /\
          exists item, data !! Z.to_nat index = Some item /\ get item dataKey = VString s)
    as ([Hi0 Hi1] & item & Hitem & Hget).
  { unfold findValueByIndex in Hv.
    destruct (0 <=? index) eqn:H0; [|discriminate].
    destruct (index <? Z.of_nat (length data)) eqn:H1; [|discriminate].
    apply Z.leb_le in H0. apply Z.ltb_lt in H1. cbn [andb] in Hv.
    destruct (data !! Z.to_nat index) as [item|]; [|discriminate].
    split; [lia|]. exists item. split; [reflexivity | exact Hv]. }
  assert (0 <= j) as Hj0.
  { destruct (Z_lt_le_dec j 0) as [Hlt|Hge]; [|exact Hge].
    assert (pred item = false) as Hp.
    { apply (Hnone Hlt). apply list_elem_of_lookup. eexists. exact Hitem. }
    unfold pred in Hp. rewrite Hget in Hp. cbn [strict_eq] in Hp.
    rewrite String.eqb_refl in Hp. discriminate Hp. }
  destruct (Hfirst Hj0) as (first & Hfirst_at & Hfirst_eq & Hbefore).
  assert (get first dataKey = VString s) as Hfirst_get.
  { unfold pred in Hfirst_eq.
    destruct (get first dataKey); cbn [strict_eq] in Hfirst_eq; try discriminate.
    apply String.eqb_eq in Hfirst_eq. congruence. }
  assert (j <= index) as Hle.
  { destruct (Z_le_gt_dec j index) as [Hle|Hgt]; [exact Hle|].
    specialize (Hbefore (Z.to_nat index) item ltac:(lia) Hitem).
    unfold pred in Hbefore. rewrite Hget in Hbefore. cbn [strict_eq] in Hbefore.
    rewrite String.eqb_refl in Hbefore. discriminate. }
  split; [lia|]. split.
  { unfold findValueByIndex.
    replace (0 <=? j) with true by (symmetry; apply Z.leb_le; lia).
    replace (j <? Z.of_nat (length data)) with true by (symmetry; apply Z.ltb_lt; lia).
    cbn [andb]. rewrite Hfirst_at. exact Hfirst_get. }
  intros k Hk Hkv. unfold findValueByIndex in Hkv.
  replace (0 <=? k) with true in Hkv by (symmetry; apply Z.leb_le; lia).
  replace (k <? Z.of_nat (length data)) with true in Hkv
    by (symmetry; apply Z.ltb_lt; lia).
  cbn [andb] in Hkv.
  destruct (data !! Z.to_nat k) as [earlier|] eqn:Hearlier; [|discriminate Hkv].
  specialize (Hbefore (Z.to_nat k) earlier ltac:(lia) Hearlier).
  unfold pred in Hbefore. rewrite Hkv in Hbefore. cbn [strict_eq] in Hbefore.
  rewrite String.eqb_refl in Hbefore. discriminate Hbefore.
Qed.

(** X21. Index to value and back: when the record at an index within the
    data carries a string in the field, the value policy of
    [transformTooltipIndex], run from a dataset to itself, answers the first
    index whose record carries that string: the answer carries the string,
    no index before it does, and it is not after the index it started
    from, which it equals when no earlier record carries the string. *)
Theorem value_policy_round_trip (data : list record) (dataKey : string)
    (index : Z) (s : string) :
  findValueByIndex data dataKey index = VString s ->
  exists j,
    transformTooltipIndex data data index dataKey dataKey ByValue = Some j /\
    0 <= j <= index /\
    findValueByIndex data dataKey j = VString s /\
    (forall k, 0 <= k < j -> findValueByIndex data dataKey k <> VString s) /\
    ((forall k, 0 <= k < index -> findValueByIndex data dataKey k <> VString s) ->
     j = index).
Proof.
  intros Hv. unfold transformTooltipIndex. rewrite Hv. cbn [is_undefined negb].
  destruct (findIndexByValue_of_findValueByIndex _ _ _ _ Hv)
    as (j & Hj & Hrange & Hback & Hmin).
  exists j. split; [exact Hj|]. split; [exact Hrange|]. split; [exact Hback|].
  split; [exact Hmin|].
  intros Hearlier. destruct (Z.eq_dec j index) as [Heq|Hne]; [exact Heq|].
  exfalso. apply (Hearlier j); [lia | exact Hback].
Qed.

(** X30. The value policy of [transformBrushRange], run from a dataset to
    itself on a range whose two ends carry strings in the field, answers the
    range whose ends are the first indices carrying those strings: each end
    of the answer carries the label of the end it comes from, no index
    before it does, and it is not after that end; the range is returned
    unchanged when no earlier record repeats either label. *)
Theorem value_policy_brush_round_trip (data : list record) (dataKey : string)
    (sourceStart sourceEnd : Z) (a b : string) :
  findValueByIndex data dataKey sourceStart = VString a ->
  findValueByIndex data dataKey sourceEnd = VString b ->
  exists r,
    transformBrushRange data data sourceStart sourceEnd dataKey dataKey ByValue
      = Some r /\
    0 <= range_start r <= sourceStart /\
    0 <= range_end r <= sourceEnd /\
    findValueByIndex data dataKey (range_start r) = VString a /\
    findValueByIndex data dataKey (range_end r) = VString b /\
    (forall k, 0 <= k < range_start r -> findValueByIndex data dataKey k <> VString a) /\
    (forall k, 0 <= k < range_end r -> findValueByIndex data dataKey k <> VString b) /\
    ((forall k, 0 <= k < sourceStart -> findValueByIndex data dataKey k <> VString a) ->
     (forall k, 0 <= k < sourceEnd -> findValueByIndex data dataKey k <> VString b) ->
     r = {| range_start := sourceStart; range_end := sourceEnd |}).
Proof.
  intros Ha Hb.
  destruct (findIndexByValue_of_findValueByIndex _ _ _ _ Ha)
    as (js & Hjs & Hs_range & Hs_back & Hs_min).
  destruct (findIndexByValue_of_findValueByIndex _ _ _ _ Hb)
    as (je & Hje & He_range & He_back & He_min).
  unfold transformBrushRange. rewrite Ha, Hb. cbn [is_undefined negb andb].
  cbv zeta. rewrite Hjs, Hje.
  eexists. split; [reflexivity|]. cbn [range_start range_end].
  split; [exact Hs_range|]. split; [exact He_range|].
  split; [exact Hs_back|]. split; [exact He_back|].
  split; [exact Hs_min|]. split; [exact He_min|].
  intros Hsa Hsb.
  assert (js = sourceStart) as ->.
  { destruct (Z.eq_dec js sourceStart) as [Heq|Hne]; [exact Heq|].
    exfalso. apply (Hsa js); [lia | exact Hs_back]. }
  assert (je = sourceEnd) as ->.
  { destruct (Z.eq_dec je sourceEnd) as [Heq|Hne]; [exact Heq|].
    exfalso. apply (Hsb je); [lia | exact He_back]. }
  reflexivity.
Qed.

End WithNumbers.

Section SyncIds.
Variable trim : string -> string.
Hypothesis trim_empty : trim "" = "".

(** X22. [buildSyncConfig] throws for the identifier exactly when
    [isValidSyncId] rejects it, and for the method exactly when the
    identifier is accepted and the method (the index method when none is
    passed) is neither "index" nor "value"; otherwise it returns the
    configuration it was given, the channels enabled unless disabled.
    [extractSyncConfig] gives no configuration exactly when the identifier
    is missing or rejected; for an accepted identifier it throws when a
    non-empty method other than the two is declared, and otherwise gives
    the configuration with that identifier, the declared method (the index
    method when none or the empty string is declared) and both channels
    enabled. *)
Theorem syncConfig_validation (syncId : option string) (syncMethod : option string) :
  (forall s method tooltip brush,
     (buildSyncConfig trim s method tooltip brush = inl SyncIdRequired <->
      isValidSyncId trim (Some s) = false) /\
     (buildSyncConfig trim s method tooltip brush = inl SyncMethodInvalid <->
      isValidSyncId trim (Some s) = true /\
      default "index" method <> "index" /\ default "index" method <> "value") /\
     (isValidSyncId trim (Some s) = true ->
      default "index" method = "index" \/ default "index" method = "value" ->
      buildSyncConfig trim s method tooltip brush =
        inr (mkSyncConfig s (default "index" method) (default true tooltip)
               (default true brush)))) /\
  (extractSyncConfig trim syncId syncMethod = None <->
   isValidSyncId trim syncId = false) /\
  (forall s, syncId = Some s -> isValidSyncId trim syncId = true ->
     extractSyncConfig trim syncId syncMethod =
       Some (if includes ["index"; "value"] (method_or_index syncMethod)
             then inr (mkSyncConfig s (method_or_index syncMethod) true true)
             else inl SyncMethodInvalid)).
Proof.
  assert (forall s, isValidSyncId trim (Some s) =
                    negb (String.eqb s "" || Nat.eqb (String.length (trim s)) 0))
    as Hid.
  { intros s. cbn [isValidSyncId].
    destruct (String.eqb_spec s "") as [->|_]; cbn [orb negb].
    - rewrite trim_empty. reflexivity.
    - destruct (String.length (trim s)); reflexivity. }
  assert (forall m, includes ["index"; "value"] m = true <-> m = "index" \/ m = "value")
    as Hmethod.
  { intros m. cbn [includes existsb]. rewrite orb_false_r, orb_true_iff, !String.eqb_eq.
    reflexivity. }
  split; [|split].
  - intros s method tooltip brush. unfold buildSyncConfig. cbv zeta.
    rewrite Hid. set (m := default "index" method).
    destruct (String.eqb s "" || Nat.eqb (String.length (trim s)) 0); cbn [negb].
    + split; [split; reflexivity|]. split; [|discriminate].
      split; [discriminate | intros [? _]; discriminate].
    + destruct (includes ["index"; "value"] m) eqn:Hm; cbn [negb].
      * apply Hmethod in Hm. split; [split; discriminate|]. split; [|reflexivity].
        split; [discriminate|]. intros (_ & H1 & H2). destruct Hm; contradiction.
      * split; [split; discriminate|]. split.
        -- split; [|reflexivity]. intros _. split; [reflexivity|].
           split; intros Heq; rewrite Heq in Hm; discriminate Hm.
        -- intros _ Hor. apply Hmethod in Hor. congruence.
  - unfold extractSyncConfig.
    destruct (isValidSyncId trim syncId); cbn [negb]; split;
      first [reflexivity | discriminate].
  - intros s -> Hv. unfold extractSyncConfig. rewrite Hv. cbn [negb default from_option id].
    f_equal. unfold buildSyncConfig. cbv zeta. cbn [default from_option id].
    rewrite Hid in Hv. apply negb_true_iff in Hv. rewrite Hv.
    destruct (includes ["index"; "value"] (method_or_index syncMethod));
      reflexivity.
Qed.

End SyncIds.

Import ExactNumbers Examples MoreExamples.

Lemma value_policy_round_trip_witness :
  exists j,
    transformTooltipIndex testData testData 2 "month" "month" ByValue = Some j /\
    0 <= j <= 2 /\
    findValueByIndex testData "month" j = VString "Mar" /\
    (forall k, 0 <= k < j -> findValueByIndex testData "month" k <> VString "Mar") /\
    ((forall k, 0 <= k < 2 -> findValueByIndex testData "month" k <> VString "Mar") ->
     j = 2).
Proof.
  apply (value_policy_round_trip testData "month" 2 "Mar"). reflexivity.
Defined.

Lemma value_policy_brush_round_trip_witness :
  exists r,
    transformBrushRange testData testData 1 3 "month" "month" ByValue = Some r /\
    0 <= range_start r <= 1 /\
    0 <= range_end r <= 3 /\
    findValueByIndex testData "month" (range_start r) = VString "Feb" /\
    findValueByIndex testData "month" (range_end r) = VString "Apr" /\
    (forall k, 0 <= k < range_start r ->
       findValueByIndex testData "month" k <> VString "Feb") /\
    (forall k, 0 <= k < range_end r ->
       findValueByIndex testData "month" k <> VString "Apr") /\
    ((forall k, 0 <= k < 1 -> findValueByIndex testData "month" k <> VString "Feb") ->
     (forall k, 0 <= k < 3 -> findValueByIndex testData "month" k <> VString "Apr") ->
     r = {| range_start := 1; range_end := 3 |}).
Proof.
  apply (value_policy_brush_round_trip testData "month" 1 3 "Feb" "Apr"); reflexivity.
Defined.

Lemma syncConfig_validation_witness :
  (forall s method tooltip brush,
     (buildSyncConfig ascii_trim s method tooltip brush = inl SyncIdRequired <->
      isValidSyncId ascii_trim (Some s) = false) /\
     (buildSyncConfig ascii_trim s method tooltip brush = inl SyncMethodInvalid <->
      isValidSyncId ascii_trim (Some s) = true /\
      default "index" method <> "index" /\ default "index" method <> "value") /\
     (isValidSyncId ascii_trim (Some s) = true ->
      default "index" method = "index" \/ default "index" method = "value" ->
      buildSyncConfig ascii_trim s method tooltip brush =
        inr (mkSyncConfig s (default "index" method) (default true tooltip)
               (default true brush)))) /\
  (extractSyncConfig ascii_trim (Some " chart-1 ") (Some "invalid") = None <->
   isValidSyncId ascii_trim (Some " chart-1 ") = false) /\
  (forall s, Some " chart-1 " = Some s ->
     isValidSyncId ascii_trim (Some " chart-1 ") = true ->
     extractSyncConfig ascii_trim (Some " chart-1 ") (Some "invalid") =
       Some (if includes ["index"; "value"] (method_or_index (Some "invalid"))
             then inr (mkSyncConfig s (method_or_index (Some "invalid")) true true)
             else inl SyncMethodInvalid)).
Proof.
  apply (syncConfig_validation ascii_trim). reflexivity.
Defined.

(** The call of the repository's test "should throw on invalid syncMethod",
    and the same method handed to [extractSyncConfig]. *)
Example invalid_method_throws :
  buildSyncConfig ascii_trim "chart-sync-1" (Some "invalid") None None
    = inl SyncMethodInvalid /\
  extractSyncConfig ascii_trim (Some "chart-sync-1") (Some "invalid")
    = Some (inl SyncMethodInvalid) /\
  extractSyncConfig ascii_trim (Some "chart-sync-1") (Some "")
    = Some (inr (mkSyncConfig "chart-sync-1" "index" true true)).
Proof. repeat split; vm_compute; reflexivity. Qed.

End SyncConfigRestFacts.

(* ===================================================================== *)
(** ** More on parseConfig and inferChartType *)
(* ===================================================================== *)

Module ParseConfigRestFacts.
Import JS ParseConfig ParseConfigRest.

Local Open Scope string_scope.

Lemma map_axis_lookup (side : AxisSide) (series axisSeries : list string)
    (m : gmap string AxisSide) (s : string) :
  map_axis side series axisSeries m !! s =
  if bool_decide (s ∈ axisSeries /\ s ∈ series /\ s <> "__proto__")
  then Some side else m !! s.
Proof.
  unfold map_axis. revert m.
  induction axisSeries as [|x rest IH]; intros m; cbn [fold_left].
  - rewrite bool_decide_eq_false_2; [reflexivity|].
    intros [Hin _]. apply elem_of_nil in Hin. exact Hin.
  - rewrite IH.
    destruct (decide (s ∈ rest /\ s ∈ series /\ s <> "__proto__")) as [Hin|Hnin].
    + rewrite !bool_decide_eq_true_2; [reflexivity| |exact Hin].
      destruct Hin as (Hr & Hs & Hp). repeat split; try assumption.
      apply list_elem_of_further. exact Hr.
    + rewrite (bool_decide_eq_false_2 _ Hnin).
      destruct (includes series x) eqn:Hx.
      * apply ParseConfigFacts.includes_elem_of in Hx.
        rewrite ParseConfigFacts.assign_lookup.
        destruct (decide (x = s /\ s <> "__proto__")) as [[-> Hp]|Hne].
        -- rewrite !bool_decide_eq_true_2; [reflexivity| |split; [reflexivity|exact Hp]].
           repeat split; [apply list_elem_of_here | exact Hx | exact Hp].
        -- rewrite (bool_decide_eq_false_2 _ Hne).
           rewrite bool_decide_eq_false_2; [reflexivity|].
           intros (Hin & Hs & Hp). apply elem_of_cons in Hin as [->|Hin].
           ++ apply Hne. split; [reflexivity | exact Hp].
           ++ apply Hnin. repeat split; assumption.
      * rewrite bool_decide_eq_false_2; [reflexivity|].
        intros (Hin & Hs & Hp). apply elem_of_cons in Hin as [->|Hin].
        -- apply ParseConfigFacts.includes_elem_of in Hs. congruence.
        -- apply Hnin. repeat split; assumption.
Qed.

Lemma build_seriesYAxisMap_lookup (yAxis yAxis2 : option AxisSpec)
    (series : list string) :
  build_seriesYAxisMap yAxis yAxis2 series =
  if axis_truthy yAxis || axis_truthy yAxis2
  then Some (map_axis AxisRight series (axis_names yAxis2)
               (map_axis AxisLeft series (axis_names yAxis) ∅))
  else None.
Proof.
  unfold build_seriesYAxisMap, axis_names.
  destruct (axis_truthy yAxis || axis_truthy yAxis2); [|reflexivity].
  cbv zeta. f_equal.
  destruct yAxis as [a|], yAxis2 as [b|];
    try destruct (axis_truthy (Some a)); try destruct (axis_truthy (Some b));
    reflexivity.
Qed.

Section WithNumbers.
Context `{JSNumber}.

(** X23. What a successful [parseConfig] guarantees: the canonical data is
    the resolved dataset and is not empty, the series list is not empty, the
    x-axis is a property of the first record (the declared one, or the
    first property when none is declared), a declared chart kind or
    non-empty series list is taken as it is, and an undeclared kind is the
    one [inferChartType] gives for the canonical data and series. *)
Theorem parseConfig_canonical (c : ChartConfig) (p : ParsedChartConfig) :
  parseConfig c = inr p ->
  resolve_data (config_data c) = inr (parsed_data p) /\
  parsed_series p <> [] /\
  (exists sampleItem,
     head (parsed_data p) = Some sampleItem /\
     parsed_xAxis p ∈ Object_keys sampleItem /\
     (config_xAxis c = None -> head (Object_keys sampleItem) = Some (parsed_xAxis p))) /\
  (forall x, config_xAxis c = Some x -> parsed_xAxis p = x) /\
  (forall kind, config_chartType c = Some kind -> parsed_chartType p = kind) /\
  (config_chartType c = None ->
   parsed_chartType p = inferChartType (parsed_data p) (parsed_series p)) /\
  (forall declared, config_series c = Some declared -> declared <> [] ->
   parsed_series p = declared).
Proof.
  intros Hp. apply ParseConfigFacts.parseConfig_inr in Hp
    as (sampleItem & rest & firstKey & keys & Hd & Hk & Hx & Hs & ->).
  cbv zeta in *.
  cbn [parsed_data parsed_series parsed_xAxis parsed_chartType].
  split; [exact Hd|]. split.
  { intros Hnil. rewrite Hnil in Hs. discriminate Hs. }
  split.
  { exists sampleItem. split; [reflexivity|]. rewrite Hk. split.
    - apply ParseConfigFacts.includes_elem_of. exact Hx.
    - intros ->. reflexivity. }
  split; [intros x ->; reflexivity|].
  split; [intros kind ->; reflexivity|].
  split; [intros ->; reflexivity|].
  intros declared -> Hne. cbn [default from_option id].
  destruct declared; [contradiction|reflexivity].
Qed.


(** X25. The dual-axis map of a canonical configuration exists exactly when
    one of the two axis declarations is given (an empty string counts as not
    given, an empty array as given).  It then sends a name to the right
    axis when the second declaration names it and it is a canonical series,
    otherwise to the left axis when the first declaration names it and it
    is a canonical series, and has no other entry: the right axis overrides
    the left one, and a name that is not a series is never mapped.  The one
    name an object cannot hold as an entry, "__proto__", is never mapped
    either. *)
Theorem parseConfig_seriesYAxisMap (c : ChartConfig) (p : ParsedChartConfig) :
  parseConfig c = inr p ->
  (parsed_seriesYAxisMap p = None <->
   axis_truthy (config_yAxis c) = false /\ axis_truthy (config_yAxis2 c) = false) /\
  (forall m, parsed_seriesYAxisMap p = Some m ->
   forall s, m !! s =
     if bool_decide (s ∈ axis_names (config_yAxis2 c) /\ s ∈ parsed_series p /\
                     s <> "__proto__")
     then Some AxisRight
     else if bool_decide (s ∈ axis_names (config_yAxis c) /\ s ∈ parsed_series p /\
                          s <> "__proto__")
     then Some AxisLeft
     else None).
Proof.
  intros Hp. apply ParseConfigFacts.parseConfig_inr in Hp
    as (sampleItem & rest & firstKey & keys & Hd & Hk & Hx & Hs & ->).
  cbv zeta in *. cbn [parsed_seriesYAxisMap parsed_series].
  rewrite build_seriesYAxisMap_lookup. split.
  - destruct (axis_truthy (config_yAxis c)), (axis_truthy (config_yAxis2 c));
      cbn [orb]; split; try discriminate; try (intros [? ?]; discriminate).
    + intros _. split; reflexivity.
    + reflexivity.
  - intros m. destruct (axis_truthy (config_yAxis c) || axis_truthy (config_yAxis2 c));
      [|discriminate].
    intros [= <-] s. rewrite !map_axis_lookup. rewrite lookup_empty. reflexivity.
Qed.

(** X26. The optional fields of a canonical configuration are the
    properties of the raw object that are among the recognised optional
    fields and are not [undefined], with their values unchanged; nothing
    else is copied. *)
Theorem parseConfig_optional_fields (c : ChartConfig) (p : ParsedChartConfig) :
  parseConfig c = inr p ->
  forall key v,
    parsed_optional p !! key = Some v <->
    config_rest c !! key = Some v /\ key ∈ passThroughKeys /\ v <> VUndefined.
Proof.
  intros Hp key v. apply ParseConfigFacts.parseConfig_inr in Hp
    as (sampleItem & rest & firstKey & keys & Hd & Hk & Hx & Hs & ->).
  cbv zeta in *. cbn [parsed_optional]. unfold pass_through.
  rewrite map_lookup_filter_Some. unfold passed_through. cbn [fst snd].
  rewrite andb_True, negb_True, !Is_true_true.
  rewrite ParseConfigFacts.includes_elem_of.
  split; intros (Hl & Hrest); (split; [exact Hl|]).
  - destruct Hrest as [Hkey Hu]. split; [exact Hkey|].
    intros ->. apply Hu. reflexivity.
  - destruct Hrest as [Hkey Hu]. split; [exact Hkey|].
    destruct v; cbn [is_undefined]; try discriminate. contradiction.
Qed.

(** X27. Each error of [parseConfig] has its cause in the input.  An
    unknown dataset is an identifier that is neither "sales-2024" nor the
    name of a member every object inherits; invalid data is data that is
    neither an array nor an identifier; the complaint about an empty array
    is raised for the empty array and for an identifier that names an
    inherited member; the one about items is raised for an array whose first
    element is not an object, the one about properties for a first record
    without any; a missing x-axis is always a declared one (the default, the
    first property of the first record, is never missing); and the lack of
    numeric columns is only reported when no series is declared and no
    property of the first record other than the x-axis holds a number or a
    numeric string in any record.  Conversely the four causes that lie in
    the data alone always raise their error. *)
Theorem parseConfig_errors (c : ChartConfig) (e : ParseError) :
  (parseConfig c = inl e ->
   match e with
   | DatasetNotFound datasetId =>
       config_data c = DataById datasetId /\ datasetId <> "sales-2024" /\
       inherited datasetId = false
   | InvalidData => config_data c = DataInvalid
   | EmptyData =>
       config_data c = DataArray [] \/
       exists datasetId, config_data c = DataById datasetId /\
         inherited datasetId = true
   | ItemsNotObjects => config_data c = DataOther
   | NoProperties =>
       exists sampleItem rest,
         resolve_data (config_data c) = inr (sampleItem :: rest) /\ sampleItem = []
   | XAxisNotFound xAxis =>
       config_xAxis c = Some xAxis /\
       exists sampleItem rest,
         resolve_data (config_data c) = inr (sampleItem :: rest) /\
         xAxis ∉ Object_keys sampleItem
   | NoNumericColumns =>
       default [] (config_series c) = [] /\
       exists sampleItem rest,
         resolve_data (config_data c) = inr (sampleItem :: rest) /\
         forall key item, key ∈ Object_keys sampleItem -> item ∈ sampleItem :: rest ->
           numeric_like (get item key) = true ->
           config_xAxis c = Some key \/
           (config_xAxis c = None /\ head (Object_keys sampleItem) = Some key)
   end) /\
  (config_data c = DataInvalid -> parseConfig c = inl InvalidData) /\
  (config_data c = DataArray [] -> parseConfig c = inl EmptyData) /\
  (config_data c = DataOther -> parseConfig c = inl ItemsNotObjects) /\
  (forall datasetId, config_data c = DataById datasetId ->
     datasetId <> "sales-2024" ->
     parseConfig c =
       inl (if inherited datasetId then EmptyData else DatasetNotFound datasetId)).
Proof.
  split.
  2:{ unfold parseConfig.
      split; [intros ->; reflexivity|]. split; [intros ->; reflexivity|].
      split; [intros ->; reflexivity|].
      intros datasetId -> Hne. cbn [resolve_data]. unfold mockDatabase.
      rewrite lookup_singleton_ne by congruence.
      destruct (inherited datasetId); reflexivity. }
  unfold parseConfig.
  destruct (resolve_data (config_data c)) as [e'|data] eqn:Hd.
  { intros [= <-]. unfold resolve_data in Hd.
    destruct (config_data c) as [items| |datasetId|]; [discriminate| | |].
    - injection Hd as <-. reflexivity.
    - destruct (mockDatabase !! datasetId) eqn:Hm; [discriminate|].
      destruct (inherited datasetId) eqn:Hin; injection Hd as <-.
      + right. exists datasetId. split; [reflexivity | exact Hin].
      + split; [reflexivity|]. split; [|exact Hin]. intros ->.
        unfold mockDatabase in Hm. rewrite lookup_singleton_eq in Hm. discriminate Hm.
    - injection Hd as <-. reflexivity. }
  destruct data as [|sampleItem rest].
  { intros [= <-]. unfold resolve_data in Hd.
    destruct (config_data c) as [items| |datasetId|];
      [left; congruence | discriminate | | discriminate].
    destruct (mockDatabase !! datasetId) eqn:Hm;
      [|destruct (inherited datasetId); discriminate].
    injection Hd as ->. exfalso. unfold mockDatabase in Hm.
    destruct (decide (datasetId = "sales-2024")) as [->|Hne].
    - rewrite lookup_singleton_eq in Hm. discriminate Hm.
    - rewrite lookup_singleton_ne in Hm by congruence. discriminate Hm. }
  destruct (Object_keys sampleItem) as [|firstKey keys] eqn:Hk.
  { intros [= <-]. exists sampleItem, rest. split; [reflexivity|].
    destruct sampleItem; [reflexivity | discriminate Hk]. }
  destruct (includes (firstKey :: keys) (default firstKey (config_xAxis c))) eqn:Hx;
    cbn [negb].
  2:{ intros [= <-]. destruct (config_xAxis c) as [x|]; cbn [default from_option id] in *.
      - split; [reflexivity|]. exists sampleItem, rest. split; [reflexivity|].
        rewrite Hk. intros Hin. apply ParseConfigFacts.includes_elem_of in Hin. congruence.
      - cbn [includes existsb] in Hx. rewrite String.eqb_refl in Hx. discriminate Hx. }
  destruct (Nat.eqb (length (default [] (config_series c))) 0) eqn:Hdecl.
  2:{ rewrite Hdecl. discriminate. }
  destruct (Nat.eqb (length (numeric_columns (sampleItem :: rest) (firstKey :: keys)
                               (default firstKey (config_xAxis c)))) 0) eqn:Hcols;
    [|discriminate].
  intros [= <-]. split.
  { destruct (default [] (config_series c)); [reflexivity | discriminate Hdecl]. }
  exists sampleItem, rest. split; [reflexivity|].
  rewrite Hk. cbn [head].
  intros key item Hkey Hitem Hnum.
  destruct (String.eqb_spec key (default firstKey (config_xAxis c))) as [Heq|Hne].
  { destruct (config_xAxis c) as [x|]; cbn [default from_option id] in Heq;
      [left | right; split; [reflexivity|]]; congruence. }
  exfalso.
  assert (key ∈ numeric_columns (sampleItem :: rest) (firstKey :: keys)
                 (default firstKey (config_xAxis c))) as Hin.
  { unfold numeric_columns. apply list_elem_of_filter. split; [|exact Hkey].
    apply Is_true_true. apply andb_true_intro. split.
    - apply negb_true_iff. apply String.eqb_neq. exact Hne.
    - apply existsb_exists. exists item. split; [apply list_elem_of_In; exact Hitem|exact Hnum]. }
  destruct (numeric_columns _ _ _); [apply elem_of_nil in Hin; exact Hin|discriminate Hcols].
Qed.

Lemma forallb_elem_of {A} (f : A -> bool) (l : list A) :
  forallb f l = true <-> forall x, x ∈ l -> f x = true.
Proof.
  rewrite forallb_forall. split; intros Hf x Hx; apply Hf; apply list_elem_of_In; exact Hx.
Qed.

(** X28. What each verdict of [inferChartType] implies.  The line and area
    kinds are never inferred; an empty dataset is a flow diagram; the
    scatter kind means two series, numeric in each of at least three
    records; radar means at least three series, all numeric in each of at
    least three records; funnel means one series and 2 to 15 records; pie
    means one series and 3 to 20 records; composed means at least two
    series; and bar means at most one series. *)
Theorem inferChartType_verdicts (data : list record) (series : list string) :
  inferChartType data series <> Line /\
  inferChartType data series <> Area /\
  (data = [] -> inferChartType data series = Sankey) /\
  (inferChartType data series = Scatter ->
   (3 <= length data)%nat /\
   exists a b, series = [a; b] /\
     forall item, item ∈ data ->
       numeric_like (get item a) = true /\ numeric_like (get item b) = true) /\
  (inferChartType data series = Radar ->
   (3 <= length data)%nat /\ (3 <= length series)%nat /\
   forall item s, item ∈ data -> s ∈ series -> numeric_like (get item s) = true) /\
  (inferChartType data series = Funnel ->
   length series = 1%nat /\ (2 <= length data <= 15)%nat) /\
  (inferChartType data series = Pie ->
   length series = 1%nat /\ (3 <= length data <= 20)%nat) /\
  (inferChartType data series = Composed -> (2 <= length series)%nat) /\
  (inferChartType data series = Bar -> (length series <= 1)%nat).
Proof.
  split; [|split; [|split]].
  1,2: unfold inferChartType;
    repeat match goal with
    | |- context [if ?b then _ else _] => destruct b
    end; discriminate.
  { intros ->. reflexivity. }
  unfold inferChartType.
  destruct (sankey_pattern data);
    [repeat split; discriminate|].
  destruct (treemap_children_pattern data);
    [repeat split; discriminate|].
  destruct (treemap_name_value_pattern data);
    [repeat split; discriminate|].
  destruct (scatter_pattern data series) eqn:Hsc.
  { split; [|repeat split; discriminate]. intros _.
    unfold scatter_pattern in Hsc.
    destruct series as [|a [|b [|? ?]]]; try discriminate Hsc.
    apply andb_prop in Hsc as [Hlen Hsc]. apply andb_prop in Hsc as [Hall _].
    apply Nat.leb_le in Hlen. split; [exact Hlen|].
    exists a, b. split; [reflexivity|]. intros item Hitem.
    apply (proj1 (forallb_elem_of _ _) Hall) in Hitem. cbv zeta in Hitem.
    apply andb_prop in Hitem. exact Hitem. }
  destruct (radar_pattern data series) eqn:Hr.
  { split; [discriminate|]. split; [|repeat split; discriminate]. intros _.
    unfold radar_pattern in Hr.
    apply andb_prop in Hr as [Hs Hr]. apply andb_prop in Hr as [Hall Hd].
    apply Nat.leb_le in Hs, Hd. split; [exact Hd|]. split; [exact Hs|].
    intros item s Hitem Hin.
    apply (proj1 (forallb_elem_of _ _) Hall) in Hitem.
    apply (proj1 (forallb_elem_of _ _) Hitem) in Hin. exact Hin. }
  destruct (funnel_pattern data series) eqn:Hf.
  { split; [discriminate|]. split; [discriminate|].
    split; [|repeat split; discriminate]. intros _.
    apply InferChartTypeFacts.funnel_pattern_true in Hf as (s & -> & Hlen & _).
    split; [reflexivity | exact Hlen]. }
  destruct (Nat.eqb (length series) 1 && (3 <=? length data)%nat
            && (length data <=? 20)%nat) eqn:Hp.
  { split; [discriminate|]. split; [discriminate|]. split; [discriminate|].
    split; [|repeat split; discriminate]. intros _.
    apply andb_prop in Hp as [Hp H20]. apply andb_prop in Hp as [H1 H3].
    apply Nat.eqb_eq in H1. apply Nat.leb_le in H3, H20. lia. }
  destruct (2 <=? length series)%nat eqn:H2.
  { apply Nat.leb_le in H2. repeat split; try discriminate. intros _. exact H2. }
  apply Nat.leb_gt in H2. repeat split; try discriminate. intros _. lia.
Qed.

End WithNumbers.

Import ExactNumbers Examples MoreExamples.

Lemma parseConfig_canonical_witness :
  exists p, parseConfig dual_axis_config = inr p /\
  (resolve_data (config_data dual_axis_config) = inr (parsed_data p) /\
   parsed_series p <> [] /\
   (exists sampleItem,
      head (parsed_data p) = Some sampleItem /\
      parsed_xAxis p ∈ Object_keys sampleItem /\
      (config_xAxis dual_axis_config = None ->
       head (Object_keys sampleItem) = Some (parsed_xAxis p))) /\
   (forall x, config_xAxis dual_axis_config = Some x -> parsed_xAxis p = x) /\
   (forall kind, config_chartType dual_axis_config = Some kind ->
      parsed_chartType p = kind) /\
   (config_chartType dual_axis_config = None ->
    parsed_chartType p = inferChartType (parsed_data p) (parsed_series p)) /\
   (forall declared, config_series dual_axis_config = Some declared -> declared <> [] ->
    parsed_series p = declared)).
Proof.
  eexists. split; [reflexivity|].
  apply (parseConfig_canonical dual_axis_config). reflexivity.
Defined.


Lemma parseConfig_seriesYAxisMap_witness :
  exists p, parseConfig dual_axis_config = inr p /\
  ((parsed_seriesYAxisMap p = None <->
    axis_truthy (config_yAxis dual_axis_config) = false /\
    axis_truthy (config_yAxis2 dual_axis_config) = false) /\
   (forall m, parsed_seriesYAxisMap p = Some m ->
    forall s, m !! s =
      if bool_decide (s ∈ axis_names (config_yAxis2 dual_axis_config) /\
                      s ∈ parsed_series p /\ s <> "__proto__")
      then Some AxisRight
      else if bool_decide (s ∈ axis_names (config_yAxis dual_axis_config) /\
                           s ∈ parsed_series p /\ s <> "__proto__")
      then Some AxisLeft
      else None)).
Proof.
  eexists. split; [reflexivity|].
  apply (parseConfig_seriesYAxisMap dual_axis_config). reflexivity.
Defined.

Lemma parseConfig_optional_fields_witness :
  exists p, parseConfig dual_axis_config = inr p /\
  (parsed_optional p !! "subtitle" = Some (VString "2024") <->
   config_rest dual_axis_config !! "subtitle" = Some (VString "2024") /\
   "subtitle" ∈ passThroughKeys /\ VString "2024" <> VUndefined).
Proof.
  eexists. split; [reflexivity|].
  apply (parseConfig_optional_fields dual_axis_config). reflexivity.
Defined.

Lemma parseConfig_errors_witness :
  config_xAxis missing_axis_config = Some "year" /\
  exists sampleItem rest,
    resolve_data (config_data missing_axis_config) = inr (sampleItem :: rest) /\
    "year" ∉ Object_keys sampleItem.
Proof.
  apply (proj1 (parseConfig_errors missing_axis_config (XAxisNotFound "year"))).
  reflexivity.
Defined.

(** Names that every object inherits.  The series "constructor" and
    "__proto__" of a composed chart get no default type while "sales", the
    second series, becomes a line; "__proto__" is not put on an axis; and
    the dataset identifier "constructor" is answered with the complaint
    about an empty array, not with the one about an unknown dataset. *)
Example inherited_names :
  (exists p, parseConfig inherited_names_config = inr p /\
     parsed_chartType p = Composed /\
     parsed_seriesConfig p !! "constructor" = None /\
     parsed_seriesConfig p !! "sales" = Some SeriesLine /\
     parsed_seriesConfig p !! "__proto__" = None /\
     (fun m => (m !! "sales", m !! "__proto__")) <$> parsed_seriesYAxisMap p
       = Some (Some AxisLeft, None)) /\
  parseConfig inherited_dataset_config = inl EmptyData.
Proof.
  split; [|reflexivity].
  eexists. split; [reflexivity|]. repeat split; vm_compute; reflexivity.
Qed.

End ParseConfigRestFacts.
